(** * Toll Brothers scraper: a shallow embedding of the extraction pipeline

    The development follows [get_tollbrothers_page.py]
    (class [TollBrothersDetailScraper]) and the page fetcher of
    [get_tollbrothers_api_links.py].  Text is modelled as strings over the
    code points 0 to 255, with the character classes that Python's [str]
    and [re] have on them, the parsed page as a tree of tags and strings,
    decoded JSON as a small value type, and the rendering engine as an
    oracle consulted by a state machine. *)

From Stdlib Require Import ZArith Ascii String List Bool Lia Sorted.
From stdpp Require Import base option list strings gmap fin_maps.

Import ListNotations.
Local Open Scope string_scope.
Local Open Scope list_scope.

(** ** Python string helpers *)

Module PyStr.

Definition chars (s : string) : list ascii := list_ascii_of_string s.
Definition str (l : list ascii) : string := string_of_list_ascii l.

(** The decimal digits: the pattern class [\d], and the only digits that
    [int()] reads. *)
Definition is_digit (c : ascii) : bool :=
  let n := nat_of_ascii c in (48 <=? n)%nat && (n <=? 57)%nat.

(** The characters that [str.strip()] and the pattern class [\s] treat as
    white space: TAB, LF, VT, FF, CR, the separators 0x1C to 0x1F, the
    space, NEL (0x85) and the no-break space (0xA0). *)
Definition is_space (c : ascii) : bool :=
  let n := nat_of_ascii c in
  (n =? 32)%nat || ((9 <=? n)%nat && (n <=? 13)%nat)
  || ((28 <=? n)%nat && (n <=? 31)%nat) || (n =? 133)%nat || (n =? 160)%nat.

(** The characters that [str.isdigit()] accepts: the decimal digits and
    the superscripts two, three (0xB2, 0xB3) and one (0xB9). *)
Definition is_digit_char (c : ascii) : bool :=
  let n := nat_of_ascii c in
  is_digit c || (n =? 178)%nat || (n =? 179)%nat || (n =? 185)%nat.

(** The letters: A-Z, a-z, the ordinal indicators (0xAA, 0xBA), the micro
    sign (0xB5) and 0xC0 to 0xFF without the signs 0xD7 and 0xF7. *)
Definition is_alpha (c : ascii) : bool :=
  let n := nat_of_ascii c in
  ((65 <=? n)%nat && (n <=? 90)%nat) || ((97 <=? n)%nat && (n <=? 122)%nat)
  || (n =? 170)%nat || (n =? 181)%nat || (n =? 186)%nat
  || ((192 <=? n)%nat && negb (n =? 215)%nat && negb (n =? 247)%nat).

(** The pattern class [\w]: the letters, the characters of
    [str.isdigit()], the fractions 0xBC to 0xBE and the underscore. *)
Definition is_word (c : ascii) : bool :=
  let n := nat_of_ascii c in
  is_alpha c || is_digit_char c || ((188 <=? n)%nat && (n <=? 190)%nat)
  || (n =? 95)%nat.

Definition ascii_eqb (a b : ascii) : bool := Ascii.eqb a b.

Definition mem_char (c : ascii) (l : list ascii) : bool :=
  existsb (ascii_eqb c) l.

Fixpoint lstrip_by (p : ascii -> bool) (l : list ascii) : list ascii :=
  match l with
  | c :: l' => if p c then lstrip_by p l' else l
  | [] => []
  end.

Definition strip_by (p : ascii -> bool) (l : list ascii) : list ascii :=
  rev (lstrip_by p (rev (lstrip_by p l))).

(** [s.strip()] *)
Definition strip (s : string) : string := str (strip_by is_space (chars s)).

(** [s.strip(cs)] *)
Definition strip_chars (cs s : string) : string :=
  str (strip_by (fun c => mem_char c (chars cs)) (chars s)).

Fixpoint starts_with (p l : list ascii) : bool :=
  match p, l with
  | [], _ => true
  | a :: p', b :: l' => ascii_eqb a b && starts_with p' l'
  | _ :: _, [] => false
  end.

(** [s.startswith(p)] *)
Definition startswith (p s : string) : bool := starts_with (chars p) (chars s).

Fixpoint infix_of (p l : list ascii) : bool :=
  starts_with p l ||
  match l with
  | [] => false
  | _ :: l' => infix_of p l'
  end.

(** [p in s] on strings *)
Definition contains (p s : string) : bool := infix_of (chars p) (chars s).

(** The capital letters are A-Z and 0xC0 to 0xDE without the sign
    0xD7; the small one is 32 further. *)
Definition lower_char (c : ascii) : ascii :=
  let n := nat_of_ascii c in
  if ((65 <=? n)%nat && (n <=? 90)%nat)
     || ((192 <=? n)%nat && (n <=? 222)%nat && negb (n =? 215)%nat)
  then ascii_of_nat (n + 32) else c.

(** [s.lower()] *)
Definition lower (s : string) : string := str (map lower_char (chars s)).

(** [s.replace(',', '')] *)
Definition remove_commas (s : string) : string :=
  str (filter (fun c => negb (ascii_eqb c ","%char)) (chars s)).

(** [s.isdigit()] *)
Definition isdigit (s : string) : bool :=
  match chars s with
  | [] => false
  | l => forallb is_digit_char l
  end.

Definition digit_val (c : ascii) : Z := Z.of_nat (nat_of_ascii c) - 48.

(** [sys.int_info.default_max_str_digits] *)
Definition max_str_digits : nat := 4300.

(** [int(s)] for a text without sign, white space or underscore; [None]
    is [ValueError]: of an empty text, of a character that is no decimal
    digit, and of more than [max_str_digits] digits. *)
Definition int_of_digits (s : string) : option Z :=
  match chars s with
  | [] => None
  | l =>
      if forallb is_digit l && (length l <=? max_str_digits)%nat
      then Some (fold_left (fun acc c => 10 * acc + digit_val c)%Z l 0%Z)
      else None
  end.

Definition digit_char (d : Z) : ascii := ascii_of_nat (Z.to_nat d + 48).

Fixpoint digits_fuel (fuel : nat) (n : Z) (acc : list ascii) : list ascii :=
  match fuel with
  | O => acc
  | S f =>
      let acc' := digit_char (n mod 10) :: acc in
      if (n <? 10)%Z then acc' else digits_fuel f (n / 10)%Z acc'
  end.

(** Decimal digits of a natural number, most significant first. *)
Definition digits (n : Z) : list ascii :=
  digits_fuel (S (Z.to_nat (Z.log2 n))) n [].

(** [str(n)] for an integer *)
Definition str_of_int (n : Z) : string :=
  if (n <? 0)%Z then String "-"%char (str (digits (- n))) else str (digits n).

(** Insert a comma before every group of three digits, counted from the
    right; [rev_ds] is the digit list reversed. *)
Fixpoint group3 (rev_ds : list ascii) : list ascii :=
  match rev_ds with
  | a :: b :: c :: ((_ :: _) as rest) => a :: b :: c :: ","%char :: group3 rest
  | _ => rev_ds
  end.

(** [f"{n:,}"] for an integer *)
Definition format_thousands (n : Z) : string :=
  let body := str (rev (group3 (rev (digits (Z.abs n))))) in
  if (n <? 0)%Z then String "-"%char body else body.

(** Python's [<] on strings: code-point-wise lexicographic order. *)
Fixpoint lt_chars (a b : list ascii) : bool :=
  match a, b with
  | [], [] => false
  | [], _ :: _ => true
  | _ :: _, [] => false
  | x :: a', y :: b' =>
      let nx := nat_of_ascii x in
      let ny := nat_of_ascii y in
      if (nx <? ny)%nat then true
      else if (ny <? nx)%nat then false
      else lt_chars a' b'
  end.

Definition ltb (a b : string) : bool := lt_chars (chars a) (chars b).

(** [s.replace(old, '')] for a non-empty [old]: the occurrences of [old]
    are dropped from left to right; [skip] counts the characters of an
    occurrence that are still to be dropped. *)
Fixpoint remove_sub_from (old : list ascii) (skip : nat) (l : list ascii)
  : list ascii :=
  match l with
  | [] => []
  | c :: l' =>
      match skip with
      | S k => remove_sub_from old k l'
      | O =>
          if starts_with old l then remove_sub_from old (length old - 1) l'
          else c :: remove_sub_from old 0 l'
      end
  end.

Definition remove_sub (old s : string) : string :=
  str (remove_sub_from (chars old) 0 (chars s)).

(** [s.split(sep)] for a one-character separator *)
Fixpoint split_chars (sep : ascii) (l : list ascii) : list (list ascii) :=
  match l with
  | [] => [[]]
  | c :: l' =>
      if ascii_eqb c sep then [] :: split_chars sep l'
      else
        match split_chars sep l' with
        | p :: ps => (c :: p) :: ps
        | [] => [[c]]
        end
  end.

Definition split (sep : ascii) (s : string) : list string :=
  map str (split_chars sep (chars s)).

End PyStr.

(** ** Regular expressions

    The patterns of the source are compiled by Python's [re]: a
    backtracking matcher that prefers the left alternative and the longer
    repetition.  [run r s] lists, in that order of preference, what is left
    of [s] after each way of matching [r] at its start. *)

Module Regex.

Inductive re : Type :=
| Eps : re
| Cls : (ascii -> bool) -> re
| Seq : re -> re -> re
| Alt : re -> re -> re
| Star : re -> re
| Eos : re.

Definition Chr (c : ascii) : re := Cls (PyStr.ascii_eqb c).
Definition Opt (r : re) : re := Alt r Eps.
Definition Plus (r : re) : re := Seq r (Star r).

Fixpoint Lit (l : list ascii) : re :=
  match l with
  | [] => Eps
  | c :: l' => Seq (Chr c) (Lit l')
  end.

Definition lit (s : string) : re := Lit (PyStr.chars s).

(** [r{n}] *)
Fixpoint Rep (n : nat) (r : re) : re :=
  match n with
  | O => Eps
  | S n' => Seq r (Rep n' r)
  end.

(** [r{0,n}], greedy *)
Fixpoint UpTo (n : nat) (r : re) : re :=
  match n with
  | O => Eps
  | S n' => Opt (Seq r (UpTo n' r))
  end.

Fixpoint run (r : re) (s : list ascii) : list (list ascii) :=
  match r with
  | Eps => [s]
  | Cls p =>
      match s with
      | c :: s' => if p c then [s'] else []
      | [] => []
      end
  | Seq r1 r2 => flat_map (run r2) (run r1 s)
  | Alt r1 r2 => run r1 s ++ run r2 s
  | Star r1 =>
      (fix star (fuel : nat) (s : list ascii) : list (list ascii) :=
         match fuel with
         | O => [s]
         | S fuel' =>
             flat_map
               (fun s' =>
                  if (length s' <? length s)%nat then star fuel' s' else [])
               (run r1 s)
             ++ [s]
         end) (length s) s
  | Eos =>
      (* [$]: the end of the text, or just before a final newline *)
      match s with
      | [] => [s]
      | [c] => if PyStr.ascii_eqb c (ascii_of_nat 10) then [s] else []
      | _ => []
      end
  end.

(** The preferred match of [r] at the start of [s]: the text consumed. *)
Definition match_here (r : re) (s : list ascii) : option (list ascii) :=
  match run r s with
  | rest :: _ => Some (firstn (length s - length rest) s)
  | [] => None
  end.

(** [re.search]: the preferred match at the leftmost position that has
    one. *)
Fixpoint search_chars (r : re) (s : list ascii) : option (list ascii) :=
  match match_here r s with
  | Some m => Some m
  | None =>
      match s with
      | [] => None
      | _ :: s' => search_chars r s'
      end
  end.

(** [re.search(r, s)], with [group(0)] as the result. *)
Definition search (r : re) (s : string) : option string :=
  option_map PyStr.str (search_chars r (PyStr.chars s)).

Definition found (r : re) (s : string) : bool :=
  match search r s with Some _ => true | None => false end.

Definition digit : re := Cls PyStr.is_digit.
Definition space : re := Cls PyStr.is_space.

(** The patterns of [get_tollbrothers_page.py]. *)

(** [starting at \$[\d,]+] *)
Definition re_price : re :=
  Seq (lit "starting at $")
      (Plus (Cls (fun c => PyStr.is_digit c || PyStr.ascii_eqb c ","%char))).

(** [\d{3}-\d{3}-\d{4}] *)
Definition re_phone : re :=
  Seq (Rep 3 digit) (Seq (Chr "-") (Seq (Rep 3 digit) (Seq (Chr "-") (Rep 4 digit)))).

(** [Goodyear, AZ \d{5}] *)
Definition re_address : re := Seq (lit "Goodyear, AZ ") (Rep 5 digit).

(** [Located in an amenity-rich master-planned community] *)
Definition re_description : re :=
  lit "Located in an amenity-rich master-planned community".

(** [Elevate the Everyday] *)
Definition re_amenities : re := lit "Elevate the Everyday".

(** [\d{1,3}(?:,\d{3})*], the number part shared by the two patterns of
    [extract_sqft_range]. *)
Definition re_grouped_number : re :=
  Seq (Seq digit (UpTo 2 digit)) (Star (Seq (Chr ",") (Rep 3 digit))).

(** [\d{1,3}(?:,\d{3})*\s*sqft] *)
Definition re_sqft : re :=
  Seq re_grouped_number (Seq (Star space) (lit "sqft")).

(** [\d+\s*(?:bd|ba)] *)
Definition re_bd_ba : re :=
  Seq (Plus digit) (Seq (Star space) (Alt (lit "bd") (lit "ba"))).

(** [\d+\s*(?:bd|ba|sqft)] *)
Definition re_bd_ba_sqft : re :=
  Seq (Plus digit)
      (Seq (Star space) (Alt (lit "bd") (Alt (lit "ba") (lit "sqft")))).

(** [/(\w+)$], the pattern of the homesite id *)
Definition re_id : re :=
  Seq (Chr "/") (Seq (Plus (Cls PyStr.is_word)) Eos).

(** The first class of the coordinate patterns: a double quote, white
    space or a colon. *)
Definition is_coord_sep (c : ascii) : bool :=
  PyStr.ascii_eqb c (ascii_of_nat 34) || PyStr.is_space c
  || PyStr.ascii_eqb c ":"%char.

(** The class [[\d.-]] *)
Definition is_coord_char (c : ascii) : bool :=
  PyStr.is_digit c || PyStr.ascii_eqb c "."%char || PyStr.ascii_eqb c "-"%char.

(** The patterns for [latitude] and [longitude]: the key, one or more
    characters of the first class, then group 1, [[\d.-]+]. *)
Definition re_coordinate (key : string) : re :=
  Seq (lit key) (Seq (Plus (Cls is_coord_sep)) (Plus (Cls is_coord_char))).

(** Group 1 of a match of [re_coordinate key]: what follows the key and
    the characters of the first class, which the second class excludes. *)
Definition coordinate_group (key m : string) : string :=
  PyStr.str (PyStr.lstrip_by is_coord_sep
               (skipn (String.length key) (PyStr.chars m))).

End Regex.

(** ** The parsed page

    What [BeautifulSoup(page_source, 'html.parser')] returns: a tree of tags
    and strings.  A tag carries its name, the tokens of its [class]
    attribute (the parser stores that attribute as a list), its other
    attributes and its children. *)

Module Soup.

#[warnings="-register-all"]
Inductive node : Type :=
| Str (s : string)
| Tag (name : string) (classes : list string)
      (attrs : list (string * string)) (kids : list node).

(** The root object of a parsed page. *)
Definition document (kids : list node) : node := Tag "[document]" [] [] kids.

(** [n.descendants]: every node below [n], in document order. *)
Fixpoint descendants (n : node) : list node :=
  match n with
  | Str _ => []
  | Tag _ _ _ ks =>
      (fix walk (ks : list node) : list node :=
         match ks with
         | [] => []
         | k :: ks' => k :: descendants k ++ walk ks'
         end) ks
  end.

(** [n.text]: the strings below [n], concatenated. *)
Fixpoint text (n : node) : string :=
  match n with
  | Str s => s
  | Tag _ _ _ ks =>
      (fix cat (ks : list node) : string :=
         match ks with
         | [] => ""
         | k :: ks' => String.append (text k) (cat ks')
         end) ks
  end.

(** [n.string]: the only string of a tag, found through chains of only
    children; [None] when some tag on the way has no or several
    children. *)
Fixpoint string_of (n : node) : option string :=
  match n with
  | Str s => Some s
  | Tag _ _ _ [k] => string_of k
  | Tag _ _ _ _ => None
  end.

Definition is_tag (n : node) : bool :=
  match n with Tag _ _ _ _ => true | Str _ => false end.

Definition name_is (nm : string) (n : node) : bool :=
  match n with
  | Tag nm' _ _ _ => String.eqb nm nm'
  | Str _ => false
  end.

Definition classes_of (n : node) : list string :=
  match n with Tag _ cs _ _ => cs | Str _ => [] end.

Fixpoint assoc (k : string) (l : list (string * string)) : option string :=
  match l with
  | [] => None
  | (k', v) :: l' => if String.eqb k k' then Some v else assoc k l'
  end.

(** [n.get(k)] *)
Definition attr (k : string) (n : node) : option string :=
  match n with
  | Tag _ _ as_ _ => assoc k as_
  | Str _ => None
  end.

Definition has_class (c : string) (n : node) : bool :=
  existsb (String.eqb c) (classes_of n).

(** How a search matches the multi-valued [class] attribute against
    [m]: some token satisfies [m], or the tokens joined by spaces do. *)
Definition class_matches (m : string -> bool) (n : node) : bool :=
  match classes_of n with
  | [] => false
  | cs => existsb m cs || m (String.concat " " cs)
  end.

(** [n.find_all(text=r)]: the strings below [n] on which [r] is found. *)
Definition find_all_text (r : Regex.re) (n : node) : list string :=
  omap (fun d => match d with
                 | Str s => if Regex.found r s then Some s else None
                 | Tag _ _ _ _ => None
                 end) (descendants n).

(** [n.find(text=r)] *)
Definition find_text (r : Regex.re) (n : node) : option string :=
  head (find_all_text r n).

(** [n.find_all(nm)] *)
Definition find_all_tag (nm : string) (n : node) : list node :=
  filter (fun d => name_is nm d = true) (descendants n).

(** [n.find(nm)] *)
Definition find_tag (nm : string) (n : node) : option node :=
  head (find_all_tag nm n).

Definition string_found (r : Regex.re) (n : node) : bool :=
  match string_of n with
  | Some s => Regex.found r s
  | None => false
  end.

(** [n.find(nm, string=r)]: the first tag named [nm] whose [.string]
    exists and has a match of [r]. *)
Definition find_tag_string (nm : string) (r : Regex.re) (n : node)
  : option node :=
  head (filter (fun d => name_is nm d && string_found r d = true)
               (descendants n)).

(** [n.find_all(nm, class_=m)] for a callable [m] *)
Definition find_all_tag_class (nm : string) (m : string -> bool) (n : node)
  : list node :=
  filter (fun d => name_is nm d && class_matches m d = true) (descendants n).

(** [n.find(nm, class_=c)] for a string [c] *)
Definition find_tag_class (nm c : string) (n : node) : option node :=
  head (find_all_tag_class nm (String.eqb c) n).

(** [n.find_all(nm, type=t)] *)
Definition find_all_tag_type (nm t : string) (n : node) : list node :=
  filter (fun d => name_is nm d &&
                   match attr "type" d with
                   | Some t' => String.eqb t t'
                   | None => false
                   end = true) (descendants n).

(** [n.find(id=i)] *)
Definition find_id (i : string) (n : node) : option node :=
  head (filter (fun d => match attr "id" d with
                         | Some i' => String.eqb i i'
                         | None => false
                         end = true) (descendants n)).

(** [n.select('nm.c1.c2...')] *)
Definition select (nm : string) (cs : list string) (n : node) : list node :=
  filter (fun d => name_is nm d && forallb (fun c => has_class c d) cs = true)
         (descendants n).

(** [n.select_one('nm.c')] *)
Definition select_one (nm c : string) (n : node) : option node :=
  head (select nm [c] n).

(** [n.select_one('a, b, c')] *)
Definition select_one_of (nms : list string) (n : node) : option node :=
  head (filter (fun d => existsb (fun nm => name_is nm d) nms = true)
               (descendants n)).

(** [n.find_all(nm, k=True)]: the tags named [nm] that carry the
    attribute [k], whatever its value. *)
Definition find_all_tag_with (nm k : string) (n : node) : list node :=
  filter (fun d => name_is nm d &&
                   match attr k d with Some _ => true | None => false end
                   = true) (descendants n).

(** [n.find(nm, k=True)] *)
Definition find_tag_with (nm k : string) (n : node) : option node :=
  head (find_all_tag_with nm k n).

End Soup.

(** ** Python values

    What [json.loads] returns and what the scraper stores in its records.
    A float is kept as mantissa and decimal exponent. *)

#[warnings="-register-all"]
Inductive value : Type :=
| VNone
| VBool (b : bool)
| VInt (z : Z)
| VFloat (m e : Z)
| VStr (s : string)
| VList (l : list value)
| VDict (d : gmap string value).

Module Py.

(** Truth value of an object, as [if x], [x or y] and [not x] use it. *)
Definition truthy (v : value) : bool :=
  match v with
  | VNone => false
  | VBool b => b
  | VInt z => negb (z =? 0)%Z
  | VFloat m _ => negb (m =? 0)%Z
  | VStr s => negb (String.eqb s "")
  | VList l => match l with [] => false | _ => true end
  | VDict d => negb (bool_decide (d = ∅))
  end.

Definition of_option (o : option string) : value :=
  match o with Some s => VStr s | None => VNone end.

(** [d.get(k, default)] *)
Definition get (k : string) (default : value) (d : gmap string value) : value :=
  match d !! k with Some v => v | None => default end.

(** [d.update(e)]: the entries of [e] replace those of [d]. *)
Definition update (d e : gmap string value) : gmap string value := e ∪ d.

(** [a or b] *)
Definition or (a b : value) : value := if truthy a then a else b.

(** [try: body / except Exception: return handler], where a body that
    raises is [None]. *)
Definition try_except {A : Type} (body : option A) (handler : A) : A :=
  match body with Some a => a | None => handler end.

(** [s.add(x)] on a set kept as a duplicate-free list *)
Definition set_add {A : Type} (eqb : A -> A -> bool) (x : A) (s : list A)
  : list A :=
  if existsb (eqb x) s then s else s ++ [x].

(** [min(s)] and [max(s)] on strings; the caller has checked that [s] is
    not empty. *)
Definition min_str (s : list string) : string :=
  match s with
  | [] => ""
  | x :: r => fold_left (fun m y => if PyStr.ltb y m then y else m) r x
  end.

Definition max_str (s : list string) : string :=
  match s with
  | [] => ""
  | x :: r => fold_left (fun m y => if PyStr.ltb m y then y else m) r x
  end.

Definition min_int (s : list Z) : Z :=
  match s with
  | [] => 0%Z
  | x :: r => fold_left Z.min r x
  end.

Definition max_int (s : list Z) : Z :=
  match s with
  | [] => 0%Z
  | x :: r => fold_left Z.max r x
  end.

(** [v[k]] on a dict; [None] when [v] is no dict or lacks the key. *)
Definition item (k : string) (v : value) : option value :=
  match v with
  | VDict d => d !! k
  | _ => None
  end.

(** [v[k1][k2]...] *)
Fixpoint path (ks : list string) (v : value) : option value :=
  match ks with
  | [] => Some v
  | k :: ks' =>
      match item k v with
      | Some v' => path ks' v'
      | None => None
      end
  end.

(** [next((d for d in l if p(d)), default)] *)
Definition next_or (p : string -> bool) (default : string) (l : list string)
  : string :=
  match List.find p l with Some d => d | None => default end.

End Py.

(** ** The field extractors of [TollBrothersDetailScraper] *)

Module Extract.

Import Soup.

Definition nonempty (s : string) : bool := negb (String.eqb s "").

(** [lambda x: x and 'home-design' in x.lower()] *)
Definition is_home_design (x : string) : bool :=
  nonempty x && PyStr.contains "home-design" (PyStr.lower x).

(** [lambda x: x and 'amenity' in x.lower()] *)
Definition is_amenity (x : string) : bool :=
  nonempty x && PyStr.contains "amenity" (PyStr.lower x).

(** [soup.find_all('div', class_=lambda x: x and 'home-design' in x.lower())] *)
Definition home_designs (soup : node) : list node :=
  find_all_tag_class "div" is_home_design soup.

Definition extract_price_range (soup : node) : option string :=
  match find_text Regex.re_price soup with
  | Some price_text =>
      if nonempty price_text then Some (PyStr.strip price_text) else None
  | None => None
  end.

(** The loop over [specs] of one design. *)
Definition add_specs (acc : list string * list string) (specs : list string)
  : list string * list string :=
  fold_left
    (fun '(beds, baths) spec =>
       if PyStr.contains "bd" spec
       then (Py.set_add String.eqb (PyStr.strip spec) beds, baths)
       else if PyStr.contains "ba" spec
       then (beds, Py.set_add String.eqb (PyStr.strip spec) baths)
       else (beds, baths))
    specs acc.

Definition str_range (s : list string) : option string :=
  match s with
  | [] => None
  | _ => Some (Py.min_str s ++ " - " ++ Py.max_str s)%string
  end.

Definition extract_beds_baths_range (soup : node)
  : option string * option string :=
  let '(beds, baths) :=
    fold_left
      (fun acc design => add_specs acc (find_all_text Regex.re_bd_ba design))
      (home_designs soup) ([], []) in
  (str_range beds, str_range baths).

(** One iteration of the loop of [extract_sqft_range]; [None] is the
    [ValueError] of [int]. *)
Definition add_sqft (sqft_values : list Z) (design : node)
  : option (list Z) :=
  match find_text Regex.re_sqft design with
  | Some sqft_text =>
      if nonempty sqft_text then
        match Regex.search Regex.re_grouped_number sqft_text with
        | Some group1 =>
            match PyStr.int_of_digits (PyStr.remove_commas group1) with
            | Some n => Some (Py.set_add Z.eqb n sqft_values)
            | None => None
            end
        | None => Some sqft_values
        end
      else Some sqft_values
  | None => Some sqft_values
  end.

Fixpoint collect_sqft (sqft_values : list Z) (designs : list node)
  : option (list Z) :=
  match designs with
  | [] => Some sqft_values
  | design :: rest =>
      match add_sqft sqft_values design with
      | Some sqft_values' => collect_sqft sqft_values' rest
      | None => None
      end
  end.

Definition extract_sqft_range (soup : node) : option string :=
  Py.try_except
    (match collect_sqft [] (home_designs soup) with
     | Some sqft_values =>
         match sqft_values with
         | [] => Some None
         | _ =>
             let min_sqft := Py.min_int sqft_values in
             let max_sqft := Py.max_int sqft_values in
             Some (Some (PyStr.format_thousands min_sqft ++ " - "
                         ++ PyStr.format_thousands max_sqft)%string)
         end
     | None => None
     end)
    None.

Definition amenity_of (item : node) : option value :=
  match find_tag "h3" item with
  | Some name =>
      Some (VDict (list_to_map
        [("name", VStr (PyStr.strip (text name)));
         ("description",
           VStr (match find_tag "p" item with
                 | Some desc => PyStr.strip (text desc)
                 | None => ""
                 end));
         ("icon_url", VStr "")]))
  | None => None
  end.

Definition extract_amenities (soup : node) : list value :=
  match find_tag_string "section" Regex.re_amenities soup with
  | Some amenities_section =>
      omap amenity_of (find_all_tag_class "div" is_amenity amenities_section)
  | None => []
  end.

Definition extract_phone (soup : node) : string :=
  match find_text Regex.re_phone soup with
  | Some phone_element =>
      if nonempty phone_element then PyStr.strip phone_element else ""
  | None => ""
  end.

Definition extract_address (soup : node) : string :=
  match find_tag_string "div" Regex.re_address soup with
  | Some address_element => PyStr.strip (text address_element)
  | None => ""
  end.

Definition extract_description (soup : node) : string :=
  match find_tag_string "div" Regex.re_description soup with
  | Some desc_element => PyStr.strip (text desc_element)
  | None => ""
  end.

(** [img.get('src') and not img['src'].startswith('data:')] *)
Definition usable_src (img : node) : option string :=
  match attr "src" img with
  | Some src =>
      if nonempty src && negb (PyStr.startswith "data:" src)
      then Some src else None
  | None => None
  end.

Definition extract_images (soup : node) : list string :=
  match find_id "toScroll-gallery" soup with
  | Some gallery => omap usable_src (find_all_tag "img" gallery)
  | None => []
  end.

Definition homeplan_of (design : node) : option value :=
  match find_tag "h3" design, find_all_text Regex.re_bd_ba_sqft design with
  | Some name, (_ :: _) as details =>
      Some (VDict (list_to_map
        [("name", VStr (PyStr.strip (text name)));
         ("url", VStr "");
         ("details", VDict (list_to_map
            [("price", VStr "");
             ("beds", VStr (Py.next_or (PyStr.contains "bd") "" details));
             ("baths", VStr (Py.next_or (PyStr.contains "ba") "" details));
             ("sqft", VStr (Py.next_or (PyStr.contains "sqft") "" details));
             ("status", VStr "");
             ("image_url", VStr "")]));
         ("includedFeatures", VList [])]))
  | _, _ => None
  end.

Definition extract_homeplans (soup : node) : list value :=
  omap homeplan_of (home_designs soup).

(** The dict that [extract_location] starts from and returns. *)
Definition location_record (latitude longitude : value)
    (city state : option string) : value :=
  VDict (list_to_map
    [("latitude", latitude);
     ("longitude", longitude);
     ("address", VDict (list_to_map
        [("city", Py.of_option city);
         ("state", Py.of_option state);
         ("market", VNone)]))]).

(** [address_parts[i].strip() if len(address_parts) > i], under
    [if address:] *)
Definition address_part (i : nat) (address : option string) : option string :=
  match address with
  | Some a =>
      if nonempty a
      then option_map PyStr.strip (nth_error (PyStr.split ","%char a) i)
      else None
  | None => None
  end.

(** The two searches in the text of the script and the two calls of
    [float], given as [to_float] with [None] for [ValueError]; the outer
    [None] is an exception, [Some None] a script without both matches. *)
Definition coordinates (to_float : string -> option (Z * Z)) (script : string)
  : option (option (value * value)) :=
  match Regex.search (Regex.re_coordinate "latitude") script,
        Regex.search (Regex.re_coordinate "longitude") script with
  | Some lat_match, Some lng_match =>
      match to_float (Regex.coordinate_group "latitude" lat_match) with
      | Some (m1, e1) =>
          match to_float (Regex.coordinate_group "longitude" lng_match) with
          | Some (m2, e2) => Some (Some (VFloat m1 e1, VFloat m2 e2))
          | None => None
          end
      | None => None
      end
  | _, _ => Some None
  end.

Definition extract_location (to_float : string -> option (Z * Z))
    (soup : node) (address : option string) : value :=
  Py.try_except
    (let city := address_part 1 address in
     let state := address_part 2 address in
     match find_tag_string "script" (Regex.lit "latitude") soup with
     | Some location_script =>
         match string_of location_script with
         | Some script =>
             match coordinates to_float script with
             | Some (Some (latitude, longitude)) =>
                 Some (location_record latitude longitude city state)
             | Some None => Some (location_record VNone VNone city state)
             | None => None
             end
         | None => None
         end
     | None => Some (location_record VNone VNone city state)
     end)
    (location_record VNone VNone None None).

End Extract.

(** ** The outside world

    What the scraper does not compute itself: the JSON decoder, Python's
    [repr] of compound values, the browser and the clock.  The browser is
    consulted once per fetch attempt; attempts are numbered by the
    [clock] of the session. *)

Inductive launch_result : Type :=
| Launched       (* [_setup_driver] returns [True] *)
| NotStarted     (* [webdriver.Chrome] raises: no driver is stored *)
| Misconfigured. (* the driver is stored, a later setting raises *)

Record world : Type := {
  (** [json.loads]; [None] when it raises *)
  json_loads : string -> option value;
  (** [str(v)] for floats, lists and dicts *)
  py_repr : value -> string;
  (** how [_setup_driver] ends at a given attempt *)
  launch : nat -> launch_result;
  (** what an attempt to navigate, wait and parse yields; [None] when any
      step of it raises or the page source is empty *)
  render : nat -> string -> option Soup.node;
  (** [datetime.now().strftime('%Y-%m-%dT%H:%M:%S.%f')] *)
  now : nat -> string
}.

(** ** PageFetcher: [_safe_get_page] *)

Module Fetch.

Inductive event : Type :=
| Launch                (* a browser session is created *)
| Navigate (url : string) (* [driver.get(url)] *)
| Backoff (secs : Z)    (* [time.sleep] in the [except] branch *)
| Quit.                 (* [driver.quit()]; the driver is forgotten *)

Record session : Type := {
  driver : bool;        (* [self.driver] is set *)
  clock : nat;          (* attempts made so far *)
  log : list event      (* effects so far, oldest first *)
}.

Definition fresh : session := {| driver := false; clock := 0; log := [] |}.

(** [self.max_retries] and [self.retry_delay], set in [__init__] of both
    scrapers. *)
Definition max_retries : nat := 3.
Definition retry_delay : Z := 5.

Definition tick (s : session) : session :=
  {| driver := driver s; clock := S (clock s); log := log s |}.

Definition record (e : event) (s : session) : session :=
  {| driver := driver s; clock := clock s; log := log s ++ [e] |}.

Definition _setup_driver (W : world) (s : session) : bool * session :=
  match launch W (clock s) with
  | Launched =>
      (true, {| driver := true; clock := clock s; log := log s ++ [Launch] |})
  | Misconfigured =>
      (false, {| driver := true; clock := clock s; log := log s ++ [Launch] |})
  | NotStarted => (false, s)
  end.

(** The [except] branch before the last attempt: sleep, quit, forget. *)
Definition recover (secs : Z) (s : session) : session :=
  {| driver := false; clock := clock s;
     log := log s ++ [Backoff secs; Quit] |}.

(** The loop [for attempt in range(self.max_retries)].  The two scrapers
    differ in the argument of the [time.sleep] of the [except] branch,
    here [pause attempt], and in the waits inside an attempt, which are
    not logged. *)
Fixpoint attempts (W : world) (pause : nat -> Z) (url : string)
    (todo : list nat) (s : session) : option Soup.node * session :=
  match todo with
  | [] => (None, s)
  | attempt :: rest =>
      let s0 := tick s in
      let '(ready, s1) :=
        if driver s0 then (true, s0) else _setup_driver W s0 in
      if ready then
        let s2 := record (Navigate url) s1 in
        match render W (clock s2) url with
        | Some soup => (Some soup, s2)
        | None =>
            if (attempt <? max_retries - 1)%nat
            then attempts W pause url rest (recover (pause attempt) s2)
            else (None, s2)
        end
      else (None, s1)
  end.

Definition backoffs (l : list event) : list Z :=
  omap (fun e => match e with Backoff n => Some n | _ => None end) l.

Definition is_quit (e : event) : bool :=
  match e with Quit => true | _ => false end.

Definition is_launch (e : event) : bool :=
  match e with Launch => true | _ => false end.

(** How many sessions a log tears down, and how many it creates. *)
Definition teardowns (l : list event) : nat :=
  length (filter (fun e => is_quit e = true) l).

Definition creations (l : list event) : nat :=
  length (filter (fun e => is_launch e = true) l).

(** [close] of both scrapers: quit the browser if there is one. *)
Definition close (s : session) : session :=
  if driver s
  then {| driver := false; clock := clock s; log := log s ++ [Quit] |}
  else s.

Definition is_navigate (e : event) : bool :=
  match e with Navigate _ => true | _ => false end.

(** How many times a log calls [driver.get]. *)
Definition navigations (l : list event) : nat :=
  length (filter (fun e => is_navigate e = true) l).

End Fetch.

(** [TollBrothersScraper._safe_get_page] of [get_tollbrothers_api_links.py]:
    [time.sleep(self.retry_delay)] before each retry. *)

Module Links.

Definition _safe_get_page (W : world) (url : string) (s : Fetch.session)
  : option Soup.node * Fetch.session :=
  Fetch.attempts W (fun _ => Fetch.retry_delay) url
                 (seq 0 Fetch.max_retries) s.

Import Soup.

Definition base_url : string := "https://www.tollbrothers.com".

(** [if not url.startswith('http'): url = f"https://www.tollbrothers.com{url}"] *)
Definition absolute (url : string) : string :=
  if PyStr.startswith "http" url then url else (base_url ++ url)%string.

(** [e.text.strip() if e else ''] *)
Definition text_or_empty (e : option node) : string :=
  match e with
  | Some n => PyStr.strip (text n)
  | None => ""
  end.

(** *** [get_locations] *)

Definition state_class : string := "MetroGrid_metro_areas_states___Ox83".

(** The dict literal [city_info]. *)
Definition city_info (state_name : string) (city_link : node)
    (city_url : string) : value :=
  VDict (list_to_map
    [("state", VStr state_name);
     ("name", VStr (PyStr.strip (text city_link)));
     ("url", VStr (absolute city_url))]).

(** The loop over the links of one state.  A link without [href] would
    end it with a [KeyError], caught by the [except] of the state; the
    search [find_all('a', href=True)] returns no such link. *)
Fixpoint cities (state_name : string) (city_links : list node)
    (locations : list value) : list value :=
  match city_links with
  | [] => locations
  | city_link :: rest =>
      match attr "href" city_link with
      | Some city_url =>
          cities state_name rest
                 (locations ++ [city_info state_name city_link city_url])
      | None => locations
      end
  end.

(** One turn of the loop over the state sections. *)
Definition state_cities (locations : list value) (state_section : node)
  : list value :=
  cities (text_or_empty (find_tag "h3" state_section))
         (find_all_tag_with "a" "href" state_section) locations.

Definition get_locations (W : world) (s : Fetch.session)
  : list value * Fetch.session :=
  match _safe_get_page W base_url s with
  | (Some soup, s') =>
      (fold_left state_cities
                 (find_all_tag_class "li" (String.eqb state_class) soup) [],
       s')
  | (None, s') => ([], s')
  end.

(** *** [get_communities] *)

(** [item.find('img')['alt'].lower().replace(' icon', '')]; [None] when
    there is no image or no [alt], which raises. *)
Definition detail_label (item : node) : option string :=
  match find_tag "img" item with
  | Some img =>
      match attr "alt" img with
      | Some alt => Some (PyStr.remove_sub " icon" (PyStr.lower alt))
      | None => None
      end
  | None => None
  end.

(** The loop over [detail_items]; [None] when a turn raises. *)
Fixpoint card_details (detail_items : list node) (details : gmap string value)
  : option (gmap string value) :=
  match detail_items with
  | [] => Some details
  | item :: rest =>
      match find_tag_class "span" "detail" item with
      | Some detail_text =>
          match detail_label item with
          | Some label =>
              card_details rest
                (<[label := VStr (PyStr.strip (text detail_text))]> details)
          | None => None
          end
      | None => card_details rest details
      end
  end.

(** [price_element.find('div').text.strip()
     if price_element and price_element.find('div') else ''] *)
Definition card_price (card : node) : string :=
  match find_tag_class "div" "ProductPrice_product_price__VbtDE" card with
  | Some price_element => text_or_empty (find_tag "div" price_element)
  | None => ""
  end.

(** One turn of the loop over the cards: the dict [community_info], or
    [None] for a card without a link ([continue]) and for a card whose
    processing raises. *)
Definition community_of (card : node) : option value :=
  match find_tag_with "a" "href" card with
  | None => None
  | Some link_element =>
      match attr "href" link_element with
      | None => None
      | Some community_url =>
          match card_details
                  (find_all_tag_class "li"
                     (String.eqb "SearchProductDetail_product_detail__q9eCj")
                     card) ∅ with
          | None => None
          | Some details =>
              Some (VDict (list_to_map
                [("url", VStr (absolute community_url));
                 ("name",
                   VStr (text_or_empty
                           (find_tag_class "h2"
                              "SearchProductCard_card_header__F_ORx" card)));
                 ("location",
                   VStr (text_or_empty
                           (find_tag_class "div"
                              "SearchProductCard_location_description__7kNyd"
                              card)));
                 ("price", VStr (card_price card));
                 ("details", VDict details);
                 ("community_type",
                   VStr (text_or_empty
                           (find_tag_class "span" "commTypes__js" card)));
                 ("home_type",
                   VStr (text_or_empty
                           (find_tag_class "span" "homeTypes__js" card)))]))
          end
      end
  end.

Definition community_cards (soup : node) : list node :=
  find_all_tag_class "div" (String.eqb "SearchProductCard_cardWrap__2CFt9") soup.

Definition get_communities (W : world) (city_url : string) (s : Fetch.session)
  : list value * Fetch.session :=
  match _safe_get_page W city_url s with
  | (Some soup, s') => (omap community_of (community_cards soup), s')
  | (None, s') => ([], s')
  end.

(** *** [main]

    The loop over the cities.  [city['url']] of a dict without that key
    raises, which skips the city; [get_locations] builds every dict with a
    text under [url].  The random sleep between two cities is not
    logged. *)
Fixpoint cities_loop (W : world) (locations : list value)
    (all_community_links : list value) (s : Fetch.session)
  : list value * Fetch.session :=
  match locations with
  | [] => (all_community_links, s)
  | city :: rest =>
      match Py.item "url" city with
      | Some (VStr city_url) =>
          let '(community_links, s') := get_communities W city_url s in
          cities_loop W rest (all_community_links ++ community_links) s'
      | _ => cities_loop W rest all_community_links s
      end
  end.

(** [main]: what is handed to [save_data], if anything, and the session
    after [scraper.close()]. *)
Definition main (W : world) : option (list value) * Fetch.session :=
  let '(locations, s1) := get_locations W Fetch.fresh in
  match locations with
  | [] => (None, Fetch.close s1)
  | _ =>
      let '(all_community_links, s2) := cities_loop W locations [] s1 in
      (match all_community_links with
       | [] => None
       | _ => Some all_community_links
       end, Fetch.close s2)
  end.

End Links.

(** ** [TollBrothersDetailScraper] of [get_tollbrothers_page.py] *)

Module Detail.

Import Soup Extract.

(** [time.sleep(self.retry_delay * (attempt + 1))] before each retry. *)
Definition _safe_get_page (W : world) (url : string) (s : Fetch.session)
  : option Soup.node * Fetch.session :=
  Fetch.attempts W (fun attempt => Fetch.retry_delay * (Z.of_nat attempt + 1))%Z
                 url (seq 0 Fetch.max_retries) s.

(** *** StructuredDataExtractor *)

Definition allowed_types : list string :=
  ["SingleFamilyResidence"; "Residence"; "WebPage"; "Place"; "Organization"].

(** [isinstance(data, dict) and data.get('@type') in [...]] *)
Definition accepted (data : value) : option (gmap string value) :=
  match data with
  | VDict d =>
      match d !! "@type" with
      | Some (VStr t) =>
          if existsb (String.eqb t) allowed_types then Some d else None
      | _ => None
      end
  | _ => None
  end.

(** The body of the [try] for one script: [None] when it raises or when
    the block is not accepted (either way the mapping is unchanged). *)
Definition block (W : world) (script : node) : option (gmap string value) :=
  match string_of script with
  | Some payload =>
      match json_loads W payload with
      | Some data => accepted data
      | None => None
      end
  | None => None
  end.

Definition merge (W : world) (jsonld_data : gmap string value) (script : node)
  : gmap string value :=
  match block W script with
  | Some data => Py.update jsonld_data data
  | None => jsonld_data
  end.

Definition ld_scripts (soup : node) : list node :=
  find_all_tag_type "script" "application/ld+json" soup.

Definition extract_jsonld_data (W : world) (soup : node)
  : gmap string value :=
  fold_left (merge W) (ld_scripts soup) ∅.

(** *** Helpers shared by the two assemblers *)

(** [str(v)], as an f-string formats a value *)
Definition to_str (W : world) (v : value) : string :=
  match v with
  | VStr s => s
  | VNone => "None"
  | VBool true => "True"
  | VBool false => "False"
  | VInt z => PyStr.str_of_int z
  | _ => py_repr W v
  end.

(** The f-string of the postal address, then [.strip(', ')]. *)
Definition format_address (W : world) (addr : gmap string value) : string :=
  PyStr.strip_chars ", "
    (to_str W (Py.get "streetAddress" (VStr "") addr) ++ ", " ++
     to_str W (Py.get "addressLocality" (VStr "") addr) ++ ", " ++
     to_str W (Py.get "addressRegion" (VStr "") addr) ++ " " ++
     to_str W (Py.get "postalCode" (VStr "") addr))%string.

(** [jsonld['geo'].get(k, None)] under the test
    ['geo' in jsonld and isinstance(jsonld['geo'], dict)] *)
Definition geo_field (k : string) (jsonld : gmap string value) : value :=
  match jsonld !! "geo" with
  | Some (VDict geo) => Py.get k VNone geo
  | _ => VNone
  end.

(** The images named by the structured data, if it names any as a list
    or as one string. *)
Definition jsonld_images (jsonld : gmap string value) : option (list value) :=
  match jsonld !! "image" with
  | Some (VList l) => Some l
  | Some (VStr s) => Some [VStr s]
  | _ => None
  end.

(** [src in images] *)
Definition mentions (src : string) (images : list value) : bool :=
  existsb (fun v => match v with VStr s => String.eqb s src | _ => false end)
          images.

(** The loop over [detail_soup.find_all('img')] of [extract_homesites]. *)
Definition scan_images (images : list value) (imgs : list node) : list value :=
  fold_left
    (fun images img =>
       match usable_src img with
       | Some src => if mentions src images then images else images ++ [VStr src]
       | None => images
       end)
    imgs images.

(** *** Homesites *)

Definition base_url : string := "https://www.tollbrothers.com".

(** [e.text.strip() if e else None] for [e = card.select_one('nm.c')] *)
Definition card_text (nm c : string) (card : node) : option string :=
  match select_one nm c card with
  | Some e => Some (PyStr.strip (text e))
  | None => None
  end.

(** The link of a card, made absolute; [None] is the [continue] of a
    card without one. *)
Definition card_url (card : node) : option string :=
  match select_one "a" "ModelCard_modelCardContainer__lXz5R" card with
  | Some a =>
      match attr "href" a with
      | Some url =>
          if nonempty url then
            Some (if PyStr.startswith "http" url then url
                  else (base_url ++ url)%string)
          else None
      | None => None
      end
  | None => None
  end.

(** [[image_url] if image_url else []] *)
Definition card_images (card : node) : list value :=
  match select_one "img" "BlurBackgroundFill_modelCardImg__fpCCc" card with
  | Some img =>
      match attr "src" img with
      | Some image_url => if nonempty image_url then [VStr image_url] else []
      | None => []
      end
  | None => []
  end.

(** [re.search(r'/(\w+)$', jsonld['url'])] and its group 1, the match
    without its slash.  The outer [None] is the [TypeError] of a [url]
    that is not a string. *)
Definition id_of (jsonld : gmap string value) : option (option string) :=
  match jsonld !! "url" with
  | None => Some None
  | Some (VStr u) =>
      Some (match Regex.search Regex.re_id u with
            | Some (String _ group1) => Some group1
            | _ => None
            end)
  | Some _ => None
  end.

(** The fields that the detail page of a homesite supplies. *)
Record supplement : Type := {
  latitude : value;
  longitude : value;
  description : value;
  address : option string;
  images : list value;
  id : option string;
  plan : option string
}.

(** The detail page could not be fetched. *)
Definition no_supplement (images0 : list value) : supplement :=
  {| latitude := VNone; longitude := VNone; description := VNone;
     address := None; images := images0; id := None; plan := None |}.

(** [if not images or len(images) < 2: ...] *)
Definition more_images (images0 : list value) (detail_soup : node)
  : list value :=
  if (length images0 <? 2)%nat
  then scan_images images0 (find_all_tag "img" detail_soup)
  else images0.

(** The branch [if detail_soup:]; [None] when it raises. *)
Definition supplement_of (W : world) (images0 : list value)
    (detail_soup : node) : option supplement :=
  let jsonld := extract_jsonld_data W detail_soup in
  let plan :=
    match select_one_of ["h1"; "h2"; "h3"] detail_soup with
    | Some plan_elem => Some (PyStr.strip (text plan_elem))
    | None => None
    end in
  if Py.truthy (VDict jsonld) then
    match id_of jsonld with
    | Some id =>
        let images1 :=
          match jsonld_images jsonld with
          | Some l => l
          | None => images0
          end in
        Some {| latitude := geo_field "latitude" jsonld;
                longitude := geo_field "longitude" jsonld;
                description := Py.get "description" VNone jsonld;
                address :=
                  match jsonld !! "address" with
                  | Some (VDict addr) => Some (format_address W addr)
                  | _ => None
                  end;
                images := more_images images1 detail_soup;
                id := id;
                plan := plan |}
    | None => None
    end
  else
    Some {| latitude := VNone; longitude := VNone; description := VNone;
            address := None; images := more_images images0 detail_soup;
            id := None; plan := plan |}.

(** [int(baths) if baths and baths.isdigit() else None]; the outer
    [None] is the [ValueError] of [int] on a text that [isdigit] accepts
    and [int] does not. *)
Definition baths_value (baths : option string) : option value :=
  match baths with
  | Some b =>
      if nonempty b && PyStr.isdigit b
      then option_map VInt (PyStr.int_of_digits b)
      else Some VNone
  | None => Some VNone
  end.

(** The dict literal [homesite = {...}], given the value of its [baths]
    entry. *)
Definition homesite_literal (card : node) (url : string) (d : supplement)
    (baths : value) : value :=
  VDict (list_to_map
    [("name", Py.of_option (card_text "h4" "ModelCard_modelName__XzUo2" card));
     ("plan", Py.of_option (plan d));
     ("id", Py.of_option (id d));
     ("address", Py.of_option (address d));
     ("price", Py.of_option (card_text "p" "ModelCard_modelPrice__oqOXq" card));
     ("beds", Py.of_option (card_text "p" "tracking_bedRange" card));
     ("baths", baths);
     ("sqft", Py.of_option
                (option_map PyStr.remove_commas
                            (card_text "p" "tracking_sqftRange" card)));
     ("status", Py.of_option
                  (card_text "div" "ModelCard_modelCardCallout__MdHUW" card));
     ("image_url", match images d with v :: _ => v | [] => VNone end);
     ("url", VStr url);
     ("latitude", latitude d);
     ("longitude", longitude d);
     ("overview", description d);
     ("images", VList (images d))]).

(** The evaluation of the literal: [None] when [int(baths)] raises, and
    the card is then given up by the [except] of the loop. *)
Definition homesite_record (card : node) (url : string) (d : supplement)
  : option value :=
  option_map (homesite_literal card url d)
             (baths_value (card_text "p" "tracking_bathRange" card)).

(** One turn of the loop over the cards: the record appended, if any. *)
Definition homesite_of (W : world) (card : node) (s : Fetch.session)
  : option value * Fetch.session :=
  match card_url card with
  | None => (None, s)
  | Some url =>
      let '(detail_soup, s') := _safe_get_page W url s in
      match detail_soup with
      | Some page =>
          match supplement_of W (card_images card) page with
          | Some d => (homesite_record card url d, s')
          | None => (None, s')
          end
      | None =>
          (homesite_record card url (no_supplement (card_images card)), s')
      end
  end.

Fixpoint homesites_loop (W : world) (cards : list node)
    (homesites : list value) (s : Fetch.session)
  : list value * Fetch.session :=
  match cards with
  | [] => (homesites, s)
  | card :: rest =>
      let '(r, s') := homesite_of W card s in
      homesites_loop W rest
        (match r with Some h => homesites ++ [h] | None => homesites end) s'
  end.

Definition cards_of (soup : node) : list node :=
  select "div"
    ["modelCardWrap__adjust"; "ModelCard_modelCardContainer__lXz5R"] soup.

Definition extract_homesites (W : world) (soup : node) (s : Fetch.session)
  : list value * Fetch.session :=
  homesites_loop W (cards_of soup) [] s.

(** *** RecordAssembler: [get_community_details] *)

Definition selectors : list string :=
  ["SearchProductCard_card__htFY3"; "SearchProductCard";
   "community-details"; "product-card"; "body"].

(** The loop over [selectors]: one [_safe_get_page] per selector until
    one returns a page. *)
Fixpoint first_page (W : world) (community_url : string)
    (sels : list string) (s : Fetch.session)
  : option node * Fetch.session :=
  match sels with
  | [] => (None, s)
  | _ :: rest =>
      match _safe_get_page W community_url s with
      | (Some soup, s') => (Some soup, s')
      | (None, s') => first_page W community_url rest s'
      end
  end.

(** [jsonld.get('priceRange', None) or
     jsonld.get('offers', {}).get('price', None)]; [None] is the
    [AttributeError] of an [offers] that is not a dict. *)
Definition price_of (jsonld : gmap string value) : option value :=
  let range := Py.get "priceRange" VNone jsonld in
  if Py.truthy range then Some range
  else
    match Py.get "offers" (VDict ∅) jsonld with
    | VDict offers => Some (Py.get "price" VNone offers)
    | _ => None
    end.

(** [jsonld.get('address', {}).get(k, None)
     if isinstance(jsonld.get('address', {}), dict) else None] *)
Definition address_field (k : string) (jsonld : gmap string value) : value :=
  match Py.get "address" (VDict ∅) jsonld with
  | VDict addr => Py.get k VNone addr
  | _ => VNone
  end.

Definition overview_class : string :=
  "CommunityOverview_overviewDescription__0bJS6 tracking_prop_body".

Definition description_of (soup : node) (jsonld : gmap string value) : value :=
  match find_tag_class "p" overview_class soup with
  | Some description_elem => VStr (PyStr.strip (text description_elem))
  | None => Py.or (Py.get "description" (VStr "") jsonld) (VStr "")
  end.

Definition images_of (soup : node) (jsonld : gmap string value) : list value :=
  match jsonld_images jsonld with
  | Some ((_ :: _) as images) => images
  | _ => map VStr (extract_images soup)
  end.

(** The dict literal [community_info = {...}]. *)
Definition community_info (W : world) (timestamp community_url : string)
    (soup : node) (jsonld : gmap string value) (price : value)
    (homesites : list value) : value :=
  let '(beds_range, baths_range) := extract_beds_baths_range soup in
  VDict (list_to_map
    [("timestamp", VStr timestamp);
     ("name", Py.or (Py.get "name" (VStr "") jsonld) (VStr ""));
     ("url", VStr community_url);
     ("status", VNone);
     ("price_from", price);
     ("address",
       VStr (match jsonld !! "address" with
             | Some (VDict addr) => format_address W addr
             | _ => ""
             end));
     ("phone", Py.get "telephone" (VStr "") jsonld);
     ("description", description_of soup jsonld);
     ("images", VList (images_of soup jsonld));
     ("location", VDict (list_to_map
        [("latitude", geo_field "latitude" jsonld);
         ("longitude", geo_field "longitude" jsonld);
         ("address", VDict (list_to_map
            [("city", address_field "addressLocality" jsonld);
             ("state", address_field "addressRegion" jsonld);
             ("market", VNone)]))]));
     ("details", VDict (list_to_map
        [("price_range", price);
         ("sqft_range", Py.of_option (extract_sqft_range soup));
         ("bed_range", Py.of_option beds_range);
         ("bath_range", Py.of_option baths_range);
         ("stories_range", VStr "");
         ("community_count", VInt 0)]));
     ("amenities", VList (extract_amenities soup));
     ("homeplans", VList (extract_homeplans soup));
     ("homesites", VList homesites);
     ("nearbyplaces", VList [])]).

(** The body of [get_community_details] once a page has been fetched;
    [None] is the [except] branch of the function. *)
Definition assemble (W : world) (community_url : string) (soup : node)
    (s : Fetch.session) : option value * Fetch.session :=
  let jsonld := extract_jsonld_data W soup in
  match price_of jsonld with
  | None => (None, s)
  | Some price =>
      let '(homesites, s') := extract_homesites W soup s in
      (Some (community_info W (now W (Fetch.clock s')) community_url
                            soup jsonld price homesites), s')
  end.

Definition get_community_details (W : world) (community_url : string)
    (s : Fetch.session) : option value * Fetch.session :=
  match first_page W community_url selectors s with
  | (None, s') => (None, s')
  | (Some soup, s') => assemble W community_url soup s'
  end.

End Detail.

(** * Terms of the statements *)

(** ** The retry loop *)

Section RetryTerms.

Import Fetch.

Variable W : world.
Variable pause : nat -> Z.
Variable url : string.

(** The browser starts whenever the scraper launches it. *)
Definition reliable_launch : Prop := forall t, launch W t = Launched.

(** The [n] attempts that follow state [s] all raise. *)
Definition fails (s : session) (n : nat) : Prop :=
  forall i, (i < n)%nat -> render W (S i + clock s) url = None.

(** The browser session a call starts with, if it has to create one. *)
Definition boot (s : session) : list event :=
  if driver s then [] else [Launch].

(** What a failed attempt that is retried leaves in the log. *)
Definition retried (attempt : nat) : list event :=
  [Navigate url; Backoff (pause attempt); Quit; Launch].

Definition started (s : session) : session :=
  {| driver := true; clock := S (clock s);
     log := log s ++ boot s ++ [Navigate url] |}.

End RetryTerms.

(** The delays of the detail scraper and of the links scraper. *)
Definition linear (attempt : nat) : Z := (Fetch.retry_delay * (Z.of_nat attempt + 1))%Z.
Definition constant (_ : nat) : Z := Fetch.retry_delay.


(** What a run of the loop adds to the Fetch.log, whatever the browser and the
    site do. *)
Record bounded (W : world) (pause : nat -> Z) (url : string)
    (todo : list nat) (s : Fetch.session)
    (r : option Soup.node * Fetch.session) (added : list Fetch.event)
  : Prop := {
  b_log : Fetch.log (snd r) = Fetch.log s ++ added;
  b_clock : Fetch.clock (snd r) <= Fetch.clock s + length todo;
  b_navigations : Fetch.navigations added <= length todo;
  b_creations : Fetch.creations added <= length todo;
  b_teardowns : Fetch.teardowns added = length (Fetch.backoffs added);
  b_backoffs :
    exists j, Fetch.backoffs added
              = map pause (firstn j (filter (fun a => a < Fetch.max_retries - 1) todo));
  b_page : forall page, fst r = Some page ->
             Fetch.driver (snd r) = true /\ render W (Fetch.clock (snd r)) url = Some page
}.


(** A text that [str.isdigit()] accepts and [int()] rejects: it holds a
    superscript digit, or more digits than [int] reads. *)
Definition int_rejects (t : string) : bool :=
  PyStr.isdigit t &&
  negb (forallb PyStr.is_digit (PyStr.chars t) &&
        (length (PyStr.chars t) <=? PyStr.max_str_digits)%nat).

(** The bath text of the card of a homesite makes [int(baths)] raise. *)
Definition baths_rejected (card : Soup.node) : bool :=
  match Detail.card_text "p" "tracking_bathRange" card with
  | Some baths => int_rejects baths
  | None => false
  end.

(** The number of digits that [extract_sqft_range] hands to [int] for a
    home design, if it has a square-footage text. *)
Definition captured_digits (design : Soup.node) : option nat :=
  match Soup.find_text Regex.re_sqft design with
  | Some sqft_text =>
      match Regex.search Regex.re_grouped_number sqft_text with
      | Some group1 => Some (length (PyStr.chars (PyStr.remove_commas group1)))
      | None => None
      end
  | None => None
  end.

(** The number of the design has more digits than [int] accepts. *)
Definition overlong (design : Soup.node) : bool :=
  match captured_digits design with
  | Some n => (PyStr.max_str_digits <? n)%nat
  | None => false
  end.

(** A character of a number written with thousands separators. *)
Definition digit_or_comma (c : ascii) : bool :=
  PyStr.is_digit c || PyStr.ascii_eqb c ","%char.

(** * Sample pages and worlds *)

Module Worlds.

(** A decoder that knows the payloads of the examples below. *)
Definition decode (table : list (string * value)) (payload : string)
  : option value :=
  match List.find (fun kv => String.eqb payload (fst kv)) table with
  | Some kv => Some (snd kv)
  | None => None
  end.

Definition blank : Soup.node := Soup.document [].

(** The browser always starts; every page fails twice and is then
    served as [page]. *)
Definition flaky (page : Soup.node) : world :=
  {| json_loads := fun _ => None;
     py_repr := fun _ => "";
     launch := fun _ => Launched;
     render := fun t _ => if (t <? 3)%nat then None else Some page;
     now := fun _ => "2025-01-01T00:00:00.000000" |}.

(** The browser always starts; no page is ever served. *)
Definition dead : world :=
  {| json_loads := fun _ => None;
     py_repr := fun _ => "";
     launch := fun _ => Launched;
     render := fun _ _ => None;
     now := fun _ => "2025-01-01T00:00:00.000000" |}.

(** The browser always starts; [page] is served at once, every other
    address fails, and the decoder is the table [t]. *)
Definition serving (t : list (string * value)) (url : string)
    (page : Soup.node) : world :=
  {| json_loads := decode t;
     py_repr := fun _ => "";
     launch := fun _ => Launched;
     render := fun _ u => if String.eqb u url then Some page else None;
     now := fun _ => "2025-01-01T00:00:00.000000" |}.

End Worlds.

Module Samples.

Import Soup.

Definition ld_script (payload : string) : node :=
  Tag "script" [] [("type", "application/ld+json")] [Str payload].

(** Decoded payloads: a place, an organisation, and a list, which is
    not an object.  The payload [{broken] is in no table: decoding it
    raises. *)
Definition place : gmap string value :=
  list_to_map [("@type", VStr "Place"); ("name", VStr "Avalon Estates");
               ("telephone", VStr "623-555-0100")].

Definition organization : gmap string value :=
  list_to_map [("@type", VStr "Organization"); ("name", VStr "Toll Brothers");
               ("description", VStr "Luxury homes")].

Definition payloads : list (string * value) :=
  [("<place>", VDict place); ("<organization>", VDict organization);
   ("<breadcrumbs>", VList [VStr "Home"])].

Definition three_blocks : node :=
  document [ld_script "<place>"; ld_script "{broken";
            ld_script "<organization>"; Tag "h1" [] [] [Str "Avalon"]].

Definition url : string := "https://www.tollbrothers.com/luxury-homes/Avalon".

Definition site : world := Worlds.serving payloads url three_blocks.

End Samples.

Module Pages.

Import Soup.

(** A page that shows an address in another city and a description in
    other words. *)
Definition phoenix : node :=
  document
    [Tag "div" ["address"] [] [Str "1200 W Main St, Phoenix, AZ 85001"];
     Tag "div" ["overview"] [] [Str "Nestled in the Sonoran foothills"]].

(** A page with the address that the pattern expects. *)
Definition goodyear : node :=
  document
    [Tag "div" ["address"] []
       [Tag "span" [] [] [Str " 4400 N Village St, Goodyear, AZ 85395 "]]].

End Pages.

Module Listings.

Import Soup.

Definition image_A : string := "https://cdn.tollbrothers.com/A.jpg".
Definition image_B : string := "https://cdn.tollbrothers.com/B.jpg".
Definition image_C : string := "https://cdn.tollbrothers.com/C.jpg".

(** A card of the Quick Move-In Homes module. *)
Definition card (href beds baths sqft : string) : node :=
  Tag "div" ["modelCardWrap__adjust"; "ModelCard_modelCardContainer__lXz5R"] []
    [Tag "a" ["ModelCard_modelCardContainer__lXz5R"] [("href", href)]
       [Tag "img" ["BlurBackgroundFill_modelCardImg__fpCCc"]
            [("src", image_A)] [];
        Tag "h4" ["ModelCard_modelName__XzUo2"] [] [Str " Ellsworth "];
        Tag "p" ["ModelCard_modelPrice__oqOXq"] [] [Str "$875,000"];
        Tag "p" ["tracking_bedRange"] [] [Str beds];
        Tag "p" ["tracking_bathRange"] [] [Str baths];
        Tag "p" ["tracking_sqftRange"] [] [Str sqft]]].

Definition listing : node :=
  document [card "/luxury-homes/Avalon/quick-move-in/275000" "3" "2" "2,410"].

Definition homesite_url : string :=
  "https://www.tollbrothers.com/luxury-homes/Avalon/quick-move-in/275000".

(** The structured data of the homesite names two images. *)
Definition homesite_ld : gmap string value :=
  list_to_map [("@type", VStr "SingleFamilyResidence");
               ("url", VStr homesite_url);
               ("image", VList [VStr image_A; VStr image_B])].

(** The detail page of the homesite shows the images B and C. *)
Definition detail_page : node :=
  document
    [Tag "script" [] [("type", "application/ld+json")] [Str "<homesite>"];
     Tag "h1" [] [] [Str "Ellsworth"];
     Tag "img" [] [("src", image_B)] [];
     Tag "img" [] [("src", "data:image/gif;base64,R0lGOD")] [];
     Tag "img" [] [("src", image_C)] []].

Definition site : world :=
  Worlds.serving [("<homesite>", VDict homesite_ld)] homesite_url detail_page.

(** A community page whose gallery holds A and B, with C elsewhere. *)
Definition gallery_page : node :=
  document
    [Tag "div" [] [("id", "toScroll-gallery")]
       [Tag "img" [] [("src", image_A)] [];
        Tag "img" [] [("src", image_B)] []];
     Tag "img" [] [("src", image_B)] [];
     Tag "img" [] [("src", image_C)] []].

Definition community_url : string :=
  "https://www.tollbrothers.com/luxury-homes/Avalon".


End Listings.

Module Plans.

Import Soup.

(** A home design card with one square-footage text. *)
Definition design (sqft : string) : node :=
  Tag "div" ["HomeDesignCard_home-design__x1"] []
    [Tag "h3" [] [] [Str "Ellsworth"]; Tag "span" [] [] [Str sqft]].

(** A square footage of 4303 digits, written with its separators:
    [1,111,...,111 sqft]. *)
Definition long_sqft : string :=
  PyStr.str ("1"%char :: flat_map (fun _ => PyStr.chars ",111") (seq 0 1434)
             ++ PyStr.chars " sqft").

End Plans.

Module Scans.

Import Soup.


End Scans.

Module Shape.

(** The keys of a community record, nested ones as paths. *)
Definition required : list (list string) :=
  [["timestamp"]; ["name"]; ["url"]; ["status"]; ["price_from"]; ["address"];
   ["phone"]; ["description"]; ["images"];
   ["location"]; ["location"; "latitude"]; ["location"; "longitude"];
   ["location"; "address"]; ["location"; "address"; "city"];
   ["location"; "address"; "state"]; ["location"; "address"; "market"];
   ["details"]; ["details"; "price_range"]; ["details"; "sqft_range"];
   ["details"; "bed_range"]; ["details"; "bath_range"];
   ["details"; "stories_range"]; ["details"; "community_count"];
   ["amenities"]; ["homeplans"]; ["homesites"]; ["nearbyplaces"]].

Definition has (r : value) (ks : list string) : bool :=
  match Py.path ks r with Some _ => true | None => false end.

Definition complete (r : value) : bool := forallb (has r) required.

(** A value that is [None], an empty string or an empty list. *)
Definition is_empty (v : value) : bool :=
  match v with
  | VNone => true
  | VStr s => String.eqb s ""
  | VList [] => true
  | _ => false
  end.

End Shape.

Module Avalon.

Import Soup.

Definition postal : gmap string value :=
  list_to_map [("@type", VStr "PostalAddress");
               ("streetAddress", VStr "1 Main St");
               ("addressLocality", VStr "Goodyear");
               ("addressRegion", VStr "AZ"); ("postalCode", VStr "85338")].

(** Structured data with a name, a telephone, an address, a description
    and an image, on a page whose heading gives another name, whose text
    gives another telephone and another address, whose overview paragraph
    gives another description and whose gallery shows another image. *)
Definition place : gmap string value :=
  list_to_map [("@type", VStr "Place"); ("name", VStr "Avalon Estates");
               ("telephone", VStr "623-555-0100");
               ("address", VDict postal);
               ("description", VStr "New homes in Goodyear");
               ("image", VList [VStr Listings.image_C])].

Definition page : node :=
  document
    [Tag "script" [] [("type", "application/ld+json")] [Str "<place>"];
     Tag "h1" [] [] [Str "Avalon"];
     Tag "div" [] [] [Str "2 Elm St, Goodyear, AZ 85395"];
     Tag "span" [] [] [Str "Call 480-555-0100"];
     Tag "p" ["CommunityOverview_overviewDescription__0bJS6";
              "tracking_prop_body"] []
       [Str " Resort-style living at the foot of the Estrella Mountains. "];
     Tag "div" [] [("id", "toScroll-gallery")]
       [Tag "img" [] [("src", Listings.image_A)] []]].

Definition site : world :=
  Worlds.serving [("<place>", VDict place)] Listings.community_url page.




End Avalon.

Module More.

Import Soup.

(** Chrome cannot be started. *)
Definition no_browser : world :=
  {| json_loads := fun _ => None;
     py_repr := fun _ => "";
     launch := fun _ => NotStarted;
     render := fun _ _ => Some Worlds.blank;
     now := fun _ => "2025-01-01T00:00:00.000000" |}.

(** Structured data whose [offers] is a list of offers. *)
Definition listed_offers : gmap string value :=
  list_to_map [("@type", VStr "Place"); ("name", VStr "Avalon Estates");
               ("offers", VList [VDict (list_to_map [("price", VInt 875000)])])].

Definition offers_page : node :=
  document
    [Tag "script" [] [("type", "application/ld+json")] [Str "<offers>"];
     Listings.card "/luxury-homes/Avalon/quick-move-in/275000" "3" "2" "2,410"].

Definition offers_site : world :=
  Worlds.serving [("<offers>", VDict listed_offers)] Listings.community_url
                 offers_page.

(** Structured data of a homesite whose [url] is a list. *)
Definition listed_url : gmap string value :=
  list_to_map [("@type", VStr "SingleFamilyResidence");
               ("url", VList [VStr Listings.homesite_url])].

Definition listed_url_page : node :=
  document
    [Tag "script" [] [("type", "application/ld+json")] [Str "<homesite>"];
     Tag "h1" [] [] [Str "Ellsworth"]].

Definition listed_url_site : world :=
  Worlds.serving [("<homesite>", VDict listed_url)] Listings.homesite_url
                 listed_url_page.

End More.

Module HomesiteShape.

(** The keys of a homesite record. *)
Definition keys : list string :=
  ["name"; "plan"; "id"; "address"; "price"; "beds"; "baths"; "sqft";
   "status"; "image_url"; "url"; "latitude"; "longitude"; "overview";
   "images"].

Definition complete (h : value) : bool :=
  forallb (fun k => match Py.item k h with Some _ => true | None => false end)
          keys.

(** The fields that only the detail page of a homesite can fill. *)
Definition supplied : list string :=
  ["plan"; "id"; "address"; "latitude"; "longitude"; "overview"].

(** The text of the one character U+00B2, superscript two. *)
Definition superscript_two : string := String (ascii_of_nat 178) "".

End HomesiteShape.

Module CommunityShape.

(** The keys of a record of [get_communities]. *)
Definition keys : list string :=
  ["url"; "name"; "location"; "price"; "details"; "community_type";
   "home_type"].

Definition complete (c : value) : bool :=
  forallb (fun k => match Py.item k c with Some _ => true | None => false end)
          keys.

(** The keys of a record of [get_locations]. *)
Definition location_keys : list string := ["state"; "name"; "url"].

Definition absolute_url (c : value) : bool :=
  match Py.item "url" c with
  | Some (VStr u) => PyStr.startswith "http" u
  | _ => false
  end.

End CommunityShape.

Module Cities.

Import Soup.

(** A state section of the landing page with two metro areas, the second
    with an absolute address. *)
Definition landing : node :=
  document
    [Tag "ul" [] []
       [Tag "li" ["MetroGrid_metro_areas_states___Ox83"] []
          [Tag "h3" [] [] [Str " Arizona "];
           Tag "a" [] [("href", "/luxury-homes/Arizona/Phoenix")]
             [Str "Phoenix"];
           Tag "a" [] [("name", "anchor")] [Str "no link"];
           Tag "a" [] [("href", "https://www.tollbrothers.com/luxury-homes/Arizona/Tucson")]
             [Str " Tucson "]]]].

Definition detail_item (icon : list (string * string)) (v : string) : node :=
  Tag "li" ["SearchProductDetail_product_detail__q9eCj"] []
    [Tag "img" [] icon []; Tag "span" ["detail"] [] [Str v]].

Definition community_card (href : string) (items : list node) : node :=
  Tag "div" ["SearchProductCard_cardWrap__2CFt9"] []
    ([Tag "a" [] [("href", href)] [];
      Tag "h2" ["SearchProductCard_card_header__F_ORx"] [] [Str " Avalon "]]
     ++ items).

(** A card whose second detail icon has no [alt]. *)
Definition broken_card : node :=
  community_card "/luxury-homes/Arizona/Avalon"
    [detail_item [("alt", "Bed Icon")] "3 - 5";
     detail_item [("src", "bath.svg")] "2 - 4"].

Definition good_card : node :=
  community_card "/luxury-homes/Arizona/Sterling"
    [detail_item [("alt", "Bed Icon")] "3 - 5";
     detail_item [("alt", "Bath icon")] "2 - 4"].

Definition city_page : node := document [broken_card; good_card].

End Cities.

Module Ranges.

Import Soup.

(** The bed and bath texts of the home designs of a page, in document
    order. *)
Definition spec_texts (soup : node) : list string :=
  flat_map (find_all_text Regex.re_bd_ba) (Extract.home_designs soup).

Definition design (name beds baths : string) : node :=
  Tag "div" ["HomeDesignCard_home-design__x1"] []
    [Tag "h3" [] [] [Str name]; Tag "span" [] [] [Str beds];
     Tag "span" [] [] [Str baths]].

Definition page_one : node :=
  document [design "Ellsworth" "3 bd" "2 ba"; design "Kessler" "5 bd" "4 ba";
            design "Sorrel" "4 bd" "2 ba"].

(** The same designs in another order, one of them twice. *)
Definition page_two : node :=
  document [design "Kessler" "5 bd" "4 ba"; design "Sorrel" "4 bd" "2 ba";
            design "Ellsworth" "3 bd" "2 ba"; design "Kessler" "5 bd" "4 ba"].

End Ranges.

Module Headings.

Import Soup.

(** An amenities section that holds nothing but one card with the heading
    text. *)
Definition nested : node :=
  document
    [Tag "section" [] []
       [Tag "div" ["Amenity_card__q1"] []
          [Tag "h3" [] [] [Str " Elevate the Everyday "]]]].

Definition nested_amenity : value :=
  VDict (list_to_map
    [("name", VStr "Elevate the Everyday"); ("description", VStr "");
     ("icon_url", VStr "")]).

(** A page whose contact line and price line hold more than the number and
    the price. *)
Definition contact : node :=
  document
    [Tag "p" [] [] [Str "  Homes starting at $875,000 in Goodyear  "];
     Tag "p" [] [] [Str " Call 480-555-0100 today "]].

End Headings.

Module Sparse.

Import Soup.

(** A community page that shows a name, a price, a telephone, an
    address, a description, a home design, a section and an image, none
    of them in the form that an extractor looks for. *)
Definition page : node :=
  document
    [Tag "h1" [] [] [Str "Avalon"];
     Tag "p" [] [] [Str "Homes from the $800s"];
     Tag "span" [] [] [Str "Call 480 555 0100"];
     Tag "div" [] [] [Str "2 Elm St, Phoenix, AZ 85001"];
     Tag "div" [] [] [Str "A master-planned community"];
     Tag "div" ["HomeDesignCard_home-design__x1"] []
       [Tag "h4" [] [] [Str "Ellsworth"]; Tag "span" [] [] [Str "Two stories"]];
     Tag "section" [] [] [Tag "h2" [] [] [Str "Amenities"]];
     Tag "div" [] [("id", "gallery")]
       [Tag "img" [] [("src", Listings.image_A)] []]].

Definition site : world :=
  Worlds.serving [] Listings.community_url page.

(** A community page without structured data that shows a telephone, a
    home design with three bedrooms and a square footage too long for
    [int], and another with four bedrooms. *)
Definition crowded : node :=
  document
    [Tag "span" [] [] [Str " 480-555-0100 "];
     Tag "div" ["HomeDesignCard_home-design__x1"] []
       [Tag "h3" [] [] [Str "Ellsworth"]; Tag "span" [] [] [Str "3 bd"];
        Tag "span" [] [] [Str Plans.long_sqft]];
     Tag "div" ["HomeDesignCard_home-design__x2"] []
       [Tag "h3" [] [] [Str "Kessler"]; Tag "span" [] [] [Str "4 bd"];
        Tag "span" [] [] [Str "2,410 sqft"]]].

Definition crowded_site : world :=
  Worlds.serving [] Listings.community_url crowded.

End Sparse.

(** * Properties *)

(** ** The retry loop *)

Section Retry.

Import Fetch.

Variable W : world.
Variable pause : nat -> Z.
Variable url : string.

Ltac run_attempt :=
  cbn [attempts]; unfold tick, record, recover, _setup_driver;
  cbn [driver clock log].

Lemma attempts_ok (attempt : nat) (rest : list nat) (s : session)
    (page : Soup.node) :
  reliable_launch W -> render W (S (clock s)) url = Some page ->
  attempts W pause url (attempt :: rest) s = (Some page, started url s).
Proof.
  intros HL Hok. destruct s as [d c l]. cbn [clock] in Hok.
  unfold started, boot. destruct d; run_attempt.
  - rewrite Hok. reflexivity.
  - rewrite HL. cbn [driver clock log]. rewrite Hok.
    rewrite <- app_assoc. reflexivity.
Qed.

Lemma attempts_retry (attempt : nat) (rest : list nat) (s : session) :
  reliable_launch W -> render W (S (clock s)) url = None ->
  (attempt < max_retries - 1)%nat ->
  attempts W pause url (attempt :: rest) s =
    attempts W pause url rest
      {| driver := false; clock := S (clock s);
         log := log s ++ boot s
                  ++ [Navigate url; Backoff (pause attempt); Quit] |}.
Proof.
  intros HL Hno Hlt. destruct s as [d c l]. cbn [clock] in Hno.
  apply Nat.ltb_lt in Hlt.
  unfold boot. destruct d; run_attempt.
  - rewrite Hno, Hlt. cbn [driver clock log].
    rewrite <- !app_assoc. reflexivity.
  - rewrite HL. cbn [driver clock log]. rewrite Hno, Hlt.
    cbn [driver clock log]. rewrite <- !app_assoc. reflexivity.
Qed.

Lemma attempts_give_up (attempt : nat) (rest : list nat) (s : session) :
  reliable_launch W -> render W (S (clock s)) url = None ->
  (max_retries - 1 <= attempt)%nat ->
  attempts W pause url (attempt :: rest) s = (None, started url s).
Proof.
  intros HL Hno Hge. destruct s as [d c l]. cbn [clock] in Hno.
  apply Nat.ltb_ge in Hge.
  unfold started, boot. destruct d; run_attempt.
  - rewrite Hno, Hge. reflexivity.
  - rewrite HL. cbn [driver clock log]. rewrite Hno, Hge.
    rewrite <- app_assoc. reflexivity.
Qed.

(** A browser that cannot be started ends the call at once. *)
Lemma attempts_no_browser (attempt : nat) (rest : list nat) (s : session) :
  driver s = false -> launch W (S (clock s)) = NotStarted ->
  attempts W pause url (attempt :: rest) s = (None, tick s).
Proof.
  intros Hd Hl. destruct s as [d c l]. cbn in Hd, Hl. subst d.
  run_attempt. rewrite Hl. reflexivity.
Qed.

Lemma attempts_success (s : session) (k : nat) (page : Soup.node) :
  reliable_launch W -> (k < max_retries)%nat -> fails W url s k ->
  render W (S k + clock s) url = Some page ->
  attempts W pause url (seq 0 max_retries) s =
    (Some page,
     {| driver := true; clock := S k + clock s;
        log := log s ++ boot s ++ flat_map (retried pause url) (seq 0 k)
                 ++ [Navigate url] |}).
Proof.
  intros HL Hk Hf Hok. unfold max_retries in *.
  destruct k as [|[|[|k]]]; [| | | lia].
  - cbn [seq]. erewrite attempts_ok by eauto. reflexivity.
  - pose proof (Hf 0 ltac:(lia)) as F0.
    cbn [seq]. rewrite attempts_retry by (auto; unfold max_retries; lia).
    erewrite attempts_ok by eauto.
    unfold started, boot at 2. cbn. rewrite <- !app_assoc. reflexivity.
  - pose proof (Hf 0 ltac:(lia)) as F0.
    pose proof (Hf 1 ltac:(lia)) as F1.
    cbn [seq]. rewrite attempts_retry by (auto; unfold max_retries; lia).
    rewrite attempts_retry by (auto; unfold max_retries; lia).
    erewrite attempts_ok by eauto.
    unfold started, boot at 2 3. cbn. rewrite <- !app_assoc. reflexivity.
Qed.

Lemma attempts_exhausted (s : session) :
  reliable_launch W -> fails W url s max_retries ->
  attempts W pause url (seq 0 max_retries) s =
    (None,
     {| driver := true; clock := max_retries + clock s;
        log := log s ++ boot s ++ flat_map (retried pause url) (seq 0 (max_retries - 1))
                 ++ [Navigate url] |}).
Proof.
  intros HL Hf. unfold max_retries in *.
  pose proof (Hf 0 ltac:(lia)) as F0.
  pose proof (Hf 1 ltac:(lia)) as F1.
  pose proof (Hf 2 ltac:(lia)) as F2.
  cbn [seq]. rewrite attempts_retry by (auto; unfold max_retries; lia).
  rewrite attempts_retry by (auto; unfold max_retries; lia).
  rewrite attempts_give_up by (auto; unfold max_retries; lia).
  unfold started, boot at 2 3. cbn. rewrite <- !app_assoc. reflexivity.
Qed.

End Retry.

Section RetryLogs.

Import Fetch.

Lemma teardowns_app (l1 l2 : list event) :
  teardowns (l1 ++ l2) = teardowns l1 + teardowns l2.
Proof. unfold teardowns. rewrite filter_app, length_app. reflexivity. Qed.

Lemma creations_app (l1 l2 : list event) :
  creations (l1 ++ l2) = creations l1 + creations l2.
Proof. unfold creations. rewrite filter_app, length_app. reflexivity. Qed.

Lemma backoffs_app (l1 l2 : list event) :
  backoffs (l1 ++ l2) = backoffs l1 ++ backoffs l2.
Proof. unfold backoffs. apply omap_app. Qed.

Lemma linear_sorted (k : nat) :
  (k < max_retries)%nat -> StronglySorted Z.lt (map linear (seq 0 k)).
Proof.
  unfold max_retries. intros Hk.
  destruct k as [|[|[|k]]]; [| | | lia]; cbn;
    repeat constructor; unfold linear, retry_delay; lia.
Qed.

(** What [k] retried attempts add to the counts of a log. *)
Lemma retried_counts (pause : nat -> Z) (url : string) (s : session) (k : nat) :
  let added := boot s ++ flat_map (retried pause url) (seq 0 k)
                 ++ [Navigate url] in
  teardowns added = k /\
  creations added = length (boot s) + k /\
  backoffs added = map pause (seq 0 k).
Proof.
  cbn zeta. rewrite !teardowns_app, !creations_app, !backoffs_app.
  assert (Hb : teardowns (boot s) = 0 /\ creations (boot s) = length (boot s)
               /\ backoffs (boot s) = []).
  { unfold boot. destruct (driver s); cbn; auto. }
  destruct Hb as (-> & -> & ->).
  assert (Hf : forall n,
             teardowns (flat_map (retried pause url) (seq n k)) = k /\
             creations (flat_map (retried pause url) (seq n k)) = k /\
             backoffs (flat_map (retried pause url) (seq n k))
               = map pause (seq n k)).
  { induction k as [|k IH]; intros n; [cbn; auto|].
    cbn [seq flat_map map]. destruct (IH (S n)) as (T & C & B).
    rewrite teardowns_app, creations_app, backoffs_app, T, C, B.
    cbn. auto. }
  destruct (Hf 0) as (-> & -> & ->).
  change (teardowns [Navigate url]) with 0.
  change (creations [Navigate url]) with 0.
  change (backoffs [Navigate url]) with (@nil Z).
  rewrite app_nil_r. repeat split; lia.
Qed.

End RetryLogs.

(** ** C2: the retry state machine of [_safe_get_page] *)

(** C2 at a page that is served on the third attempt:
    [TollBrothersScraper._safe_get_page] of the links scraper returns the
    page after two teardowns, as claimed, but sleeps 5 and 5 seconds
    before its retries, the constant [retry_delay], where the claim asks
    for [retry_delay * attempt_number], 5 and 10, strictly increasing;
    [TollBrothersDetailScraper._safe_get_page] sleeps 5 and 10 on the same
    input. *)
Theorem links_delays_not_increasing :
  let r := Links._safe_get_page (Worlds.flaky Worlds.blank)
             "https://www.tollbrothers.com" Fetch.fresh in
  let d := Detail._safe_get_page (Worlds.flaky Worlds.blank)
             "https://www.tollbrothers.com" Fetch.fresh in
  fst r = Some Worlds.blank /\
  Fetch.teardowns (Fetch.log (snd r)) = 2 /\
  Fetch.backoffs (Fetch.log (snd r)) = [5; 5]%Z /\
  Fetch.backoffs (Fetch.log (snd r))
    <> [Fetch.retry_delay * 1; Fetch.retry_delay * 2]%Z /\
  ~ StronglySorted Z.lt (Fetch.backoffs (Fetch.log (snd r))) /\
  fst d = Some Worlds.blank /\
  Fetch.teardowns (Fetch.log (snd d)) = 2 /\
  Fetch.backoffs (Fetch.log (snd d))
    = [Fetch.retry_delay * 1; Fetch.retry_delay * 2]%Z /\
  StronglySorted Z.lt (Fetch.backoffs (Fetch.log (snd d))).
Proof.
  cbv zeta.
  assert (E : Fetch.backoffs
                (Fetch.log (snd (Links._safe_get_page
                   (Worlds.flaky Worlds.blank)
                   "https://www.tollbrothers.com" Fetch.fresh)))
              = [5; 5]%Z) by (vm_compute; reflexivity).
  assert (D : Fetch.backoffs
                (Fetch.log (snd (Detail._safe_get_page
                   (Worlds.flaky Worlds.blank)
                   "https://www.tollbrothers.com" Fetch.fresh)))
              = [5; 10]%Z) by (vm_compute; reflexivity).
  rewrite E, D. repeat match goal with |- _ /\ _ => split end.
  - vm_compute. reflexivity.
  - vm_compute. reflexivity.
  - reflexivity.
  - unfold Fetch.retry_delay. intros H. discriminate H.
  - intros H. inversion H as [|a l Hs Hf]; subst.
    inversion Hf as [|b l' Hlt Hrest]; subst. lia.
  - vm_compute. reflexivity.
  - vm_compute. reflexivity.
  - reflexivity.
  - repeat constructor.
Qed.

(** The two retry loops when the browser starts whenever it is launched:
    a call of [TollBrothersDetailScraper._safe_get_page] whose first
    [k < 3] attempts fail and whose next attempt succeeds returns the
    parsed page after exactly [k] teardowns, each followed by a new
    session, having slept [retry_delay * attempt_number] before retry
    [attempt_number], a strictly increasing sequence;
    [TollBrothersScraper._safe_get_page] does the same with the constant
    delay [retry_delay]; after three failed attempts both return [None].
    The functions are total: nothing is raised. *)
Theorem safe_get_page_retry (W : world) (url : string) (s : Fetch.session) :
  reliable_launch W ->
  (forall (k : nat) (page : Soup.node),
      (k < Fetch.max_retries)%nat -> fails W url s k ->
      render W (S k + Fetch.clock s) url = Some page ->
      let d := Detail._safe_get_page W url s in
      let l := Links._safe_get_page W url s in
      fst d = Some page /\
      Fetch.log (snd d) =
        Fetch.log s ++ boot s ++ flat_map (retried linear url) (seq 0 k)
          ++ [Fetch.Navigate url] /\
      Fetch.teardowns (Fetch.log (snd d)) = Fetch.teardowns (Fetch.log s) + k /\
      Fetch.creations (Fetch.log (snd d))
        = Fetch.creations (Fetch.log s) + length (boot s) + k /\
      Fetch.backoffs (Fetch.log (snd d))
        = Fetch.backoffs (Fetch.log s)
            ++ map (fun attempt_number => Fetch.retry_delay * Z.of_nat attempt_number)%Z
                   (seq 1 k) /\
      StronglySorted Z.lt
        (map (fun attempt_number => Fetch.retry_delay * Z.of_nat attempt_number)%Z
             (seq 1 k)) /\
      fst l = Some page /\
      Fetch.teardowns (Fetch.log (snd l)) = Fetch.teardowns (Fetch.log s) + k /\
      Fetch.creations (Fetch.log (snd l))
        = Fetch.creations (Fetch.log s) + length (boot s) + k /\
      Fetch.backoffs (Fetch.log (snd l))
        = Fetch.backoffs (Fetch.log s) ++ repeat Fetch.retry_delay k) /\
  (fails W url s Fetch.max_retries ->
   fst (Detail._safe_get_page W url s) = None /\
   fst (Links._safe_get_page W url s) = None).
Proof.
  intros HL. split.
  - intros k page Hk Hf Hok. cbv zeta.
    unfold Detail._safe_get_page, Links._safe_get_page.
    change (fun attempt : nat => (Fetch.retry_delay * (Z.of_nat attempt + 1))%Z)
      with linear.
    change (fun _ : nat => Fetch.retry_delay) with constant.
    rewrite (attempts_success W linear url s k page HL Hk Hf Hok).
    rewrite (attempts_success W constant url s k page HL Hk Hf Hok).
    cbn [fst snd Fetch.log].
    destruct (retried_counts linear url s k) as (T & C & B).
    destruct (retried_counts constant url s k) as (T' & C' & B').
    cbv zeta in T, C, B, T', C', B'.
    rewrite !teardowns_app, !creations_app, !backoffs_app in *.
    assert (Elin : map linear (seq 0 k)
                   = map (fun n => Fetch.retry_delay * Z.of_nat n)%Z (seq 1 k)).
    { rewrite <- seq_shift, map_map. apply map_ext. intros a.
      unfold linear. f_equal. lia. }
    assert (Econ : map constant (seq 0 k) = repeat Fetch.retry_delay k).
    { clear. generalize 0. induction k as [|k IH]; intros n; [reflexivity|].
      cbn. f_equal. apply IH. }
    rewrite B, B', Elin, Econ.
    repeat split; try reflexivity; try lia.
    rewrite <- Elin. apply linear_sorted. exact Hk.
  - intros Hf. unfold Detail._safe_get_page, Links._safe_get_page.
    rewrite !attempts_exhausted by assumption. split; reflexivity.
Qed.

Lemma safe_get_page_retry_witness :
  fst (Detail._safe_get_page (Worlds.flaky Worlds.blank) "u" Fetch.fresh)
    = Some Worlds.blank /\
  Fetch.backoffs
    (Fetch.log (snd (Detail._safe_get_page (Worlds.flaky Worlds.blank) "u"
                                           Fetch.fresh)))
    = [5; 10]%Z /\
  fst (Detail._safe_get_page Worlds.dead "u" Fetch.fresh) = None.
Proof.
  assert (L1 : reliable_launch (Worlds.flaky Worlds.blank))
    by (intros t; reflexivity).
  assert (L2 : reliable_launch Worlds.dead) by (intros t; reflexivity).
  assert (F1 : fails (Worlds.flaky Worlds.blank) "u" Fetch.fresh 2).
  { intros i Hi. destruct i as [|[|i]]; [reflexivity|reflexivity|lia]. }
  assert (F2 : fails Worlds.dead "u" Fetch.fresh Fetch.max_retries)
    by (intros i Hi; reflexivity).
  destruct (safe_get_page_retry (Worlds.flaky Worlds.blank) "u" Fetch.fresh L1)
    as [Hok _].
  destruct (safe_get_page_retry Worlds.dead "u" Fetch.fresh L2) as [_ Hno].
  specialize (Hok 2 Worlds.blank ltac:(unfold Fetch.max_retries; lia) F1
                  eq_refl).
  cbv zeta in Hok. destruct Hok as (R & _ & _ & _ & B & _).
  destruct (Hno F2) as [N _].
  split; [exact R|]. split; [exact B|exact N].
Defined.

(** ** C6: structured metadata *)

Section JsonLd.

Import Detail.

Variable W : world.







End JsonLd.



(** ** What the literal patterns match *)

Section Patterns.

Import Regex.

Lemma in_run_Cls (p : ascii -> bool) (s mid : list ascii) :
  In mid (run (Cls p) s) <-> exists c, s = c :: mid /\ p c = true.
Proof.
  cbn [run]. destruct s as [|c s'].
  - split; [intros []|intros (c & H & _); discriminate H].
  - destruct (p c) eqn:E.
    + split.
      * intros [<-|[]]. exists c. auto.
      * intros (c' & [= <- <-] & _). left. reflexivity.
    + split; [intros []|].
      intros (c' & [= <- <-] & H). congruence.
Qed.

Lemma in_run_Seq (r1 r2 : re) (s rest : list ascii) :
  In rest (run (Seq r1 r2) s) <->
  exists mid, In mid (run r1 s) /\ In rest (run r2 mid).
Proof. cbn [run]. rewrite in_flat_map. reflexivity. Qed.

Lemma in_run_Lit (l s rest : list ascii) :
  In rest (run (Lit l) s) <-> s = l ++ rest.
Proof.
  revert s. induction l as [|c l IH]; intros s.
  - cbn. split; [intros [<-|[]]; reflexivity|intros ->; auto].
  - cbn [Lit]. rewrite in_run_Seq. split.
    + intros (mid & Hc & Hl). apply in_run_Cls in Hc.
      destruct Hc as (c' & -> & Heq). apply Ascii.eqb_eq in Heq. subst c'.
      apply IH in Hl. subst mid. reflexivity.
    + intros ->. exists (l ++ rest). split.
      * apply in_run_Cls. exists c. split; [reflexivity|].
        apply Ascii.eqb_refl.
      * apply IH. reflexivity.
Qed.

Lemma in_run_Rep (p : ascii -> bool) (n : nat) (s rest : list ascii) :
  In rest (run (Rep n (Cls p)) s) <->
  exists ds, s = ds ++ rest /\ length ds = n /\ forallb p ds = true.
Proof.
  revert s. induction n as [|n IH]; intros s.
  - cbn. split.
    + intros [<-|[]]. exists []. auto.
    + intros (ds & -> & Hlen & _). destruct ds; [auto|discriminate Hlen].
  - cbn [Rep]. rewrite in_run_Seq. split.
    + intros (mid & Hc & Hrest). apply in_run_Cls in Hc.
      destruct Hc as (c & -> & Hp). apply IH in Hrest.
      destruct Hrest as (ds & -> & Hlen & Hall).
      exists (c :: ds). cbn. rewrite Hp, Hall, Hlen. auto.
    + intros (ds & -> & Hlen & Hall). destruct ds as [|c ds]; [discriminate|].
      cbn in Hall. apply andb_prop in Hall. destruct Hall as [Hp Hall].
      exists (ds ++ rest). split.
      * apply in_run_Cls. exists c. auto.
      * apply IH. exists ds. cbn in Hlen. auto with arith.
Qed.

(** [re.search] succeeds exactly when the pattern matches at the start
    of some suffix of the text. *)
Lemma found_iff (r : re) (s : string) :
  found r s = true <->
  exists pre suf rest, PyStr.chars s = pre ++ suf /\ In rest (run r suf).
Proof.
  unfold found, search. generalize (PyStr.chars s) as l. clear s.
  induction l as [|c l IH].
  - cbn [search_chars]. unfold match_here.
    destruct (run r []) as [|rest rs] eqn:E; cbn.
    + split; [discriminate|]. intros (pre & suf & rest & H & Hin).
      symmetry in H. apply app_eq_nil in H. destruct H as [-> ->].
      rewrite E in Hin. destruct Hin.
    + split; [|reflexivity]. intros _. exists [], [], rest.
      rewrite E. cbn. auto.
  - cbn [search_chars]. unfold match_here at 1.
    destruct (run r (c :: l)) as [|rest rs] eqn:E.
    + split.
      * intros H. apply IH in H. destruct H as (pre & suf & rest & -> & Hin).
        exists (c :: pre), suf, rest. auto.
      * intros (pre & suf & rest & H & Hin). apply IH.
        destruct pre as [|c' pre].
        -- cbn in H. subst suf. rewrite E in Hin. destruct Hin.
        -- injection H as <- ->. exists pre, suf, rest. auto.
    + cbn. split; [|reflexivity]. intros _. exists [], (c :: l), rest.
      rewrite E. cbn. auto.
Qed.

(** [Goodyear, AZ \d{5}] is found in the texts that contain the literal
    [Goodyear, AZ ] followed by five digits. *)
Lemma found_address (s : string) :
  found re_address s = true <->
  exists pre zip post,
    PyStr.chars s = pre ++ PyStr.chars "Goodyear, AZ " ++ zip ++ post /\
    length zip = 5 /\ forallb PyStr.is_digit zip = true.
Proof.
  rewrite found_iff. unfold re_address, lit, digit. split.
  - intros (pre & suf & rest & Hs & Hin). apply in_run_Seq in Hin.
    destruct Hin as (mid & Hl & Hr). apply in_run_Lit in Hl.
    apply in_run_Rep in Hr. destruct Hr as (zip & -> & Hlen & Hall).
    subst suf. exists pre, zip, rest. auto.
  - intros (pre & zip & post & Hs & Hlen & Hall).
    exists pre, (PyStr.chars "Goodyear, AZ " ++ zip ++ post), post.
    split; [exact Hs|]. apply in_run_Seq. exists (zip ++ post). split.
    + apply in_run_Lit. reflexivity.
    + apply in_run_Rep. exists zip. auto.
Qed.

(** A pattern without operators is found in the texts that contain it. *)
Lemma found_lit (p s : string) :
  found (lit p) s = true <->
  exists pre post, PyStr.chars s = pre ++ PyStr.chars p ++ post.
Proof.
  rewrite found_iff. unfold lit. split.
  - intros (pre & suf & rest & Hs & Hin). apply in_run_Lit in Hin.
    subst suf. exists pre, rest. exact Hs.
  - intros (pre & post & Hs). exists pre, (PyStr.chars p ++ post), post.
    split; [exact Hs|]. apply in_run_Lit. reflexivity.
Qed.

End Patterns.

(** ** C9: the address and the description are tied to literal texts *)

Section Literal.

Import Soup.

Lemma find_tag_string_Some (nm : string) (r : Regex.re) (soup d : node) :
  find_tag_string nm r soup = Some d ->
  In d (descendants soup) /\ name_is nm d = true /\
  exists s, string_of d = Some s /\ Regex.found r s = true.
Proof.
  unfold find_tag_string. intros H. apply head_Some_elem_of in H.
  apply list_elem_of_filter in H. destruct H as [Hp Hin].
  apply list_elem_of_In in Hin. apply andb_prop in Hp.
  destruct Hp as [Hn Hs]. split; [exact Hin|]. split; [exact Hn|].
  unfold string_found in Hs. destruct (string_of d) as [s|]; [|discriminate].
  exists s. auto.
Qed.

Lemma find_tag_string_None (nm : string) (r : Regex.re) (soup : node) :
  (forall d s, In d (descendants soup) -> name_is nm d = true ->
               string_of d = Some s -> Regex.found r s = false) ->
  find_tag_string nm r soup = None.
Proof.
  intros H. destruct (find_tag_string nm r soup) as [d|] eqn:E; [|reflexivity].
  apply find_tag_string_Some in E. destruct E as (Hin & Hn & s & Hs & Hf).
  rewrite (H d s Hin Hn Hs) in Hf. discriminate Hf.
Qed.

End Literal.

(** C9: [extract_address] returns a non-empty string only for a page with
    a [div] whose string contains [Goodyear, AZ ] followed by five digits,
    and [extract_description] only for a page with a [div] whose string
    contains [Located in an amenity-rich master-planned community]; on
    every page without such a [div], whatever address or description it
    shows, both return the empty string. *)
Theorem address_description_literal (soup : Soup.node) :
  (Extract.extract_address soup <> "" ->
   exists d s pre zip post,
     In d (Soup.descendants soup) /\ Soup.name_is "div" d = true /\
     Soup.string_of d = Some s /\
     PyStr.chars s = pre ++ PyStr.chars "Goodyear, AZ " ++ zip ++ post /\
     length zip = 5 /\ forallb PyStr.is_digit zip = true) /\
  (Extract.extract_description soup <> "" ->
   exists d s pre post,
     In d (Soup.descendants soup) /\ Soup.name_is "div" d = true /\
     Soup.string_of d = Some s /\
     PyStr.chars s
       = pre ++ PyStr.chars "Located in an amenity-rich master-planned community"
             ++ post) /\
  ((forall d s, In d (Soup.descendants soup) -> Soup.name_is "div" d = true ->
                Soup.string_of d = Some s ->
                Regex.found Regex.re_address s = false) ->
   Extract.extract_address soup = "") /\
  ((forall d s, In d (Soup.descendants soup) -> Soup.name_is "div" d = true ->
                Soup.string_of d = Some s ->
                Regex.found Regex.re_description s = false) ->
   Extract.extract_description soup = "").
Proof.
  repeat match goal with |- _ /\ _ => split end.
  - unfold Extract.extract_address. intros H.
    destruct (Soup.find_tag_string "div" Regex.re_address soup) as [d|] eqn:E;
      [|congruence].
    apply find_tag_string_Some in E. destruct E as (Hin & Hn & s & Hs & Hf).
    apply found_address in Hf. destruct Hf as (pre & zip & post & Hc & Hl & Hd).
    exists d, s, pre, zip, post. auto 10.
  - unfold Extract.extract_description. intros H.
    destruct (Soup.find_tag_string "div" Regex.re_description soup)
      as [d|] eqn:E; [|congruence].
    apply find_tag_string_Some in E. destruct E as (Hin & Hn & s & Hs & Hf).
    apply found_lit in Hf. destruct Hf as (pre & post & Hc).
    exists d, s, pre, post. auto 10.
  - intros H. unfold Extract.extract_address.
    rewrite (find_tag_string_None _ _ _ H). reflexivity.
  - intros H. unfold Extract.extract_description.
    rewrite (find_tag_string_None _ _ _ H). reflexivity.
Qed.

Lemma address_description_literal_witness :
  Extract.extract_address Pages.phoenix = "" /\
  Extract.extract_description Pages.phoenix = "" /\
  exists d s, In d (Soup.descendants Pages.goodyear) /\
              Soup.string_of d = Some s /\
              Regex.found Regex.re_address s = true.
Proof.
  destruct (address_description_literal Pages.phoenix) as (_ & _ & A & D).
  destruct (address_description_literal Pages.goodyear) as (G & _).
  split; [|split].
  - apply A. intros d s Hin Hn Hs. cbn in Hin.
    destruct Hin as [<-|[<-|[<-|[<-|[]]]]]; try discriminate Hn;
      injection Hs as <-; vm_compute; reflexivity.
  - apply D. intros d s Hin Hn Hs. cbn in Hin.
    destruct Hin as [<-|[<-|[<-|[<-|[]]]]]; try discriminate Hn;
      injection Hs as <-; vm_compute; reflexivity.
  - destruct G as (d & s & pre & zip & post & Hin & _ & Hs & Hc & Hl & Hd).
    + vm_compute. discriminate.
    + exists d, s. split; [exact Hin|]. split; [exact Hs|].
      apply found_address. exists pre, zip, post. auto.
Defined.

(** ** Homesite records *)

Section Homesites.

Import Detail.

Variable W : world.

(** Every record that the loop over the cards appends is the dict literal
    of [extract_homesites], built from a card, its address and what the
    detail page supplied. *)
Lemma homesite_of_record (card : Soup.node) (s s' : Fetch.session) (h : value) :
  homesite_of W card s = (Some h, s') ->
  exists url d, card_url card = Some url /\
    homesite_record card url d = Some h /\
    (d = no_supplement (card_images card) \/
     exists page, supplement_of W (card_images card) page = Some d).
Proof.
  unfold homesite_of. destruct (card_url card) as [url|]; [|discriminate].
  destruct (_safe_get_page W url s) as [[page|] s1].
  - destruct (supplement_of W (card_images card) page) as [d|] eqn:E;
      [|discriminate].
    intros [= E' <-]. exists url, d. eauto.
  - intros [= E' <-]. exists url, (no_supplement (card_images card)). auto.
Qed.

Lemma homesite_record_Some (card : Soup.node) (url : string)
    (d : supplement) (h : value) :
  homesite_record card url d = Some h ->
  exists baths,
    baths_value (card_text "p" "tracking_bathRange" card) = Some baths /\
    h = homesite_literal card url d baths.
Proof.
  unfold homesite_record.
  destruct (baths_value (card_text "p" "tracking_bathRange" card))
    as [baths|]; [|discriminate].
  intros [= <-]. exists baths. auto.
Qed.

Lemma homesites_loop_Forall (P : value -> Prop) (cards : list Soup.node) :
  (forall card s s' h, In card cards -> homesite_of W card s = (Some h, s') ->
                       P h) ->
  forall (acc : list value) (s : Fetch.session),
    Forall P acc -> Forall P (fst (homesites_loop W cards acc s)).
Proof.
  induction cards as [|card rest IH]; intros HP acc s Hacc.
  - exact Hacc.
  - cbn [homesites_loop].
    destruct (homesite_of W card s) as [r s'] eqn:E.
    apply IH.
    + intros c s0 s0' h Hin. apply HP. right. exact Hin.
    + destruct r as [h|]; [|exact Hacc].
      apply Forall_app. split; [exact Hacc|]. constructor; [|constructor].
      apply (HP card s s' h); [left; reflexivity|exact E].
Qed.

Lemma extract_homesites_records (soup : Soup.node) (s : Fetch.session)
    (h : value) :
  In h (fst (extract_homesites W soup s)) ->
  exists card url d,
    In card (cards_of soup) /\ card_url card = Some url /\
    homesite_record card url d = Some h /\
    (d = no_supplement (card_images card) \/
     exists page, supplement_of W (card_images card) page = Some d).
Proof.
  unfold extract_homesites. intros Hin.
  pose proof (homesites_loop_Forall
    (fun h => exists card url d,
       In card (cards_of soup) /\ card_url card = Some url /\
       homesite_record card url d = Some h /\
       (d = no_supplement (card_images card) \/
        exists page, supplement_of W (card_images card) page = Some d))
    (cards_of soup)) as H.
  refine (proj1 (List.Forall_forall _ _) (H _ [] s _) h Hin).
  - intros card s0 s0' h0 Hc E. apply homesite_of_record in E.
    destruct E as (url & d & Hu & Hh & Hd). exists card, url, d. auto.
  - constructor.
Qed.

End Homesites.

(** ** C10: [image_url] is the first of [images] *)

(** C10: in every homesite record of [extract_homesites], [image_url] is
    the first element of [images] when there is one, and [None] when
    [images] is empty. *)
Theorem homesite_image_url_is_first (W : world) (soup : Soup.node)
    (s : Fetch.session) (h : value) :
  In h (fst (Detail.extract_homesites W soup s)) ->
  exists images : list value,
    Py.item "images" h = Some (VList images) /\
    Py.item "image_url" h
      = Some (match images with first :: _ => first | [] => VNone end).
Proof.
  intros Hin. apply extract_homesites_records in Hin.
  destruct Hin as (card & url & d & _ & _ & Hh & _).
  apply homesite_record_Some in Hh. destruct Hh as (baths & _ & ->).
  exists (Detail.images d). split; reflexivity.
Qed.

Lemma homesite_image_url_is_first_witness :
  exists (h : value) (images : list value),
    In h (fst (Detail.extract_homesites Listings.site Listings.listing
                                        Fetch.fresh)) /\
    images = [VStr Listings.image_A; VStr Listings.image_B] /\
    Py.item "images" h = Some (VList images) /\
    Py.item "image_url" h = Some (VStr Listings.image_A).
Proof.
  assert (I : map (Py.item "images")
                (fst (Detail.extract_homesites Listings.site Listings.listing
                                               Fetch.fresh))
              = [Some (VList [VStr Listings.image_A; VStr Listings.image_B])])
    by (vm_compute; reflexivity).
  destruct (fst (Detail.extract_homesites Listings.site Listings.listing
                                          Fetch.fresh))
    as [|h rest] eqn:E; [discriminate I|].
  injection I as I _.
  destruct (homesite_image_url_is_first Listings.site Listings.listing
              Fetch.fresh h) as (images & Hi & Hu).
  - rewrite E. left. reflexivity.
  - rewrite I in Hi. injection Hi as <-.
    exists h, [VStr Listings.image_A; VStr Listings.image_B].
    split; [left; reflexivity|]. split; [reflexivity|].
    split; [exact I|exact Hu].
Defined.

(** ** C5: the types of [beds] and [baths] *)

(** C5 at a card whose bed and bath texts are numeric: [baths] is parsed
    into the integer 2, [beds] is stored as the text "3". *)
Theorem homesite_beds_kept_as_text :
  let records :=
    fst (Detail.extract_homesites Worlds.dead Listings.listing Fetch.fresh) in
  map (Py.item "beds") records = [Some (VStr "3")] /\
  map (Py.item "baths") records = [Some (VInt 2)] /\
  VStr "3" <> VInt 3.
Proof.
  cbv zeta. split; [vm_compute; reflexivity|].
  split; [vm_compute; reflexivity|discriminate].
Qed.

(** The types of the two fields in every record: [baths] is an integer
    or [None], [beds] is a text or [None]. *)
Lemma homesite_beds_baths_types (W : world) (soup : Soup.node)
    (s : Fetch.session) (h : value) :
  In h (fst (Detail.extract_homesites W soup s)) ->
  (Py.item "beds" h = Some VNone \/ exists t, Py.item "beds" h = Some (VStr t)) /\
  (Py.item "baths" h = Some VNone \/
   exists t n, Py.item "baths" h = Some (VInt n) /\
               PyStr.isdigit t = true /\ PyStr.int_of_digits t = Some n).
Proof.
  intros Hin. apply extract_homesites_records in Hin.
  destruct Hin as (card & url & d & _ & _ & Hh & _).
  apply homesite_record_Some in Hh. destruct Hh as (baths & Hb & ->). split.
  - change (Py.item "beds" (Detail.homesite_literal card url d baths))
      with (Some (Py.of_option (Detail.card_text "p" "tracking_bedRange" card))).
    destruct (Detail.card_text "p" "tracking_bedRange" card) as [t|]; cbn; eauto.
  - change (Py.item "baths" (Detail.homesite_literal card url d baths))
      with (Some baths).
    unfold Detail.baths_value in Hb.
    destruct (Detail.card_text "p" "tracking_bathRange" card) as [t|];
      [|injection Hb as <-; auto].
    destruct (Extract.nonempty t); cbn [andb] in Hb;
      [|injection Hb as <-; auto].
    destruct (PyStr.isdigit t) eqn:D; [|injection Hb as <-; auto].
    destruct (PyStr.int_of_digits t) as [n|] eqn:I; [|discriminate Hb].
    injection Hb as <-. right. exists t, n. auto.
Qed.

(** ** C4: square footage *)

(** C4 at the two texts of the claim: with its separator the number is
    parsed as 1250; without it the number pattern [\d{1,3}(?:,\d{3})*] stops
    after three digits and the number is parsed as 125.  The minimum and
    the maximum are taken on the integers: 999 is below 1,250. *)
Theorem sqft_without_separator_truncated :
  Regex.search Regex.re_grouped_number "1,250 sqft" = Some "1,250" /\
  PyStr.int_of_digits (PyStr.remove_commas "1,250") = Some 1250%Z /\
  Regex.found Regex.re_sqft "1250 sqft" = true /\
  Regex.search Regex.re_grouped_number "1250 sqft" = Some "125" /\
  PyStr.int_of_digits (PyStr.remove_commas "125") = Some 125%Z /\
  Extract.extract_sqft_range (Soup.document [Plans.design "1,250 sqft"])
    = Some "1,250 - 1,250" /\
  Extract.extract_sqft_range (Soup.document [Plans.design "1250 sqft"])
    = Some "125 - 125" /\
  Extract.extract_sqft_range
    (Soup.document [Plans.design "1,250 sqft"; Plans.design "999 sqft"])
    = Some "999 - 1,250" /\
  PyStr.ltb "1,250" "999" = true.
Proof. vm_compute. repeat split. Qed.

(** ** C8: the images of a homesite *)

Section Images.

Import Detail.







End Images.





(** ** The assembled community record *)

Section Assembler.

Import Detail.

Variable W : world.

Lemma first_page_fetched (url : string) (sels : list string)
    (s s' : Fetch.session) (soup : Soup.node) :
  first_page W url sels s = (Some soup, s') ->
  exists s0, _safe_get_page W url s0 = (Some soup, s').
Proof.
  revert s. induction sels as [|sel rest IH]; intros s; cbn [first_page].
  - discriminate.
  - destruct (_safe_get_page W url s) as [[page|] s1] eqn:E.
    + intros [= <- <-]. exists s. exact E.
    + apply IH.
Qed.

(** A returned record is the dict literal of [get_community_details],
    filled from the page that the fetcher returned. *)
Lemma get_community_details_Some (url : string) (s s' : Fetch.session)
    (r : value) :
  get_community_details W url s = (Some r, s') ->
  exists soup s1 price,
    first_page W url selectors s = (Some soup, s1) /\
    price_of (extract_jsonld_data W soup) = Some price /\
    extract_homesites W soup s1
      = (fst (extract_homesites W soup s1), s') /\
    r = community_info W (now W (Fetch.clock s')) url soup
          (extract_jsonld_data W soup) price
          (fst (extract_homesites W soup s1)).
Proof.
  unfold get_community_details.
  destruct (first_page W url selectors s) as [[soup|] s1] eqn:F;
    [|discriminate].
  unfold assemble.
  destruct (price_of (extract_jsonld_data W soup)) as [price|] eqn:P;
    [|discriminate].
  destruct (extract_homesites W soup s1) as [homesites s2] eqn:H.
  intros [= <- <-]. exists soup, s1, price. rewrite H. cbn [fst]. auto.
Qed.

End Assembler.

(** ** C7: which source wins *)




(** * Further properties *)

(** ** Every call of [_safe_get_page] *)

Section AnyWorld.

Import Fetch.

Lemma teardowns_cons (e : event) (l : list event) :
  teardowns (e :: l) = (if is_quit e then 1 else 0) + teardowns l.
Proof.
  unfold teardowns. rewrite filter_cons.
  destruct (decide (is_quit e = true)) as [H|H].
  - rewrite H. reflexivity.
  - apply not_true_is_false in H. rewrite H. reflexivity.
Qed.

Lemma creations_cons (e : event) (l : list event) :
  creations (e :: l) = (if is_launch e then 1 else 0) + creations l.
Proof.
  unfold creations. rewrite filter_cons.
  destruct (decide (is_launch e = true)) as [H|H].
  - rewrite H. reflexivity.
  - apply not_true_is_false in H. rewrite H. reflexivity.
Qed.

Lemma navigations_cons (e : event) (l : list event) :
  navigations (e :: l) = (if is_navigate e then 1 else 0) + navigations l.
Proof.
  unfold navigations. rewrite filter_cons.
  destruct (decide (is_navigate e = true)) as [H|H].
  - rewrite H. reflexivity.
  - apply not_true_is_false in H. rewrite H. reflexivity.
Qed.

Lemma navigations_app (l1 l2 : list event) :
  navigations (l1 ++ l2) = navigations l1 + navigations l2.
Proof. unfold navigations. rewrite filter_app, length_app. reflexivity. Qed.

Variable W : world.
Variable pause : nat -> Z.
Variable url : string.

Ltac count_events :=
  rewrite ?teardowns_app, ?creations_app, ?navigations_app, ?backoffs_app,
    ?teardowns_cons, ?creations_cons, ?navigations_cons;
  change (teardowns []) with 0; change (creations []) with 0;
  change (navigations []) with 0;
  cbn [is_quit is_launch is_navigate backoffs omap list_omap app length].

Ltac bounded_fields :=
  split; cbn [fst snd driver clock log length];
  [ rewrite ?app_nil_r, <- ?app_assoc; reflexivity
  | lia
  | count_events; lia
  | count_events; lia
  | count_events; try reflexivity
  | idtac
  | idtac ].

Lemma step_bounded (a : nat) (rest : list nat) (s : session) :
  (forall s', exists added,
      bounded W pause url rest s' (attempts W pause url rest s') added) ->
  exists added,
    bounded W pause url (a :: rest) s (attempts W pause url (a :: rest) s) added.
Proof.
  intros IH. destruct s as [d c l]. cbn [attempts].
  unfold tick, record, _setup_driver. cbn [driver clock log].
  assert (Hnav : forall pre : list event,
    creations pre <= 1 -> navigations pre = 0 -> teardowns pre = 0 ->
    backoffs pre = [] ->
    exists added,
      bounded W pause url (a :: rest) {| driver := d; clock := c; log := l |}
        (match render W (S c) url with
         | Some soup =>
             (Some soup,
              {| driver := true; clock := S c;
                 log := (l ++ pre) ++ [Navigate url] |})
         | None =>
             if (a <? max_retries - 1)%nat
             then attempts W pause url rest
                    (recover (pause a)
                       {| driver := true; clock := S c;
                          log := (l ++ pre) ++ [Navigate url] |})
             else (None,
                   {| driver := true; clock := S c;
                      log := (l ++ pre) ++ [Navigate url] |})
         end) added).
  { intros pre Hc Hn Ht Hb.
    destruct (render W (S c) url) as [page|] eqn:R.
    - exists (pre ++ [Navigate url]). bounded_fields.
      + rewrite Ht, Hb. reflexivity.
      + exists 0. count_events. rewrite Hb. reflexivity.
      + intros page' [= <-]. split; [reflexivity|exact R].
    - destruct (a <? max_retries - 1)%nat eqn:A.
      + unfold recover. cbn [driver clock log].
        destruct (IH {| driver := false; clock := S c;
                        log := ((l ++ pre) ++ [Navigate url])
                                 ++ [Backoff (pause a); Quit] |})
          as [added' B].
        destruct B as [Bl Bc Bn Bcr Bt [j Bb] Bp]. cbn [clock log] in *.
        exists (pre ++ [Navigate url; Backoff (pause a); Quit] ++ added').
        split; cbn [fst snd driver clock log length].
        * rewrite Bl. rewrite <- !app_assoc. reflexivity.
        * lia.
        * count_events. lia.
        * count_events. lia.
        * count_events. rewrite Ht, Hb, Bt. reflexivity.
        * exists (S j). count_events. rewrite Hb, Bb.
          apply Nat.ltb_lt in A. rewrite filter_cons_True by exact A.
          reflexivity.
        * exact Bp.
      + exists (pre ++ [Navigate url]). bounded_fields.
        * rewrite Ht, Hb. reflexivity.
        * exists 0. count_events. rewrite Hb. reflexivity.
        * discriminate. }
  destruct d.
  - destruct (Hnav []) as [added B]; try reflexivity; [cbn; lia|].
    rewrite app_nil_r in B. exists added. exact B.
  - destruct (launch W (S c)).
    + apply (Hnav [Launch]); reflexivity || (cbn; lia).
    + exists []. bounded_fields.
      * exists 0. reflexivity.
      * discriminate.
    + exists [Launch]. bounded_fields.
      * exists 0. reflexivity.
      * discriminate.
Qed.

Lemma attempts_bounded (todo : list nat) (s : session) :
  exists added, bounded W pause url todo s (attempts W pause url todo s) added.
Proof.
  revert s. induction todo as [|a rest IH]; intros s.
  - exists []. split; cbn [attempts fst snd length].
    + rewrite app_nil_r. reflexivity.
    + lia.
    + cbn. lia.
    + cbn. lia.
    + reflexivity.
    + exists 0. reflexivity.
    + discriminate.
  - apply step_bounded. exact IH.
Qed.

End AnyWorld.

(** X1: whatever the browser and the site do, a call of [_safe_get_page]
    of either scraper makes at most three attempts, navigates at most
    three times, tears a session down once per backoff sleep, and sleeps
    nothing, 5, or 5 then 10 seconds (detail scraper), nothing, 5, or 5
    then 5 seconds (links scraper); a page that it returns is the one the
    last attempt rendered, and the session is then live. *)
Theorem safe_get_page_bounded (W : world) (url : string) (s : Fetch.session) :
  let d := Detail._safe_get_page W url s in
  let l := Links._safe_get_page W url s in
  (exists added,
      Fetch.log (snd d) = Fetch.log s ++ added /\
      Fetch.navigations added <= 3 /\ Fetch.creations added <= 3 /\
      Fetch.teardowns added = length (Fetch.backoffs added) /\
      (Fetch.backoffs added = [] \/ Fetch.backoffs added = [5]%Z \/
       Fetch.backoffs added = [5; 10]%Z)) /\
  Fetch.clock (snd d) <= Fetch.clock s + 3 /\
  (forall page, fst d = Some page ->
     Fetch.driver (snd d) = true /\
     render W (Fetch.clock (snd d)) url = Some page) /\
  (exists added,
      Fetch.log (snd l) = Fetch.log s ++ added /\
      Fetch.navigations added <= 3 /\ Fetch.creations added <= 3 /\
      Fetch.teardowns added = length (Fetch.backoffs added) /\
      (Fetch.backoffs added = [] \/ Fetch.backoffs added = [5]%Z \/
       Fetch.backoffs added = [5; 5]%Z)) /\
  Fetch.clock (snd l) <= Fetch.clock s + 3 /\
  (forall page, fst l = Some page ->
     Fetch.driver (snd l) = true /\
     render W (Fetch.clock (snd l)) url = Some page).
Proof.
  cbv zeta. unfold Detail._safe_get_page, Links._safe_get_page.
  destruct (attempts_bounded W
              (fun attempt => Fetch.retry_delay * (Z.of_nat attempt + 1))%Z
              url (seq 0 Fetch.max_retries) s) as [ad [Dl Dc Dn Dcr Dt [j Db] Dp]].
  destruct (attempts_bounded W (fun _ => Fetch.retry_delay) url
              (seq 0 Fetch.max_retries) s) as [al [Ll Lc Ln Lcr Lt [i Lb] Lp]].
  change (filter (fun a => a < Fetch.max_retries - 1) (seq 0 Fetch.max_retries))
    with [0; 1] in Db, Lb.
  cbn [length seq Fetch.max_retries] in *.
  split; [|split; [exact Dc|split; [exact Dp|split; [|split; [exact Lc|exact Lp]]]]].
  - exists ad. split; [exact Dl|]. split; [exact Dn|]. split; [exact Dcr|].
    split; [exact Dt|]. rewrite Db.
    destruct j as [|[|j]]; cbn [firstn]; rewrite ?firstn_nil;
      [left|right; left|right; right]; reflexivity.
  - exists al. split; [exact Ll|]. split; [exact Ln|]. split; [exact Lcr|].
    split; [exact Lt|]. rewrite Lb.
    destruct i as [|[|i]]; cbn [firstn]; rewrite ?firstn_nil;
      [left|right; left|right; right]; reflexivity.
Qed.

(** ** What a match consumes *)

Section Consumed.

Import Regex.

Lemma in_run_Alt (r1 r2 : re) (s rest : list ascii) :
  In rest (run (Alt r1 r2) s) <-> In rest (run r1 s) \/ In rest (run r2 s).
Proof. cbn [run]. apply in_app_iff. Qed.

Lemma in_run_Eps (s rest : list ascii) : In rest (run Eps s) <-> rest = s.
Proof. cbn. split; [intros [H|[]]; auto|intros ->; auto]. Qed.

Lemma in_run_Eos (s rest : list ascii) :
  In rest (run Eos s) ->
  rest = s /\ (s = [] \/ s = [ascii_of_nat 10]).
Proof.
  cbn [run]. destruct s as [|c [|c' s']].
  - intros [<-|[]]. auto.
  - destruct (PyStr.ascii_eqb c (ascii_of_nat 10)) eqn:E; [|intros []].
    intros [<-|[]]. apply Ascii.eqb_eq in E. subst c. auto.
  - intros [].
Qed.

(** A repetition consumes a text with every property that the empty text
    has, that each turn's text has, and that concatenation keeps. *)
Lemma in_run_Star (r : re) (P : list ascii -> Prop) :
  P [] -> (forall a b, P a -> P b -> P (a ++ b)) ->
  (forall s mid, In mid (run r s) -> exists w, s = w ++ mid /\ P w) ->
  forall s rest, In rest (run (Star r) s) -> exists w, s = w ++ rest /\ P w.
Proof.
  intros Pnil Papp Hr s rest. cbn [run].
  generalize (length s) as fuel. intros fuel. revert s.
  induction fuel as [|fuel IH]; intros s.
  - intros [<-|[]]. exists []. auto.
  - intros Hin. apply in_app_iff in Hin. destruct Hin as [Hin|[<-|[]]].
    + apply in_flat_map in Hin. destruct Hin as (mid & Hmid & Hrest).
      destruct (length mid <? length s)%nat; [|destruct Hrest].
      apply Hr in Hmid. destruct Hmid as (w1 & -> & P1).
      apply IH in Hrest. destruct Hrest as (w2 & -> & P2).
      exists (w1 ++ w2). rewrite <- app_assoc. auto.
    + exists []. auto.
Qed.

Lemma in_run_UpTo (p : ascii -> bool) (n : nat) (s rest : list ascii) :
  In rest (run (UpTo n (Cls p)) s) ->
  exists w, s = w ++ rest /\ forallb p w = true /\ length w <= n.
Proof.
  revert s. induction n as [|n IH]; intros s; cbn [UpTo].
  - intros H. apply in_run_Eps in H. subst rest. exists []. cbn. auto.
  - unfold Opt. intros H. apply in_run_Alt in H. destruct H as [H|H].
    + apply in_run_Seq in H. destruct H as (mid & Hc & Hrest).
      apply in_run_Cls in Hc. destruct Hc as (c & -> & Hp).
      apply IH in Hrest. destruct Hrest as (w & -> & Hw & Hl).
      exists (c :: w). cbn. rewrite Hp, Hw. split; [reflexivity|].
      split; [reflexivity|lia].
    + apply in_run_Eps in H. subst rest. exists []. cbn.
      split; [reflexivity|]. split; [reflexivity|lia].
Qed.

(** The preferred match at the start of a text is what stands before
    one of the rests of [run]. *)
Lemma match_here_Some (r : re) (s m : list ascii) :
  match_here r s = Some m ->
  exists rest, In rest (run r s) /\ forall w, s = w ++ rest -> m = w.
Proof.
  unfold match_here. destruct (run r s) as [|rest rs]; [discriminate|].
  intros [= <-]. exists rest. split; [left; reflexivity|].
  intros w ->. rewrite length_app.
  replace (length w + length rest - length rest) with (length w) by lia.
  rewrite firstn_app, firstn_all, Nat.sub_diag. cbn. apply app_nil_r.
Qed.

Lemma search_chars_Some (r : re) (s m : list ascii) :
  search_chars r s = Some m ->
  exists pre suf, s = pre ++ suf /\ match_here r suf = Some m.
Proof.
  induction s as [|c s IH]; cbn [search_chars].
  - destruct (match_here r []) as [m'|] eqn:E; [|discriminate].
    intros [= <-]. exists [], []. auto.
  - destruct (match_here r (c :: s)) as [m'|] eqn:E.
    + intros [= <-]. exists [], (c :: s). auto.
    + intros H. apply IH in H. destruct H as (pre & suf & -> & Hm).
      exists (c :: pre), suf. auto.
Qed.

Lemma search_Some (r : re) (s m : string) :
  search r s = Some m ->
  exists pre suf rest,
    PyStr.chars s = pre ++ suf /\ In rest (run r suf) /\
    (forall w, suf = w ++ rest -> PyStr.chars m = w).
Proof.
  unfold search. destruct (search_chars r (PyStr.chars s)) as [m'|] eqn:E;
    [|discriminate].
  cbn. intros [= <-]. apply search_chars_Some in E.
  destruct E as (pre & suf & Hs & Hm). apply match_here_Some in Hm.
  destruct Hm as (rest & Hin & Hw). exists pre, suf, rest.
  split; [exact Hs|]. split; [exact Hin|].
  intros w Hsuf. unfold PyStr.chars, PyStr.str.
  rewrite list_ascii_of_string_of_list_ascii. apply Hw. exact Hsuf.
Qed.

End Consumed.

(** ** [extract_sqft_range] on every page *)

Section Sqft.

Import Regex Extract.

Lemma in_run_grouped_number (s rest : list ascii) :
  In rest (run re_grouped_number s) ->
  exists c w, s = c :: w ++ rest /\ PyStr.is_digit c = true /\
              forallb digit_or_comma w = true.
Proof.
  unfold re_grouped_number, digit. intros H.
  apply in_run_Seq in H. destruct H as (mid1 & H1 & H2).
  apply in_run_Seq in H1. destruct H1 as (mid0 & Hc & Hu).
  apply in_run_Cls in Hc. destruct Hc as (c & -> & Hd).
  apply in_run_UpTo in Hu. destruct Hu as (w1 & -> & Hw1 & _).
  apply (in_run_Star _ (fun w => forallb digit_or_comma w = true)) in H2.
  - destruct H2 as (w2 & -> & Hw2). exists c, (w1 ++ w2).
    rewrite <- app_assoc. split; [reflexivity|]. split; [exact Hd|].
    rewrite forallb_app, Hw2, andb_true_r.
    apply forallb_forall. intros x Hx.
    unfold digit_or_comma. rewrite (proj1 (forallb_forall _ _) Hw1 x Hx).
    reflexivity.
  - reflexivity.
  - intros a b Ha Hb. rewrite forallb_app, Ha, Hb. reflexivity.
  - intros s' mid Hin. apply in_run_Seq in Hin.
    destruct Hin as (m & Hcomma & Hrep).
    apply in_run_Cls in Hcomma. destruct Hcomma as (x & -> & Hx).
    apply in_run_Rep in Hrep. destruct Hrep as (ds & -> & _ & Hds).
    apply Ascii.eqb_eq in Hx. subst x.
    exists (","%char :: ds). split; [reflexivity|]. cbn [forallb].
    change (digit_or_comma ","%char) with true. cbn [andb].
    apply forallb_forall. intros y Hy. unfold digit_or_comma.
    rewrite (proj1 (forallb_forall _ _) Hds y Hy). reflexivity.
Qed.

Lemma digit_not_comma (c : ascii) :
  PyStr.is_digit c = true -> PyStr.ascii_eqb c ","%char = false.
Proof.
  intros H. destruct (PyStr.ascii_eqb c ","%char) eqn:E; [|reflexivity].
  apply Ascii.eqb_eq in E. subst c. discriminate H.
Qed.

(** [int] succeeds on what the number pattern captures, unless it has
    more digits than [int] accepts. *)
Lemma captured_number_parses (t g : string) :
  search re_grouped_number t = Some g ->
  let n := length (PyStr.chars (PyStr.remove_commas g)) in
  (n <= PyStr.max_str_digits ->
   exists v, PyStr.int_of_digits (PyStr.remove_commas g) = Some v) /\
  (PyStr.max_str_digits < n ->
   PyStr.int_of_digits (PyStr.remove_commas g) = None).
Proof.
  intros H. apply search_Some in H.
  destruct H as (pre & suf & rest & _ & Hin & Hg).
  apply in_run_grouped_number in Hin. destruct Hin as (c & w & -> & Hc & Hw).
  specialize (Hg (c :: w) eq_refl).
  assert (E : PyStr.chars (PyStr.remove_commas g)
              = c :: filter (fun c0 => negb (PyStr.ascii_eqb c0 ","%char)) w).
  { unfold PyStr.remove_commas. unfold PyStr.chars at 1, PyStr.str.
    rewrite list_ascii_of_string_of_list_ascii, Hg.
    rewrite filter_cons_True by (rewrite (digit_not_comma c Hc); exact I).
    reflexivity. }
  assert (F : forallb PyStr.is_digit
                (filter (fun c0 => negb (PyStr.ascii_eqb c0 ","%char)) w)
              = true).
  { apply forallb_forall. intros x Hx. apply list_elem_of_In in Hx.
    apply list_elem_of_filter in Hx. destruct Hx as [Hn Hx].
    apply list_elem_of_In in Hx.
    pose proof (proj1 (forallb_forall _ _) Hw x Hx) as D.
    unfold digit_or_comma in D. apply Is_true_true, negb_true_iff in Hn.
    rewrite Hn, orb_false_r in D. exact D. }
  cbv zeta. unfold PyStr.int_of_digits. rewrite E.
  cbn [forallb]. rewrite Hc, F. cbn [andb]. split; intros L.
  - apply Nat.leb_le in L. rewrite L. eauto.
  - apply Nat.leb_gt in L. rewrite L. reflexivity.
Qed.

End Sqft.

Section SqftRange.

Import Regex Extract.

Lemma find_text_found (r : re) (n : Soup.node) (t : string) :
  Soup.find_text r n = Some t -> found r t = true.
Proof.
  unfold Soup.find_text, Soup.find_all_text. intros H.
  apply head_Some_elem_of, list_elem_of_omap in H.
  destruct H as (d & _ & Hd). destruct d as [s|]; [|discriminate].
  destruct (found r s) eqn:F; [|discriminate].
  injection Hd as <-. exact F.
Qed.

Lemma set_add_spec (n : Z) (s : list Z) :
  Py.set_add Z.eqb n s <> [] /\ In n (Py.set_add Z.eqb n s) /\
  forall v, In v s -> In v (Py.set_add Z.eqb n s).
Proof.
  unfold Py.set_add. destruct (existsb (Z.eqb n) s) eqn:E.
  - apply existsb_exists in E. destruct E as (x & Hx & Heq).
    apply Z.eqb_eq in Heq. subst x. split.
    + intros ->. destruct Hx.
    + auto.
  - split; [destruct s; discriminate|]. split.
    + apply in_or_app. right. left. reflexivity.
    + intros v Hv. apply in_or_app. auto.
Qed.

(** A turn of the loop raises exactly on a design whose number is too
    long for [int]; otherwise it adds a number exactly when the design has
    a square-footage text. *)
Lemma add_sqft_cases (values : list Z) (design : Soup.node) :
  (overlong design = true -> add_sqft values design = None) /\
  (overlong design = false ->
   exists values',
     add_sqft values design = Some values' /\
     (forall v, In v values -> In v values') /\
     (Soup.find_text re_sqft design = None -> values' = values) /\
     (Soup.find_text re_sqft design <> None -> values' <> [])).
Proof.
  unfold add_sqft, overlong, captured_digits.
  destruct (Soup.find_text re_sqft design) as [t|] eqn:E.
  - pose proof (find_text_found _ _ _ E) as F.
    assert (N : nonempty t = true).
    { destruct t; [discriminate F|reflexivity]. }
    rewrite N.
    assert (G : found re_grouped_number t = true).
    { apply found_iff in F. destruct F as (pre & suf & rest & Hs & Hin).
      unfold re_sqft in Hin. apply in_run_Seq in Hin.
      destruct Hin as (mid & Hmid & _). apply found_iff.
      exists pre, suf, mid. auto. }
    unfold found in G.
    destruct (search re_grouped_number t) as [g|] eqn:S; [|discriminate G].
    destruct (captured_number_parses t g S) as [Hshort Hlong]. split.
    + intros L. apply Nat.ltb_lt in L. rewrite (Hlong L). reflexivity.
    + intros L. apply Nat.ltb_ge in L. destruct (Hshort L) as [n Hn].
      rewrite Hn. destruct (set_add_spec n values) as (H1 & H2 & H3).
      exists (Py.set_add Z.eqb n values).
      split; [reflexivity|]. split; [exact H3|]. split; [discriminate|].
      intros _. exact H1.
  - split; [discriminate|]. intros _. exists values.
    split; [reflexivity|]. split; [auto|]. split; [reflexivity|]. congruence.
Qed.

Lemma collect_sqft_raises (designs : list Soup.node) (acc : list Z) :
  existsb overlong designs = true -> collect_sqft acc designs = None.
Proof.
  revert acc. induction designs as [|design rest IH]; intros acc;
    [discriminate|].
  cbn [existsb collect_sqft]. destruct (add_sqft_cases acc design) as [Hl Hs].
  destruct (overlong design).
  - intros _. rewrite (Hl eq_refl). reflexivity.
  - cbn [orb]. intros H. destruct (Hs eq_refl) as (acc' & -> & _).
    apply IH. exact H.
Qed.




End SqftRange.



(** ** When the browser or the site fails *)

(** X3: a call of [_safe_get_page] that has no session and cannot start
    the browser returns [None] after that one attempt: it does not
    navigate, does not sleep and does not retry. *)
Theorem safe_get_page_without_browser (W : world) (url : string)
    (s : Fetch.session) :
  Fetch.driver s = false -> launch W (S (Fetch.clock s)) <> Launched ->
  let d := Detail._safe_get_page W url s in
  let l := Links._safe_get_page W url s in
  fst d = None /\ fst l = None /\ snd d = snd l /\
  Fetch.clock (snd d) = S (Fetch.clock s) /\
  Fetch.navigations (Fetch.log (snd d)) = Fetch.navigations (Fetch.log s) /\
  Fetch.backoffs (Fetch.log (snd d)) = Fetch.backoffs (Fetch.log s) /\
  Fetch.teardowns (Fetch.log (snd d)) = Fetch.teardowns (Fetch.log s).
Proof.
  intros Hd Hl. cbv zeta. unfold Detail._safe_get_page, Links._safe_get_page.
  destruct s as [d c l]. cbn [Fetch.driver Fetch.clock Fetch.log] in *.
  subst d. cbn [seq Fetch.max_retries Fetch.attempts].
  unfold Fetch.tick, Fetch._setup_driver.
  cbn [Fetch.driver Fetch.clock Fetch.log].
  destruct (launch W (S c)); [congruence| |];
    cbn [fst snd Fetch.clock Fetch.log];
    rewrite ?navigations_app, ?backoffs_app, ?teardowns_app;
    repeat split; try reflexivity.
  - change (Fetch.navigations [Fetch.Launch]) with 0. lia.
  - apply app_nil_r.
  - change (Fetch.teardowns [Fetch.Launch]) with 0. lia.
Qed.

Lemma safe_get_page_without_browser_witness :
  fst (Detail._safe_get_page More.no_browser Listings.community_url Fetch.fresh)
    = None /\
  Fetch.log (snd (Detail._safe_get_page More.no_browser Listings.community_url
                                        Fetch.fresh)) = [].
Proof.
  destruct (safe_get_page_without_browser More.no_browser
              Listings.community_url Fetch.fresh) as (H & _).
  - reflexivity.
  - discriminate.
  - split; [exact H|reflexivity].
Defined.

(** X4: on a community page that never renders, with a browser that
    starts, [get_community_details] tries each of its five selectors with
    three attempts and returns [None] after 15 navigations, 10 teardowns
    and backoff sleeps of 5 and 10 seconds per selector, 75 seconds in
    all. *)
Theorem get_community_details_dead_page (W : world) (url : string)
    (s : Fetch.session) :
  reliable_launch W -> (forall t, render W t url = None) ->
  let r := Detail.get_community_details W url s in
  fst r = None /\
  Fetch.clock (snd r) = 15 + Fetch.clock s /\
  exists added,
    Fetch.log (snd r) = Fetch.log s ++ added /\
    Fetch.navigations added = 15 /\
    Fetch.teardowns added = 10 /\
    Fetch.backoffs added = [5; 10; 5; 10; 5; 10; 5; 10; 5; 10]%Z /\
    fold_right Z.add 0%Z (Fetch.backoffs added) = 75%Z.
Proof.
  intros HL Hdead. cbv zeta.
  assert (F : forall s', fails W url s' Fetch.max_retries)
    by (intros s' i _; apply Hdead).
  unfold Detail.get_community_details, Detail.selectors.
  cbn [Detail.first_page]. unfold Detail._safe_get_page.
  change (fun attempt : nat => (Fetch.retry_delay * (Z.of_nat attempt + 1))%Z)
    with linear.
  do 5 (rewrite (attempts_exhausted W linear url _ HL (F _));
        cbn [Fetch.clock Fetch.log Fetch.driver]).
  cbn [fst snd Fetch.clock Fetch.log]. split; [reflexivity|].
  split; [reflexivity|].
  eexists. split.
  - unfold boot at 2 3 4 5. cbn [Fetch.driver app].
    rewrite <- !app_assoc. reflexivity.
  - rewrite !navigations_app, !teardowns_app, !backoffs_app.
    unfold boot. destruct (Fetch.driver s); repeat split; reflexivity.
Qed.

Lemma get_community_details_dead_page_witness :
  fst (Detail.get_community_details Worlds.dead Listings.community_url
                                    Fetch.fresh) = None /\
  Fetch.clock (snd (Detail.get_community_details Worlds.dead
                      Listings.community_url Fetch.fresh)) = 15.
Proof.
  destruct (get_community_details_dead_page Worlds.dead Listings.community_url
              Fetch.fresh) as (H & C & _).
  - intros t. reflexivity.
  - intros t. reflexivity.
  - split; [exact H|exact C].
Defined.

(** X5: when the structured data of a fetched community page has no
    truthy [priceRange] and an [offers] that is not an object,
    [get_community_details] returns [None]: the whole record is lost, and
    no homesite page is requested. *)
Theorem get_community_details_bad_offers (W : world) (url : string)
    (s s1 : Fetch.session) (soup : Soup.node) (offers : value) :
  Detail.first_page W url Detail.selectors s = (Some soup, s1) ->
  Py.truthy (Py.get "priceRange" VNone (Detail.extract_jsonld_data W soup))
    = false ->
  Detail.extract_jsonld_data W soup !! "offers" = Some offers ->
  (forall d, offers <> VDict d) ->
  Detail.get_community_details W url s = (None, s1).
Proof.
  intros F Hp Ho Hd. unfold Detail.get_community_details. rewrite F.
  unfold Detail.assemble, Detail.price_of. rewrite Hp.
  unfold Py.get at 1. rewrite Ho.
  destruct offers; try reflexivity. exfalso. eapply Hd. reflexivity.
Qed.

Lemma get_community_details_bad_offers_witness :
  fst (Detail.get_community_details More.offers_site Listings.community_url
                                    Fetch.fresh) = None /\
  Fetch.navigations
    (Fetch.log (snd (Detail.get_community_details More.offers_site
                       Listings.community_url Fetch.fresh))) = 1.
Proof.
  assert (F : Detail.first_page More.offers_site Listings.community_url
                Detail.selectors Fetch.fresh
              = (Some More.offers_page,
                 snd (Detail.first_page More.offers_site Listings.community_url
                        Detail.selectors Fetch.fresh)))
    by (vm_compute; reflexivity).
  rewrite (get_community_details_bad_offers More.offers_site
             Listings.community_url Fetch.fresh _ More.offers_page
             (VList [VDict (list_to_map [("price", VInt 875000)])]) F).
  - split; reflexivity.
  - vm_compute. reflexivity.
  - vm_compute. reflexivity.
  - intros d. discriminate.
Defined.

(** ** More on homesite records *)

Section HomesiteRecords.

Import Detail.

Lemma card_url_absolute (card : Soup.node) (url : string) :
  card_url card = Some url -> PyStr.startswith "http" url = true.
Proof.
  unfold card_url.
  destruct (Soup.select_one "a" "ModelCard_modelCardContainer__lXz5R" card)
    as [a|]; [|discriminate].
  destruct (Soup.attr "href" a) as [u|]; [|discriminate].
  destruct (Extract.nonempty u); [|discriminate].
  destruct (PyStr.startswith "http" u) eqn:E; intros [= <-].
  - exact E.
  - reflexivity.
Qed.

Lemma homesites_loop_length (W : world) (cards : list Soup.node)
    (acc : list value) (s : Fetch.session) :
  length (fst (homesites_loop W cards acc s)) <= length acc + length cards.
Proof.
  revert acc s. induction cards as [|card rest IH]; intros acc s.
  - cbn. lia.
  - cbn [homesites_loop length].
    destruct (homesite_of W card s) as [[h|] s'].
    + specialize (IH (acc ++ [h]) s'). rewrite length_app in IH. cbn in IH. lia.
    + specialize (IH acc s'). lia.
Qed.

(** [int(baths)] raises exactly on the bath texts that [isdigit] accepts
    and [int] rejects. *)
Lemma baths_value_raises (card : Soup.node) :
  baths_value (card_text "p" "tracking_bathRange" card) = None <->
  baths_rejected card = true.
Proof.
  unfold baths_rejected, baths_value, int_rejects.
  destruct (card_text "p" "tracking_bathRange" card) as [t|];
    [|split; discriminate].
  destruct (PyStr.isdigit t) eqn:D.
  - assert (N : Extract.nonempty t = true).
    { destruct t; [discriminate D|reflexivity]. }
    rewrite N. cbn [andb]. unfold PyStr.int_of_digits.
    unfold PyStr.isdigit in D.
    destruct (PyStr.chars t) as [|c l] eqn:E; [discriminate D|].
    destruct (forallb PyStr.is_digit (c :: l) &&
              (length (c :: l) <=? PyStr.max_str_digits)%nat);
      cbn; split; (discriminate || reflexivity).
  - rewrite andb_false_r. cbn. split; discriminate.
Qed.

End HomesiteRecords.

(** X6: [extract_homesites] returns at most one record per card; every
    record has all fifteen keys of a homesite, and its [url] is absolute:
    it starts with [http]. *)
Theorem homesite_records_complete (W : world) (soup : Soup.node)
    (s : Fetch.session) :
  length (fst (Detail.extract_homesites W soup s))
    <= length (Detail.cards_of soup) /\
  forall h, In h (fst (Detail.extract_homesites W soup s)) ->
    HomesiteShape.complete h = true /\
    exists url, Py.item "url" h = Some (VStr url) /\
                PyStr.startswith "http" url = true.
Proof.
  split.
  - unfold Detail.extract_homesites.
    apply (homesites_loop_length W (Detail.cards_of soup) [] s).
  - intros h Hin. apply extract_homesites_records in Hin.
    destruct Hin as (card & url & d & _ & Hu & Hh & _).
    apply homesite_record_Some in Hh. destruct Hh as (baths & _ & ->).
    split; [reflexivity|]. exists url. split; [reflexivity|].
    apply (card_url_absolute card url Hu).
Qed.

(** X7: a homesite whose detail page is fetched and whose structured data
    has a [url] that is not a text is dropped: the search for the id
    raises, and the card yields no record although its page was
    requested. *)
Theorem homesite_dropped_on_bad_url (W : world) (card page : Soup.node)
    (s s' : Fetch.session) (url : string) (v : value) :
  Detail.card_url card = Some url ->
  Detail._safe_get_page W url s = (Some page, s') ->
  Detail.extract_jsonld_data W page !! "url" = Some v ->
  (forall u, v <> VStr u) ->
  Detail.homesite_of W card s = (None, s').
Proof.
  intros Hu Hp Hv Hn. unfold Detail.homesite_of. rewrite Hu, Hp.
  unfold Detail.supplement_of.
  assert (T : Py.truthy (VDict (Detail.extract_jsonld_data W page)) = true).
  { cbn [Py.truthy]. apply negb_true_iff, bool_decide_eq_false.
    intros E. rewrite E, lookup_empty in Hv. discriminate Hv. }
  rewrite T. unfold Detail.id_of. rewrite Hv.
  destruct v; try reflexivity. exfalso. eapply Hn. reflexivity.
Qed.

Lemma homesite_dropped_on_bad_url_witness :
  fst (Detail.extract_homesites More.listed_url_site Listings.listing
                                Fetch.fresh) = [] /\
  Fetch.navigations
    (Fetch.log (snd (Detail.extract_homesites More.listed_url_site
                       Listings.listing Fetch.fresh))) = 1.
Proof.
  pose (card := Listings.card "/luxury-homes/Avalon/quick-move-in/275000"
                              "3" "2" "2,410").
  assert (P : Detail._safe_get_page More.listed_url_site Listings.homesite_url
                Fetch.fresh
              = (Some More.listed_url_page,
                 snd (Detail._safe_get_page More.listed_url_site
                        Listings.homesite_url Fetch.fresh)))
    by (vm_compute; reflexivity).
  pose proof (homesite_dropped_on_bad_url More.listed_url_site card
                More.listed_url_page Fetch.fresh
                (snd (Detail._safe_get_page More.listed_url_site
                        Listings.homesite_url Fetch.fresh))
                Listings.homesite_url
                (VList [VStr Listings.homesite_url])) as H.
  assert (E : Detail.homesite_of More.listed_url_site card Fetch.fresh
              = (None, snd (Detail._safe_get_page More.listed_url_site
                              Listings.homesite_url Fetch.fresh))).
  { apply H.
    - vm_compute. reflexivity.
    - exact P.
    - vm_compute. reflexivity.
    - intros u. discriminate. }
  unfold Detail.extract_homesites.
  change (Detail.cards_of Listings.listing) with [card].
  cbn [Detail.homesites_loop]. rewrite E. cbn [fst snd].
  split; [reflexivity|]. vm_compute. reflexivity.
Defined.

(** X8: a homesite whose detail page cannot be fetched is still recorded
    from its card, unless its bath text is one that [isdigit] accepts and
    [int] rejects (a superscript digit, or more than 4300 digits): then
    [int(baths)] raises and the card yields no record.  Otherwise the
    record has the link of the card as [url], the image of the card, if
    any, as its only image, and [None] under [plan], [id], [address],
    [latitude], [longitude] and [overview]. *)
Theorem homesite_without_detail_page (W : world) (card : Soup.node)
    (s s' : Fetch.session) (url : string) :
  Detail.card_url card = Some url ->
  Detail._safe_get_page W url s = (None, s') ->
  (baths_rejected card = true -> Detail.homesite_of W card s = (None, s')) /\
  (baths_rejected card = false ->
   exists h,
     Detail.homesite_of W card s = (Some h, s') /\
     HomesiteShape.complete h = true /\
     Py.item "url" h = Some (VStr url) /\
     Py.item "images" h = Some (VList (Detail.card_images card)) /\
     length (Detail.card_images card) <= 1 /\
     forall k, In k HomesiteShape.supplied -> Py.item k h = Some VNone).
Proof.
  intros Hu Hp. unfold Detail.homesite_of. rewrite Hu, Hp.
  unfold Detail.homesite_record. split; intros Hb.
  - apply baths_value_raises in Hb. rewrite Hb. reflexivity.
  - destruct (Detail.baths_value
                (Detail.card_text "p" "tracking_bathRange" card))
      as [baths|] eqn:E.
    + cbn [option_map]. eexists. split; [reflexivity|].
      split; [reflexivity|]. split; [reflexivity|]. split; [reflexivity|].
      split.
      * unfold Detail.card_images.
        destruct (Soup.select_one "img"
                    "BlurBackgroundFill_modelCardImg__fpCCc" card)
          as [img|]; [|cbn; lia].
        destruct (Soup.attr "src" img) as [u|]; [|cbn; lia].
        destruct (Extract.nonempty u); cbn; lia.
      * intros k Hk. cbn in Hk.
        destruct Hk as [<-|[<-|[<-|[<-|[<-|[<-|[]]]]]]]; reflexivity.
    + apply baths_value_raises in E. congruence.
Qed.

Lemma homesite_without_detail_page_witness :
  (exists h,
     fst (Detail.extract_homesites Worlds.dead Listings.listing Fetch.fresh)
       = [h] /\
     Py.item "url" h = Some (VStr Listings.homesite_url) /\
     Py.item "latitude" h = Some VNone) /\
  fst (Detail.homesite_of Worlds.dead
         (Listings.card "/luxury-homes/Avalon/quick-move-in/275000"
                        "3" HomesiteShape.superscript_two "2,410")
         Fetch.fresh) = None.
Proof.
  assert (P : Detail._safe_get_page Worlds.dead Listings.homesite_url
                Fetch.fresh
              = (None, snd (Detail._safe_get_page Worlds.dead
                              Listings.homesite_url Fetch.fresh)))
    by (vm_compute; reflexivity).
  split.
  - pose (card := Listings.card "/luxury-homes/Avalon/quick-move-in/275000"
                                "3" "2" "2,410").
    destruct (homesite_without_detail_page Worlds.dead card Fetch.fresh _
                Listings.homesite_url eq_refl P) as [_ H].
    destruct H as (h & E & _ & U & _ & _ & N); [vm_compute; reflexivity|].
    exists h. split; [|split; [exact U|]].
    + unfold Detail.extract_homesites.
      change (Detail.cards_of Listings.listing) with [card].
      cbn [Detail.homesites_loop]. rewrite E. reflexivity.
    + apply N. cbn. auto.
  - destruct (homesite_without_detail_page Worlds.dead
                (Listings.card "/luxury-homes/Avalon/quick-move-in/275000"
                               "3" HomesiteShape.superscript_two "2,410")
                Fetch.fresh _ Listings.homesite_url eq_refl P) as [H _].
    rewrite H; [reflexivity|vm_compute; reflexivity].
Defined.

Section CardTexts.

Lemma remove_commas_clean (x : string) :
  PyStr.contains "," (PyStr.remove_commas x) = false.
Proof.
  unfold PyStr.contains, PyStr.remove_commas.
  unfold PyStr.chars at 1, PyStr.str.
  rewrite list_ascii_of_string_of_list_ascii.
  generalize (PyStr.chars x) as l. clear x.
  induction l as [|c l IH]; [reflexivity|].
  rewrite filter_cons.
  destruct (decide (negb (PyStr.ascii_eqb c ","%char))) as [H|H]; [|exact IH].
  apply Is_true_true, negb_true_iff in H.
  cbn [PyStr.infix_of PyStr.starts_with PyStr.chars list_ascii_of_string].
  unfold PyStr.ascii_eqb in *. rewrite Ascii.eqb_sym, H. cbn [andb orb].
  exact IH.
Qed.

Lemma in_run_Plus_Cls (p : ascii -> bool) (s rest : list ascii) :
  In rest (Regex.run (Regex.Plus (Regex.Cls p)) s) ->
  exists c w, s = c :: w ++ rest /\ p c = true /\ forallb p w = true.
Proof.
  unfold Regex.Plus. intros H. apply in_run_Seq in H.
  destruct H as (mid & Hc & Hs). apply in_run_Cls in Hc.
  destruct Hc as (c & -> & Hp).
  apply (in_run_Star _ (fun w => forallb p w = true)) in Hs.
  - destruct Hs as (w & -> & Hw). exists c, w. auto.
  - reflexivity.
  - intros a b Ha Hb. rewrite forallb_app, Ha, Hb. reflexivity.
  - intros s' mid' Hin. apply in_run_Cls in Hin.
    destruct Hin as (x & -> & Hx). exists [x]. cbn. rewrite Hx. auto.
Qed.

End CardTexts.

(** X9: the [sqft] of a homesite record is [None] or a text without a
    comma. *)
Theorem homesite_sqft_without_commas (W : world) (soup : Soup.node)
    (s : Fetch.session) (h : value) :
  In h (fst (Detail.extract_homesites W soup s)) ->
  Py.item "sqft" h = Some VNone \/
  exists t, Py.item "sqft" h = Some (VStr t) /\ PyStr.contains "," t = false.
Proof.
  intros Hin. apply extract_homesites_records in Hin.
  destruct Hin as (card & url & d & _ & _ & Hh & _).
  apply homesite_record_Some in Hh. destruct Hh as (baths & _ & ->).
  change (Py.item "sqft" (Detail.homesite_literal card url d baths))
    with (Some (Py.of_option
                  (option_map PyStr.remove_commas
                     (Detail.card_text "p" "tracking_sqftRange" card)))).
  destruct (Detail.card_text "p" "tracking_sqftRange" card) as [t|]; cbn.
  - right. exists (PyStr.remove_commas t). split; [reflexivity|].
    apply remove_commas_clean.
  - left. reflexivity.
Qed.

Lemma homesite_sqft_without_commas_witness :
  exists h,
    In h (fst (Detail.extract_homesites Worlds.dead Listings.listing
                                        Fetch.fresh)) /\
    Py.item "sqft" h = Some (VStr "2410").
Proof.
  assert (I : map (Py.item "sqft")
                (fst (Detail.extract_homesites Worlds.dead Listings.listing
                                               Fetch.fresh))
              = [Some (VStr "2410")]) by (vm_compute; reflexivity).
  destruct (fst (Detail.extract_homesites Worlds.dead Listings.listing
                                          Fetch.fresh))
    as [|h rest] eqn:E; [discriminate I|].
  injection I as I _. exists h. split; [left; reflexivity|].
  destruct (homesite_sqft_without_commas Worlds.dead Listings.listing
              Fetch.fresh h) as [N|(t & Ht & _)].
  - rewrite E. left. reflexivity.
  - exact I.
  - exact I.
Defined.

(** X10: the id that [extract_homesites] derives from the [url] of the
    structured data is the last segment of that address: a non-empty run
    of word characters that follows the last slash and ends the text, a
    final newline apart. *)
Theorem homesite_id_last_segment (jsonld : gmap string value) (i : string) :
  Detail.id_of jsonld = Some (Some i) ->
  exists (u : string) (pre : list ascii),
    jsonld !! "url" = Some (VStr u) /\
    i <> "" /\ forallb PyStr.is_word (PyStr.chars i) = true /\
    (PyStr.chars u = pre ++ "/"%char :: PyStr.chars i \/
     PyStr.chars u = pre ++ "/"%char :: PyStr.chars i ++ [ascii_of_nat 10]).
Proof.
  unfold Detail.id_of.
  destruct (jsonld !! "url") as [[| | | |u| |]|]; try discriminate.
  destruct (Regex.search Regex.re_id u) as [[|c g]|] eqn:S; try discriminate.
  intros [= <-]. apply search_Some in S.
  destruct S as (pre & suf & rest & Hu & Hin & Hm).
  unfold Regex.re_id in Hin. apply in_run_Seq in Hin.
  destruct Hin as (mid & Hslash & Hin). apply in_run_Cls in Hslash.
  destruct Hslash as (x & -> & Hx). apply Ascii.eqb_eq in Hx. subst x.
  apply in_run_Seq in Hin. destruct Hin as (mid2 & Hw & He).
  apply in_run_Plus_Cls in Hw. destruct Hw as (c1 & w & -> & Hc1 & Hw).
  apply in_run_Eos in He. destruct He as [-> He].
  specialize (Hm ("/"%char :: c1 :: w) eq_refl).
  cbn [PyStr.chars list_ascii_of_string] in Hm. injection Hm as -> Hg.
  exists u, pre. split; [reflexivity|].
  split; [destruct g; [discriminate Hg|discriminate]|].
  unfold PyStr.chars in *. rewrite Hg. cbn [forallb]. rewrite Hc1, Hw.
  split; [reflexivity|]. rewrite Hu.
  destruct He as [->| ->]; [left|right]; rewrite ?app_nil_r; reflexivity.
Qed.

Lemma homesite_id_last_segment_witness :
  Detail.id_of Listings.homesite_ld = Some (Some "275000") /\
  exists pre, PyStr.chars Listings.homesite_url
              = pre ++ "/"%char :: PyStr.chars "275000".
Proof.
  assert (E : Detail.id_of Listings.homesite_ld = Some (Some "275000"))
    by (vm_compute; reflexivity).
  split; [exact E|].
  destruct (homesite_id_last_segment Listings.homesite_ld "275000" E)
    as (u & pre & Hu & _ & _ & H).
  vm_compute in Hu. injection Hu as <-.
  destruct H as [H|H].
  - exists pre. exact H.
  - exfalso. apply (f_equal (@rev ascii)) in H.
    rewrite rev_app_distr in H. cbn [rev] in H.
    rewrite rev_app_distr in H. vm_compute in H. discriminate H.
Defined.

(** ** More on the extractors *)



(** X12: every address that [extract_images] returns is the non-empty
    [src] of an [img] element inside the gallery, and does not start with
    [data:]; without a gallery element nothing is returned, whatever
    images the page holds. *)
Theorem gallery_images_only (soup : Soup.node) :
  (forall u, In u (Extract.extract_images soup) ->
     u <> "" /\ PyStr.startswith "data:" u = false /\
     exists gallery img,
       Soup.find_id "toScroll-gallery" soup = Some gallery /\
       In img (Soup.descendants gallery) /\ Soup.name_is "img" img = true /\
       Soup.attr "src" img = Some u) /\
  (forall gallery,
     Soup.find_id "toScroll-gallery" soup = Some gallery ->
     forall img u, In img (Soup.descendants gallery) ->
       Soup.name_is "img" img = true -> Soup.attr "src" img = Some u ->
       u <> "" -> PyStr.startswith "data:" u = false ->
       In u (Extract.extract_images soup)).
Proof.
  unfold Extract.extract_images. split.
  - intros u Hin.
    destruct (Soup.find_id "toScroll-gallery" soup) as [gallery|];
      [|destruct Hin].
    apply list_elem_of_In, list_elem_of_omap in Hin.
    destruct Hin as (img & Himg & Hsrc).
    unfold Soup.find_all_tag in Himg. apply list_elem_of_filter in Himg.
    destruct Himg as [Hn Hd]. apply list_elem_of_In in Hd.
    unfold Extract.usable_src in Hsrc.
    destruct (Soup.attr "src" img) as [src|] eqn:A; [|discriminate].
    destruct (Extract.nonempty src) eqn:N; cbn [andb] in Hsrc; [|discriminate].
    destruct (PyStr.startswith "data:" src) eqn:D; cbn [negb] in Hsrc;
      [discriminate|].
    injection Hsrc as <-. split.
    + intros ->. discriminate N.
    + split; [exact D|]. exists gallery, img. auto.
  - intros gallery -> img u Hd Hn Ha Hne Hdata.
    apply list_elem_of_In, list_elem_of_omap. exists img. split.
    + unfold Soup.find_all_tag. apply list_elem_of_filter.
      split; [exact Hn|]. apply list_elem_of_In. exact Hd.
    + unfold Extract.usable_src. rewrite Ha, Hdata.
      destruct u; [congruence|reflexivity].
Qed.

Lemma gallery_images_only_witness :
  In Listings.image_A (Extract.extract_images Listings.gallery_page) /\
  ~ In Listings.image_C (Extract.extract_images Listings.gallery_page).
Proof.
  destruct (gallery_images_only Listings.gallery_page) as [Honly Hall].
  split.
  - apply (Hall (Soup.Tag "div" [] [("id", "toScroll-gallery")]
                   [Soup.Tag "img" [] [("src", Listings.image_A)] [];
                    Soup.Tag "img" [] [("src", Listings.image_B)] []])
                eq_refl
                (Soup.Tag "img" [] [("src", Listings.image_A)] [])).
    + cbn. auto.
    + reflexivity.
    + reflexivity.
    + discriminate.
    + reflexivity.
  - intros H. apply Honly in H.
    destruct H as (_ & _ & gallery & img & Hg & Hin & _ & Ha).
    vm_compute in Hg. injection Hg as <-. cbn in Hin.
    destruct Hin as [<-|[<-|[]]]; vm_compute in Ha; discriminate Ha.
Defined.

(** ** The links scraper *)

Section LinksScraper.

Import Links.

Lemma find_all_tag_with_attr (nm k : string) (n a : Soup.node) :
  In a (Soup.find_all_tag_with nm k n) -> exists v, Soup.attr k a = Some v.
Proof.
  unfold Soup.find_all_tag_with. intros H.
  apply list_elem_of_In, list_elem_of_filter in H. destruct H as [H _].
  apply andb_prop in H. destruct H as [_ H].
  destruct (Soup.attr k a) as [v|]; [eauto|discriminate H].
Qed.

Lemma absolute_starts_with_http (url : string) :
  PyStr.startswith "http" (absolute url) = true.
Proof.
  unfold absolute. destruct (PyStr.startswith "http" url) eqn:E.
  - exact E.
  - reflexivity.
Qed.

(** The loop over the links of a state never stops early: every link
    found with [href=True] has the attribute. *)
Lemma cities_all (state_name : string) (city_links : list Soup.node)
    (locations : list value) :
  (forall a, In a city_links -> exists v, Soup.attr "href" a = Some v) ->
  exists added,
    cities state_name city_links locations = locations ++ added /\
    length added = length city_links /\
    forall loc, In loc added ->
      Py.item "state" loc = Some (VStr state_name) /\
      (exists nm, Py.item "name" loc = Some (VStr nm)) /\
      CommunityShape.absolute_url loc = true.
Proof.
  revert locations. induction city_links as [|a rest IH]; intros locations H.
  - exists []. cbn. rewrite app_nil_r. split; [reflexivity|].
    split; [reflexivity|]. intros loc [].
  - cbn [cities]. destruct (H a (or_introl eq_refl)) as [v Hv]. rewrite Hv.
    destruct (IH (locations ++ [city_info state_name a v])) as (added & E & L & P).
    { intros a' Ha'. apply H. right. exact Ha'. }
    exists (city_info state_name a v :: added). split.
    + rewrite E, <- app_assoc. reflexivity.
    + split; [cbn; lia|]. intros loc [<-|Hin]; [|apply P; exact Hin].
      split; [reflexivity|]. split; [eexists; reflexivity|].
      apply absolute_starts_with_http.
Qed.

Lemma states_all (sections : list Soup.node) (locations : list value) :
  exists added,
    fold_left state_cities sections locations = locations ++ added /\
    length added
      = list_sum (map (fun st => length (Soup.find_all_tag_with "a" "href" st))
                      sections) /\
    forall loc, In loc added ->
      (exists st, Py.item "state" loc = Some (VStr st)) /\
      (exists nm, Py.item "name" loc = Some (VStr nm)) /\
      CommunityShape.absolute_url loc = true.
Proof.
  revert locations. induction sections as [|st rest IH]; intros locations.
  - exists []. cbn. rewrite app_nil_r. split; [reflexivity|].
    split; [reflexivity|]. intros loc [].
  - cbn [fold_left map list_sum]. unfold state_cities at 2.
    destruct (cities_all (text_or_empty (Soup.find_tag "h3" st))
                (Soup.find_all_tag_with "a" "href" st) locations)
      as (a1 & E1 & L1 & P1).
    { intros a Ha. eapply find_all_tag_with_attr. exact Ha. }
    rewrite E1. destruct (IH (locations ++ a1)) as (a2 & E2 & L2 & P2).
    exists (a1 ++ a2). split; [rewrite E2, <- app_assoc; reflexivity|].
    split; [rewrite length_app, L1, L2; reflexivity|].
    intros loc Hin. apply in_app_or in Hin. destruct Hin as [Hin|Hin].
    + destruct (P1 loc Hin) as (S1 & N1 & U1). eauto.
    + apply P2. exact Hin.
Qed.

Lemma card_details_raises (items : list Soup.node) (item : Soup.node)
    (details : gmap string value) :
  In item items ->
  Soup.find_tag_class "span" "detail" item <> None ->
  detail_label item = None ->
  card_details items details = None.
Proof.
  revert details. induction items as [|x rest IH]; intros details Hin Hs Hl.
  - destruct Hin.
  - cbn [card_details]. destruct Hin as [->|Hin].
    + destruct (Soup.find_tag_class "span" "detail" item); [|congruence].
      rewrite Hl. reflexivity.
    + destruct (Soup.find_tag_class "span" "detail" x).
      * destruct (detail_label x); [|reflexivity]. apply IH; assumption.
      * apply IH; assumption.
Qed.

Lemma community_of_complete (card : Soup.node) (c : value) :
  community_of card = Some c ->
  CommunityShape.complete c = true /\ CommunityShape.absolute_url c = true /\
  exists details, Py.item "details" c = Some (VDict details).
Proof.
  unfold community_of.
  destruct (Soup.find_tag_with "a" "href" card) as [a|]; [|discriminate].
  destruct (Soup.attr "href" a) as [u|]; [|discriminate].
  destruct (card_details _ ∅) as [details|]; [|discriminate].
  intros [= <-]. split; [reflexivity|]. split.
  - apply absolute_starts_with_http.
  - eexists. reflexivity.
Qed.

End LinksScraper.

(** X13: [get_locations] returns nothing when the landing page cannot be
    fetched; otherwise it returns one location per link with an [href]
    inside a state section, the [except] of a state being unreachable;
    every location has a state, a name and an absolute [url]. *)
Theorem get_locations_every_link (W : world) (s : Fetch.session) :
  (fst (Links._safe_get_page W Links.base_url s) = None ->
   fst (Links.get_locations W s) = []) /\
  (forall soup, fst (Links._safe_get_page W Links.base_url s) = Some soup ->
     length (fst (Links.get_locations W s))
       = list_sum
           (map (fun st => length (Soup.find_all_tag_with "a" "href" st))
                (Soup.find_all_tag_class "li" (String.eqb Links.state_class)
                                         soup))) /\
  (forall loc, In loc (fst (Links.get_locations W s)) ->
     (exists st, Py.item "state" loc = Some (VStr st)) /\
     (exists nm, Py.item "name" loc = Some (VStr nm)) /\
     CommunityShape.absolute_url loc = true) /\
  snd (Links.get_locations W s) = snd (Links._safe_get_page W Links.base_url s).
Proof.
  unfold Links.get_locations.
  destruct (Links._safe_get_page W Links.base_url s) as [[soup|] s'];
    cbn [fst snd].
  - destruct (states_all
                (Soup.find_all_tag_class "li" (String.eqb Links.state_class)
                                         soup) []) as (added & E & L & P).
    cbn [app] in E. rewrite E.
    split; [discriminate|]. split; [intros soup' [= <-]; exact L|].
    split; [exact P|reflexivity].
  - split; [reflexivity|]. split; [discriminate|].
    split; [intros loc []|reflexivity].
Qed.

Lemma get_locations_every_link_witness :
  let W := Worlds.serving [] Links.base_url Cities.landing in
  length (fst (Links.get_locations W Fetch.fresh)) = 2 /\
  fst (Links.get_locations Worlds.dead Fetch.fresh) = [].
Proof.
  cbv zeta.
  destruct (get_locations_every_link
              (Worlds.serving [] Links.base_url Cities.landing) Fetch.fresh)
    as (_ & H & _).
  destruct (get_locations_every_link Worlds.dead Fetch.fresh) as (N & _).
  split.
  - rewrite (H Cities.landing); vm_compute; reflexivity.
  - apply N. vm_compute. reflexivity.
Defined.

(** X14: [get_communities] returns nothing when the city page cannot be
    fetched, and at most one record per community card; every record has
    the seven keys of a community summary, an absolute [url] and a dict
    under [details]. *)
Theorem get_communities_records (W : world) (city_url : string)
    (s : Fetch.session) :
  (fst (Links._safe_get_page W city_url s) = None ->
   fst (Links.get_communities W city_url s) = []) /\
  (forall soup, fst (Links._safe_get_page W city_url s) = Some soup ->
     length (fst (Links.get_communities W city_url s))
       <= length (Links.community_cards soup)) /\
  (forall c, In c (fst (Links.get_communities W city_url s)) ->
     CommunityShape.complete c = true /\
     CommunityShape.absolute_url c = true /\
     exists details, Py.item "details" c = Some (VDict details)).
Proof.
  unfold Links.get_communities.
  destruct (Links._safe_get_page W city_url s) as [[soup|] s']; cbn [fst snd].
  - split; [discriminate|]. split.
    + intros soup' [= <-]. generalize (Links.community_cards soup) as cards.
      induction cards as [|card rest IH]; [reflexivity|].
      cbn [omap list_omap length].
      destruct (Links.community_of card); cbn [length]; lia.
    + intros c Hin. apply list_elem_of_In, list_elem_of_omap in Hin.
      destruct Hin as (card & _ & Hc).
      apply (community_of_complete card c Hc).
  - split; [reflexivity|]. split; [discriminate|intros c []].
Qed.

(** X15: a community card one of whose detail items has a [span.detail]
    but no image with an [alt] is dropped as a whole: the lookup of the
    label raises and the [except] of the card skips it. *)
Theorem community_dropped_without_alt (card item : Soup.node) :
  In item (Soup.find_all_tag_class "li"
             (String.eqb "SearchProductDetail_product_detail__q9eCj") card) ->
  Soup.find_tag_class "span" "detail" item <> None ->
  (Soup.find_tag "img" item = None \/
   exists img, Soup.find_tag "img" item = Some img /\
               Soup.attr "alt" img = None) ->
  Links.community_of card = None.
Proof.
  intros Hin Hs Hl. unfold Links.community_of.
  destruct (Soup.find_tag_with "a" "href" card) as [a|]; [|reflexivity].
  destruct (Soup.attr "href" a) as [u|]; [|reflexivity].
  rewrite (card_details_raises _ item ∅ Hin Hs); [reflexivity|].
  unfold Links.detail_label.
  destruct Hl as [->|(img & -> & ->)]; reflexivity.
Qed.

Lemma community_dropped_without_alt_witness :
  Links.community_of Cities.broken_card = None /\
  map (Py.item "url")
      (fst (Links.get_communities
              (Worlds.serving [] "https://www.tollbrothers.com/luxury-homes/Arizona/Phoenix"
                              Cities.city_page)
              "https://www.tollbrothers.com/luxury-homes/Arizona/Phoenix"
              Fetch.fresh))
    = [Some (VStr "https://www.tollbrothers.com/luxury-homes/Arizona/Sterling")].
Proof.
  split; [|vm_compute; reflexivity].
  apply (community_dropped_without_alt Cities.broken_card
           (Cities.detail_item [("src", "bath.svg")] "2 - 4")).
  - vm_compute. auto.
  - vm_compute. discriminate.
  - right. eexists. split; vm_compute; reflexivity.
Defined.

Section LinksMain.

Import Links.

Variable W : world.

Lemma links_page_clock (url : string) (s : Fetch.session) :
  Fetch.clock (snd (_safe_get_page W url s)) <= Fetch.clock s + 3.
Proof.
  unfold _safe_get_page.
  destruct (attempts_bounded W (fun _ => Fetch.retry_delay) url
              (seq 0 Fetch.max_retries) s) as [added B].
  destruct B as [_ Bc _ _ _ _ _]. exact Bc.
Qed.

Lemma get_communities_clock (url : string) (s : Fetch.session) :
  Fetch.clock (snd (get_communities W url s)) <= Fetch.clock s + 3.
Proof.
  unfold get_communities. pose proof (links_page_clock url s) as H.
  destruct (_safe_get_page W url s) as [[soup|] s']; exact H.
Qed.

Lemma get_communities_elems (url : string) (s : Fetch.session) (c : value) :
  In c (fst (get_communities W url s)) ->
  CommunityShape.complete c = true /\ CommunityShape.absolute_url c = true.
Proof.
  unfold get_communities.
  destruct (_safe_get_page W url s) as [[soup|] s']; cbn [fst];
    [|intros []].
  intros Hin. apply list_elem_of_In, list_elem_of_omap in Hin.
  destruct Hin as (card & _ & Hc).
  destruct (community_of_complete card c Hc) as (C & A & _). auto.
Qed.

Lemma cities_loop_spec (locations : list value) (acc : list value)
    (s : Fetch.session) :
  Fetch.clock (snd (cities_loop W locations acc s))
    <= Fetch.clock s + 3 * length locations /\
  forall c, In c (fst (cities_loop W locations acc s)) ->
    In c acc \/
    (CommunityShape.complete c = true /\ CommunityShape.absolute_url c = true).
Proof.
  revert acc s. induction locations as [|city rest IH]; intros acc s.
  - cbn. split; [lia|auto].
  - cbn [cities_loop length].
    destruct (Py.item "url" city) as [[| | | |u| |]|];
      try (destruct (IH acc s) as [Hc Hr]; split; [lia|exact Hr]).
    pose proof (get_communities_clock u s) as Hg.
    pose proof (get_communities_elems u s) as Hrec.
    destruct (get_communities W u s) as [links s1]. cbn [fst snd] in *.
    destruct (IH (acc ++ links) s1) as [Hc Hr]. split; [lia|].
    intros c Hin. apply Hr in Hin. destruct Hin as [Hin|Hin]; [|auto].
    apply in_app_or in Hin. destruct Hin as [Hin|Hin]; [auto|].
    right. apply Hrec. exact Hin.
Qed.

Lemma close_spec (s : Fetch.session) :
  Fetch.driver (Fetch.close s) = false /\
  Fetch.clock (Fetch.close s) = Fetch.clock s.
Proof. unfold Fetch.close. destruct (Fetch.driver s) eqn:E; auto. Qed.

End LinksMain.

(** X16: a run of [main] of the links scraper ends with the browser
    closed, whatever happened; it makes at most three attempts for the
    landing page and three per location; it hands [save_data] either
    nothing or a non-empty list of complete community summaries with
    absolute addresses, and nothing when no location was found. *)
Theorem links_main_run (W : world) :
  Fetch.driver (snd (Links.main W)) = false /\
  Fetch.clock (snd (Links.main W))
    <= 3 + 3 * length (fst (Links.get_locations W Fetch.fresh)) /\
  fst (Links.main W) <> Some [] /\
  (fst (Links.get_locations W Fetch.fresh) = [] -> fst (Links.main W) = None) /\
  (forall payload, fst (Links.main W) = Some payload ->
     forall c, In c payload ->
       CommunityShape.complete c = true /\
       CommunityShape.absolute_url c = true).
Proof.
  unfold Links.main.
  assert (L : Fetch.clock (snd (Links.get_locations W Fetch.fresh)) <= 3).
  { unfold Links.get_locations.
    pose proof (links_page_clock W Links.base_url Fetch.fresh) as H.
    destruct (Links._safe_get_page W Links.base_url Fetch.fresh)
      as [[soup|] s']; exact H. }
  destruct (Links.get_locations W Fetch.fresh) as [locations s1].
  cbn [fst snd] in *. destruct locations as [|city rest].
  - cbn [fst snd length]. destruct (close_spec s1) as [D C].
    rewrite D, C. repeat split; try discriminate; lia.
  - destruct (cities_loop_spec W (city :: rest) [] s1) as [Hc Hr].
    destruct (Links.cities_loop W (city :: rest) [] s1) as [all s2].
    cbn [fst snd] in *. destruct (close_spec s2) as [D C]. rewrite D, C.
    split; [reflexivity|]. split; [lia|].
    split; [destruct all; discriminate|]. split; [discriminate|].
    intros payload Hp c Hin. destruct all as [|x xs]; [discriminate Hp|].
    injection Hp as <-. destruct (Hr c Hin) as [[]|H]. exact H.
Qed.

(** ** [extract_location] *)

Section Location.

Import Extract.

Variable to_float : string -> option (Z * Z).

Lemma coordinates_floats (script : string) (a b : value) :
  coordinates to_float script = Some (Some (a, b)) ->
  exists m1 e1 m2 e2, a = VFloat m1 e1 /\ b = VFloat m2 e2.
Proof.
  unfold coordinates.
  destruct (Regex.search (Regex.re_coordinate "latitude") script) as [la|];
    [|discriminate].
  destruct (Regex.search (Regex.re_coordinate "longitude") script) as [lo|];
    [|discriminate].
  destruct (to_float (Regex.coordinate_group "latitude" la)) as [[m1 e1]|];
    [|discriminate].
  destruct (to_float (Regex.coordinate_group "longitude" lo)) as [[m2 e2]|];
    [|discriminate].
  intros [= <- <-]. exists m1, e1, m2, e2. split; reflexivity.
Qed.

End Location.

(** X17: [extract_location] always returns the complete location shape
    with [market] set to [None]; [latitude] and [longitude] are set
    together or not at all; the city is [None] when the address is absent
    or has no comma; and when [float] rejects a coordinate, the [except]
    branch returns the empty location, so the city and the state already
    read from the address are lost as well. *)
Theorem extract_location_paired (to_float : string -> option (Z * Z))
    (soup : Soup.node) (address : option string) :
  let loc := Extract.extract_location to_float soup address in
  (exists lat lng city state,
     loc = Extract.location_record lat lng city state) /\
  Py.path ["address"; "market"] loc = Some VNone /\
  (Py.path ["latitude"] loc = Some VNone <->
   Py.path ["longitude"] loc = Some VNone) /\
  (Extract.address_part 1 address = None ->
   Py.path ["address"; "city"] loc = Some VNone) /\
  (forall n script,
     Soup.find_tag_string "script" (Regex.lit "latitude") soup = Some n ->
     Soup.string_of n = Some script ->
     Extract.coordinates to_float script = None ->
     loc = Extract.location_record VNone VNone None None).
Proof.
  cbv zeta. unfold Extract.extract_location.
  destruct (Soup.find_tag_string "script" (Regex.lit "latitude") soup)
    as [n|] eqn:F.
  - destruct (Soup.string_of n) as [script|] eqn:S.
    + destruct (Extract.coordinates to_float script) as [[[a b]|]|] eqn:C;
        cbn [Py.try_except].
      * destruct (coordinates_floats to_float script a b C)
          as (m1 & e1 & m2 & e2 & -> & ->).
        split; [eauto|]. split; [reflexivity|]. split.
        -- split; intros H; vm_compute in H; discriminate H.
        -- split; [intros ->; reflexivity|].
           intros n' script' [= <-] Hs. rewrite S in Hs.
           injection Hs as <-. congruence.
      * split; [eauto|]. split; [reflexivity|]. split; [split; reflexivity|].
        split; [intros ->; reflexivity|].
        intros n' script' [= <-] Hs. rewrite S in Hs.
        injection Hs as <-. congruence.
      * split; [eauto|]. split; [reflexivity|]. split; [split; reflexivity|].
        split; reflexivity.
    + cbn [Py.try_except]. split; [eauto|]. split; [reflexivity|].
      split; [split; reflexivity|]. split; reflexivity.
  - cbn [Py.try_except]. split; [eauto|]. split; [reflexivity|].
    split; [split; reflexivity|]. split; [intros ->; reflexivity|].
    discriminate.
Qed.

(** ** The order of strings and the ranges of beds and baths *)

Section StringOrder.

Lemma nat_of_ascii_inj (x y : ascii) : nat_of_ascii x = nat_of_ascii y -> x = y.
Proof.
  intros H. rewrite <- (ascii_nat_embedding x), <- (ascii_nat_embedding y), H.
  reflexivity.
Qed.

Lemma lt_chars_trans (a b c : list ascii) :
  PyStr.lt_chars a b = true -> PyStr.lt_chars b c = true ->
  PyStr.lt_chars a c = true.
Proof.
  revert b c. induction a as [|x a IH]; intros [|y b] [|z c]; cbn [PyStr.lt_chars];
    try discriminate; try reflexivity.
  destruct (Nat.ltb_spec (nat_of_ascii x) (nat_of_ascii y)) as [Hxy|Hxy];
    destruct (Nat.ltb_spec (nat_of_ascii y) (nat_of_ascii x)) as [Hyx|Hyx];
    destruct (Nat.ltb_spec (nat_of_ascii y) (nat_of_ascii z)) as [Hyz|Hyz];
    destruct (Nat.ltb_spec (nat_of_ascii z) (nat_of_ascii y)) as [Hzy|Hzy];
    destruct (Nat.ltb_spec (nat_of_ascii x) (nat_of_ascii z)) as [Hxz|Hxz];
    destruct (Nat.ltb_spec (nat_of_ascii z) (nat_of_ascii x)) as [Hzx|Hzx];
    try discriminate; try reflexivity; try lia.
  apply IH.
Qed.

Lemma lt_chars_total (a b : list ascii) :
  PyStr.lt_chars a b = false -> PyStr.lt_chars b a = false -> a = b.
Proof.
  revert b. induction a as [|x a IH]; intros [|y b]; cbn [PyStr.lt_chars];
    try discriminate; try reflexivity.
  destruct (Nat.ltb_spec (nat_of_ascii x) (nat_of_ascii y)) as [Hxy|Hxy];
    destruct (Nat.ltb_spec (nat_of_ascii y) (nat_of_ascii x)) as [Hyx|Hyx];
    try discriminate; try lia.
  intros H1 H2. assert (x = y) by (apply nat_of_ascii_inj; lia). subst y.
  f_equal. apply IH; assumption.
Qed.

Lemma ltb_irrefl (a : string) : PyStr.ltb a a = false.
Proof.
  unfold PyStr.ltb. induction (PyStr.chars a) as [|c l IH]; [reflexivity|].
  cbn [PyStr.lt_chars]. rewrite Nat.ltb_irrefl. exact IH.
Qed.

Lemma ltb_trans (a b c : string) :
  PyStr.ltb a b = true -> PyStr.ltb b c = true -> PyStr.ltb a c = true.
Proof. apply lt_chars_trans. Qed.

Lemma ltb_total (a b : string) :
  PyStr.ltb a b = false -> PyStr.ltb b a = false -> a = b.
Proof.
  unfold PyStr.ltb. intros H1 H2.
  rewrite <- (string_of_list_ascii_of_string a),
          <- (string_of_list_ascii_of_string b).
  f_equal. apply lt_chars_total; assumption.
Qed.

(** [min] returns an element that none is below, [max] one that is
    below none. *)
Lemma min_str_spec (x : string) (r : list string) :
  In (Py.min_str (x :: r)) (x :: r) /\
  forall y, In y (x :: r) -> PyStr.ltb y (Py.min_str (x :: r)) = false.
Proof.
  cbn [Py.min_str].
  assert (G : forall r m (seen : list string),
    In m seen -> (forall y, In y seen -> PyStr.ltb y m = false) ->
    let m' := fold_left (fun m y => if PyStr.ltb y m then y else m) r m in
    In m' (seen ++ r) /\
    forall y, In y (seen ++ r) -> PyStr.ltb y m' = false).
  { clear. induction r as [|z r IH]; intros m seen Hin Hmin; cbv zeta.
    - cbn [fold_left]. rewrite app_nil_r. auto.
    - cbn [fold_left].
      replace (seen ++ z :: r) with ((seen ++ [z]) ++ r)
        by (rewrite <- app_assoc; reflexivity).
      apply IH.
      + destruct (PyStr.ltb z m); apply in_or_app; [right; left|left]; auto.
      + intros y Hy. apply in_app_or in Hy.
        destruct (PyStr.ltb z m) eqn:E.
        * destruct Hy as [Hy|[<-|[]]].
          -- destruct (PyStr.ltb y z) eqn:Y; [|reflexivity].
             specialize (Hmin y Hy). rewrite (ltb_trans y z m Y E) in Hmin.
             discriminate Hmin.
          -- apply ltb_irrefl.
        * destruct Hy as [Hy|[<-|[]]]; [apply Hmin; exact Hy|exact E]. }
  destruct (G r x [x]) as [H1 H2].
  - left. reflexivity.
  - intros y [<-|[]]. apply ltb_irrefl.
  - cbv zeta in H1, H2. auto.
Qed.

End StringOrder.

Section RangeOfSet.

Import Extract.

Lemma max_str_spec (x : string) (r : list string) :
  In (Py.max_str (x :: r)) (x :: r) /\
  forall y, In y (x :: r) -> PyStr.ltb (Py.max_str (x :: r)) y = false.
Proof.
  cbn [Py.max_str].
  assert (G : forall r m (seen : list string),
    In m seen -> (forall y, In y seen -> PyStr.ltb m y = false) ->
    let m' := fold_left (fun m y => if PyStr.ltb m y then y else m) r m in
    In m' (seen ++ r) /\
    forall y, In y (seen ++ r) -> PyStr.ltb m' y = false).
  { clear. induction r as [|z r IH]; intros m seen Hin Hmax; cbv zeta.
    - cbn [fold_left]. rewrite app_nil_r. auto.
    - cbn [fold_left].
      replace (seen ++ z :: r) with ((seen ++ [z]) ++ r)
        by (rewrite <- app_assoc; reflexivity).
      apply IH.
      + destruct (PyStr.ltb m z); apply in_or_app; [right; left|left]; auto.
      + intros y Hy. apply in_app_or in Hy.
        destruct (PyStr.ltb m z) eqn:E.
        * destruct Hy as [Hy|[<-|[]]].
          -- destruct (PyStr.ltb z y) eqn:Y; [|reflexivity].
             specialize (Hmax y Hy). rewrite (ltb_trans m z y E Y) in Hmax.
             discriminate Hmax.
          -- apply ltb_irrefl.
        * destruct Hy as [Hy|[<-|[]]]; [apply Hmax; exact Hy|exact E]. }
  destruct (G r x [x]) as [H1 H2].
  - left. reflexivity.
  - intros y [<-|[]]. apply ltb_irrefl.
  - cbv zeta in H1, H2. auto.
Qed.

(** The range of a set of texts depends on its elements only. *)
Lemma str_range_same_elements (l1 l2 : list string) :
  (forall x, In x l1 <-> In x l2) -> str_range l1 = str_range l2.
Proof.
  intros H. destruct l1 as [|a l1], l2 as [|b l2].
  - reflexivity.
  - exfalso. apply (proj2 (H b)). left. reflexivity.
  - exfalso. apply (proj1 (H a)). left. reflexivity.
  - unfold str_range.
    destruct (min_str_spec a l1) as [M1 L1].
    destruct (min_str_spec b l2) as [M2 L2].
    destruct (max_str_spec a l1) as [X1 U1].
    destruct (max_str_spec b l2) as [X2 U2].
    assert (Emin : Py.min_str (a :: l1) = Py.min_str (b :: l2)).
    { apply ltb_total.
      - apply L2. apply H. exact M1.
      - apply L1. apply H. exact M2. }
    assert (Emax : Py.max_str (a :: l1) = Py.max_str (b :: l2)).
    { apply ltb_total.
      - apply U1. apply H. exact X2.
      - apply U2. apply H. exact X1. }
    rewrite Emin, Emax. reflexivity.
Qed.

Lemma in_set_add (x y : string) (s : list string) :
  In y (Py.set_add String.eqb x s) <-> y = x \/ In y s.
Proof.
  unfold Py.set_add. destruct (existsb (String.eqb x) s) eqn:E.
  - split; [auto|]. intros [->|H]; [|exact H].
    apply existsb_exists in E. destruct E as (z & Hz & Heq).
    apply String.eqb_eq in Heq. subst z. exact Hz.
  - rewrite in_app_iff. cbn. split.
    + intros [H|[<-|[]]]; auto.
    + intros [->|H]; auto.
Qed.

(** The two sets after the loop over some specs. *)
Lemma add_specs_elements (specs : list string) (beds baths : list string) :
  (forall x, In x (fst (add_specs (beds, baths) specs)) <->
     In x beds \/
     exists spec, In spec specs /\ PyStr.contains "bd" spec = true /\
                  x = PyStr.strip spec) /\
  (forall x, In x (snd (add_specs (beds, baths) specs)) <->
     In x baths \/
     exists spec, In spec specs /\ PyStr.contains "bd" spec = false /\
                  PyStr.contains "ba" spec = true /\ x = PyStr.strip spec).
Proof.
  unfold add_specs. revert beds baths.
  induction specs as [|spec rest IH]; intros beds baths.
  - cbn. split; intros x; split; auto; intros [H|(sp & [] & _)]; exact H.
  - cbn [fold_left].
    destruct (PyStr.contains "bd" spec) eqn:B;
      [|destruct (PyStr.contains "ba" spec) eqn:A].
    + destruct (IH (Py.set_add String.eqb (PyStr.strip spec) beds) baths)
        as [Hb Ha].
      split; intros x; [rewrite Hb, in_set_add|rewrite Ha]; split.
      * intros [[->|H]|(sp & Hin & Hc & Hx)]; [right|auto|right].
        -- exists spec. cbn. auto.
        -- exists sp. cbn. auto.
      * intros [H|(sp & [<-|Hin] & Hc & Hx)]; [auto|auto|right].
        exists sp. auto.
      * intros [H|(sp & Hin & Hc & Hx)]; [auto|right]. exists sp. cbn. auto.
      * intros [H|(sp & [<-|Hin] & Hc & Hx)]; [auto|congruence|right].
        exists sp. auto.
    + destruct (IH beds (Py.set_add String.eqb (PyStr.strip spec) baths))
        as [Hb Ha].
      split; intros x; [rewrite Hb|rewrite Ha, in_set_add]; split.
      * intros [H|(sp & Hin & Hc & Hx)]; [auto|right]. exists sp. cbn. auto.
      * intros [H|(sp & [<-|Hin] & Hc & Hx)]; [auto|congruence|right].
        exists sp. auto.
      * intros [[->|H]|(sp & Hin & Hc)]; [right|auto|right].
        -- exists spec. cbn. auto.
        -- exists sp. cbn. tauto.
      * intros [H|(sp & [<-|Hin] & Hc)]; [auto|destruct Hc as (_ & _ & ->); auto|right].
        exists sp. auto.
    + destruct (IH beds baths) as [Hb Ha].
      split; intros x; [rewrite Hb|rewrite Ha]; split.
      * intros [H|(sp & Hin & Hc & Hx)]; [auto|right]. exists sp. cbn. auto.
      * intros [H|(sp & [<-|Hin] & Hc & Hx)]; [auto|congruence|right].
        exists sp. auto.
      * intros [H|(sp & Hin & Hc)]; [auto|right]. exists sp. cbn. tauto.
      * intros [H|(sp & [<-|Hin] & Hc)]; [auto|destruct Hc as (_ & Hc & _); congruence|right].
        exists sp. auto.
Qed.

Lemma designs_as_one_list (designs : list Soup.node)
    (acc : list string * list string) :
  fold_left
    (fun acc design =>
       add_specs acc (Soup.find_all_text Regex.re_bd_ba design))
    designs acc
  = add_specs acc (flat_map (Soup.find_all_text Regex.re_bd_ba) designs).
Proof.
  revert acc. induction designs as [|d rest IH]; intros acc.
  - reflexivity.
  - cbn [fold_left flat_map]. rewrite IH. unfold add_specs.
    rewrite fold_left_app. reflexivity.
Qed.

End RangeOfSet.

(** X18: the ranges of [extract_beds_baths_range] depend only on which
    bed and bath texts the home designs of the page hold, not on their
    order nor on how often a text occurs: two pages with the same texts
    get the same ranges. *)
Theorem beds_baths_range_of_set (soup1 soup2 : Soup.node) :
  (forall spec, In spec (Ranges.spec_texts soup1) <->
                In spec (Ranges.spec_texts soup2)) ->
  Extract.extract_beds_baths_range soup1
    = Extract.extract_beds_baths_range soup2.
Proof.
  intros H. unfold Extract.extract_beds_baths_range.
  rewrite !designs_as_one_list. fold (Ranges.spec_texts soup1).
  fold (Ranges.spec_texts soup2).
  destruct (add_specs_elements (Ranges.spec_texts soup1) [] []) as [B1 A1].
  destruct (add_specs_elements (Ranges.spec_texts soup2) [] []) as [B2 A2].
  destruct (Extract.add_specs ([], []) (Ranges.spec_texts soup1))
    as [beds1 baths1].
  destruct (Extract.add_specs ([], []) (Ranges.spec_texts soup2))
    as [beds2 baths2].
  cbn [fst snd] in *. f_equal.
  - apply str_range_same_elements. intros x. rewrite B1, B2.
    split; (intros [[]|(sp & Hin & Hc)]; right; exists sp;
            split; [apply H; exact Hin|exact Hc]).
  - apply str_range_same_elements. intros x. rewrite A1, A2.
    split; (intros [[]|(sp & Hin & Hc)]; right; exists sp;
            split; [apply H; exact Hin|exact Hc]).
Qed.

Lemma beds_baths_range_of_set_witness :
  Extract.extract_beds_baths_range Ranges.page_two
    = (Some "3 bd - 5 bd", Some "2 ba - 4 ba").
Proof.
  rewrite <- (beds_baths_range_of_set Ranges.page_one Ranges.page_two).
  - vm_compute. reflexivity.
  - intros spec. vm_compute. tauto.
Defined.

(** ** The amenities section *)

Section Amenities.

Import Soup.

Lemma append_empty (s : string) : String.append s "" = s.
Proof.
  induction s as [|c s IH]; [reflexivity|].
  change (String c (String.append s "") = String c s). f_equal. exact IH.
Qed.

(** A tag that has a [.string] has no other text. *)
Lemma string_of_text : forall (n : node) (s : string),
  string_of n = Some s -> text n = s.
Proof.
  fix IH 1. intros [s0|nm cs ats ks] s H.
  - cbn in H. injection H as ->. reflexivity.
  - destruct ks as [|k [|k2 ks]]; cbn in H; try discriminate H.
    change (text (Tag nm cs ats [k])) with (String.append (text k) "").
    rewrite append_empty. apply IH. exact H.
Qed.

(** Below a tag that has a [.string], every node has that same
    [.string]. *)
Lemma string_of_descendants : forall (n : node) (s : string) (d : node),
  string_of n = Some s -> In d (descendants n) -> string_of d = Some s.
Proof.
  fix IH 1. intros [s0|nm cs ats ks] s d H Hin.
  - destruct Hin.
  - destruct ks as [|k [|k2 ks]]; cbn in H; try discriminate H.
    cbn in Hin. rewrite app_nil_r in Hin. destruct Hin as [<-|Hin].
    + exact H.
    + apply (IH k s d H Hin).
Qed.

Lemma find_tag_In (nm : string) (n d : node) :
  find_tag nm n = Some d -> In d (descendants n).
Proof.
  unfold find_tag, find_all_tag. intros H. apply head_Some_elem_of in H.
  apply list_elem_of_filter in H. destruct H as [_ H].
  apply list_elem_of_In. exact H.
Qed.

End Amenities.

(** X19: every amenity that [extract_amenities] returns is named after
    the heading of the section itself.  The section is found through its
    [.string], so it holds a single text, on which [Elevate the Everyday]
    is found; the name of each amenity is that text, stripped, its
    description is empty or that text again, and its icon is empty. *)
Theorem amenities_named_after_heading (soup : Soup.node) (v : value) :
  In v (Extract.extract_amenities soup) ->
  exists sec heading,
    In sec (Soup.descendants soup) /\
    Soup.string_of sec = Some heading /\
    Regex.found Regex.re_amenities heading = true /\
    Py.item "name" v = Some (VStr (PyStr.strip heading)) /\
    (Py.item "description" v = Some (VStr "") \/
     Py.item "description" v = Some (VStr (PyStr.strip heading))) /\
    Py.item "icon_url" v = Some (VStr "").
Proof.
  unfold Extract.extract_amenities. intros Hin.
  destruct (Soup.find_tag_string "section" Regex.re_amenities soup)
    as [sec|] eqn:E; [|destruct Hin].
  apply find_tag_string_Some in E.
  destruct E as (Hsec & _ & heading & Hs & Hf).
  apply list_elem_of_In, list_elem_of_omap in Hin.
  destruct Hin as (item & Hitem & Hv).
  unfold Soup.find_all_tag_class in Hitem.
  apply list_elem_of_filter in Hitem. destruct Hitem as [_ Hitem].
  apply list_elem_of_In in Hitem.
  pose proof (string_of_descendants sec heading item Hs Hitem) as Hi.
  exists sec, heading. split; [exact Hsec|]. split; [exact Hs|].
  split; [exact Hf|].
  unfold Extract.amenity_of in Hv.
  destruct (Soup.find_tag "h3" item) as [name|] eqn:En; [|discriminate Hv].
  apply find_tag_In in En.
  rewrite (string_of_text name heading
             (string_of_descendants item heading name Hi En)) in Hv.
  destruct (Soup.find_tag "p" item) as [desc|] eqn:Ed.
  - apply find_tag_In in Ed.
    rewrite (string_of_text desc heading
               (string_of_descendants item heading desc Hi Ed)) in Hv.
    injection Hv as <-. split; [reflexivity|]. split; [right|]; reflexivity.
  - injection Hv as <-. split; [reflexivity|]. split; [left|]; reflexivity.
Qed.

Lemma amenities_named_after_heading_witness :
  Extract.extract_amenities Headings.nested = [Headings.nested_amenity] /\
  exists sec heading,
    In sec (Soup.descendants Headings.nested) /\
    Soup.string_of sec = Some heading /\
    Regex.found Regex.re_amenities heading = true /\
    Py.item "name" Headings.nested_amenity
      = Some (VStr (PyStr.strip heading)) /\
    (Py.item "description" Headings.nested_amenity = Some (VStr "") \/
     Py.item "description" Headings.nested_amenity
       = Some (VStr (PyStr.strip heading))) /\
    Py.item "icon_url" Headings.nested_amenity = Some (VStr "").
Proof.
  split; [vm_compute; reflexivity|].
  apply (amenities_named_after_heading Headings.nested).
  vm_compute. left. reflexivity.
Defined.

(** ** Texts returned whole *)

Section Stripped.

Import Regex.

Lemma lstrip_keeps (p : ascii -> bool) (pre : list ascii) (c : ascii)
    (m : list ascii) :
  p c = false ->
  exists pre', PyStr.lstrip_by p (pre ++ c :: m) = pre' ++ c :: m.
Proof.
  intros Hc. induction pre as [|x pre IH]; cbn [app PyStr.lstrip_by].
  - rewrite Hc. exists []. reflexivity.
  - destruct (p x); [exact IH|]. exists (x :: pre). reflexivity.
Qed.

(** Stripping leaves in place a stretch of the text that neither starts
    nor ends with a stripped character. *)
Lemma strip_keeps (p : ascii -> bool) (pre m post : list ascii) :
  (exists c m', m = c :: m' /\ p c = false) ->
  (exists m' c, m = m' ++ [c] /\ p c = false) ->
  exists pre' post', PyStr.strip_by p (pre ++ m ++ post) = pre' ++ m ++ post'.
Proof.
  intros (c & m1 & E1 & Hc) (m2 & c' & E2 & Hc'). unfold PyStr.strip_by.
  destruct (lstrip_keeps p pre c (m1 ++ post) Hc) as [pre' E].
  replace (pre ++ m ++ post) with (pre ++ c :: m1 ++ post)
    by (rewrite E1; reflexivity).
  rewrite E.
  replace (pre' ++ c :: m1 ++ post) with (pre' ++ (m2 ++ [c']) ++ post)
    by (rewrite <- E2, E1; reflexivity).
  rewrite !rev_app_distr. cbn [rev app]. rewrite <- !app_assoc.
  cbn [app].
  destruct (lstrip_keeps p (rev post) c' (rev m2 ++ rev pre') Hc')
    as [post' E'].
  rewrite E'. exists pre', (rev post').
  rewrite !rev_app_distr. cbn [rev app]. rewrite !rev_app_distr.
  rewrite !rev_involutive. rewrite <- !app_assoc. cbn [app].
  rewrite E2. rewrite <- !app_assoc. reflexivity.
Qed.

Lemma chars_str (l : list ascii) : PyStr.chars (PyStr.str l) = l.
Proof. apply list_ascii_of_string_of_list_ascii. Qed.

(** A match that neither starts nor ends with white space is still found
    after [strip()]. *)
Lemma found_stripped (r : re) (t : string) (pre m post : list ascii) :
  PyStr.chars t = pre ++ m ++ post ->
  (forall post', exists rest, In rest (run r (m ++ post'))) ->
  (exists c m', m = c :: m' /\ PyStr.is_space c = false) ->
  (exists m' c, m = m' ++ [c] /\ PyStr.is_space c = false) ->
  found r (PyStr.strip t) = true.
Proof.
  intros Ht Hm Hhead Hlast. apply found_iff. unfold PyStr.strip.
  rewrite chars_str, Ht.
  destruct (strip_keeps PyStr.is_space pre m post Hhead Hlast)
    as (pre' & post' & ->).
  destruct (Hm post') as [rest Hrest].
  exists pre', (m ++ post'), rest. auto.
Qed.

Lemma digit_not_space (c : ascii) :
  PyStr.is_digit c = true -> PyStr.is_space c = false.
Proof.
  unfold PyStr.is_digit, PyStr.is_space. cbv zeta. intros H.
  apply andb_prop in H. destruct H as [H1 H2].
  apply Nat.leb_le in H1, H2.
  repeat match goal with
         | |- context [(?a =? ?b)%nat] => destruct (Nat.eqb_spec a b); try lia
         | |- context [(?a <=? ?b)%nat] => destruct (Nat.leb_spec a b); try lia
         end.
Qed.

Lemma find_text_In (r : re) (n : Soup.node) (t : string) :
  Soup.find_text r n = Some t ->
  In (Soup.Str t) (Soup.descendants n) /\ found r t = true.
Proof.
  unfold Soup.find_text, Soup.find_all_text. intros H.
  apply head_Some_elem_of, list_elem_of_omap in H.
  destruct H as (d & Hin & Hd). destruct d as [s|]; [|discriminate].
  destruct (found r s) eqn:F; [|discriminate].
  injection Hd as <-. apply list_elem_of_In in Hin. auto.
Qed.

(** Zero repetitions are among the ways [r*] matches. *)
Lemma in_run_Star_none (r : re) (s : list ascii) : In s (run (Star r) s).
Proof.
  cbn [run]. destruct (length s); [left; reflexivity|].
  apply in_or_app. right. left. reflexivity.
Qed.

Lemma found_phone_stripped (t : string) :
  found re_phone t = true -> found re_phone (PyStr.strip t) = true.
Proof.
  intros H. pose proof H as H0. apply found_iff in H.
  destruct H as (pre & suf & rest & Ht & Hin).
  unfold re_phone, digit in Hin.
  apply in_run_Seq in Hin. destruct Hin as (s1 & Ha & Hin).
  apply in_run_Rep in Ha. destruct Ha as (a & -> & La & Da).
  apply in_run_Seq in Hin. destruct Hin as (s2 & Hd1 & Hin).
  apply in_run_Cls in Hd1. destruct Hd1 as (d1 & -> & Hd1).
  apply in_run_Seq in Hin. destruct Hin as (s3 & Hb & Hin).
  apply in_run_Rep in Hb. destruct Hb as (b & -> & Lb & Db).
  apply in_run_Seq in Hin. destruct Hin as (s4 & Hd2 & Hin).
  apply in_run_Cls in Hd2. destruct Hd2 as (d2 & -> & Hd2).
  apply in_run_Rep in Hin. destruct Hin as (c & -> & Lc & Dc).
  destruct a as [|a1 a]; [discriminate La|].
  destruct c as [|c1 [|c2 [|c3 [|c4 [|]]]]]; try discriminate Lc.
  apply (found_stripped re_phone t pre
           (a1 :: a ++ d1 :: b ++ d2 :: [c1; c2; c3; c4]) rest).
  - rewrite Ht. cbn [app]. rewrite <- !app_assoc. cbn [app].
    rewrite <- !app_assoc. reflexivity.
  - intros post'. exists post'. unfold re_phone, digit.
    apply in_run_Seq. exists (d1 :: b ++ d2 :: [c1; c2; c3; c4] ++ post').
    split.
    + apply in_run_Rep. exists (a1 :: a). split; [|auto].
      cbn [app]. rewrite <- !app_assoc. cbn [app]. rewrite <- !app_assoc.
      reflexivity.
    + apply in_run_Seq. exists (b ++ d2 :: [c1; c2; c3; c4] ++ post').
      split; [apply in_run_Cls; exists d1; auto|].
      apply in_run_Seq. exists (d2 :: [c1; c2; c3; c4] ++ post').
      split; [apply in_run_Rep; exists b; auto|].
      apply in_run_Seq. exists ([c1; c2; c3; c4] ++ post').
      split; [apply in_run_Cls; exists d2; auto|].
      apply in_run_Rep. exists [c1; c2; c3; c4]. auto.
  - exists a1, (a ++ d1 :: b ++ d2 :: [c1; c2; c3; c4]).
    split; [reflexivity|]. apply digit_not_space.
    cbn [forallb] in Da. apply andb_prop in Da. tauto.
  - exists (a1 :: a ++ d1 :: b ++ d2 :: [c1; c2; c3]), c4. split.
    + cbn [app]. rewrite <- !app_assoc. cbn [app]. rewrite <- !app_assoc.
      reflexivity.
    + apply digit_not_space. cbn [forallb] in Dc.
      repeat (apply andb_prop in Dc; destruct Dc as [? Dc]). assumption.
Qed.

Lemma found_price_stripped (t : string) :
  found re_price t = true -> found re_price (PyStr.strip t) = true.
Proof.
  intros H. apply found_iff in H.
  destruct H as (pre & suf & rest & Ht & Hin).
  unfold re_price, lit, Plus in Hin.
  apply in_run_Seq in Hin. destruct Hin as (mid & Hl & Hin).
  apply in_run_Lit in Hl. subst suf.
  apply in_run_Seq in Hin. destruct Hin as (mid' & Hc & _).
  apply in_run_Cls in Hc. destruct Hc as (c & -> & Hc).
  apply (found_stripped re_price t pre
           (PyStr.chars "starting at $" ++ [c]) mid').
  - rewrite Ht. rewrite <- !app_assoc. reflexivity.
  - intros post'. exists post'. unfold re_price, lit, Plus.
    apply in_run_Seq. exists (c :: post'). split.
    + apply in_run_Lit. rewrite <- app_assoc. reflexivity.
    + apply in_run_Seq. exists post'. split.
      * apply in_run_Cls. exists c. auto.
      * apply in_run_Star_none.
  - exists "s"%char, (PyStr.chars "tarting at $" ++ [c]).
    split; reflexivity.
  - exists (PyStr.chars "starting at $"), c. split; [reflexivity|].
    apply orb_prop in Hc. destruct Hc as [Hc|Hc].
    + apply digit_not_space. exact Hc.
    + unfold PyStr.ascii_eqb in Hc. apply Ascii.eqb_eq in Hc. subst c.
      reflexivity.
Qed.

End Stripped.

(** X20: a phone that [extract_phone] returns is a whole text of the
    page with the white space at its ends removed, not the number alone;
    the pattern of a phone number, found in the text, is still found in
    what is returned. *)
Theorem phone_is_stripped_text (soup : Soup.node) :
  Extract.extract_phone soup <> "" ->
  exists t,
    In (Soup.Str t) (Soup.descendants soup) /\
    Regex.found Regex.re_phone t = true /\
    Extract.extract_phone soup = PyStr.strip t /\
    Regex.found Regex.re_phone (Extract.extract_phone soup) = true.
Proof.
  unfold Extract.extract_phone. intros H.
  destruct (Soup.find_text Regex.re_phone soup) as [t|] eqn:E;
    [|contradiction H; reflexivity].
  destruct (Extract.nonempty t); [|contradiction H; reflexivity].
  apply find_text_In in E. destruct E as [Hin Hf]. exists t.
  split; [exact Hin|]. split; [exact Hf|]. split; [reflexivity|].
  apply found_phone_stripped. exact Hf.
Qed.

Lemma phone_is_stripped_text_witness :
  Extract.extract_phone Headings.contact = "Call 480-555-0100 today" /\
  exists t,
    In (Soup.Str t) (Soup.descendants Headings.contact) /\
    Regex.found Regex.re_phone t = true /\
    Extract.extract_phone Headings.contact = PyStr.strip t /\
    Regex.found Regex.re_phone (Extract.extract_phone Headings.contact)
      = true.
Proof.
  split; [vm_compute; reflexivity|].
  apply (phone_is_stripped_text Headings.contact).
  vm_compute. discriminate.
Defined.

(** X21: a price that [extract_price_range] returns is a whole text of
    the page with the white space at its ends removed, in which
    [starting at $] and a digit or comma are still found; it is never
    the empty text. *)
Theorem price_is_stripped_text (soup : Soup.node) (price : string) :
  Extract.extract_price_range soup = Some price ->
  exists t,
    In (Soup.Str t) (Soup.descendants soup) /\
    Regex.found Regex.re_price t = true /\
    price = PyStr.strip t /\
    Regex.found Regex.re_price price = true /\
    price <> "".
Proof.
  unfold Extract.extract_price_range. intros H.
  destruct (Soup.find_text Regex.re_price soup) as [t|] eqn:E;
    [|discriminate H].
  destruct (Extract.nonempty t); [|discriminate H].
  injection H as <-.
  apply find_text_In in E. destruct E as [Hin Hf]. exists t.
  pose proof (found_price_stripped t Hf) as Hs.
  split; [exact Hin|]. split; [exact Hf|]. split; [reflexivity|].
  split; [exact Hs|].
  intros Hempty. rewrite Hempty in Hs. vm_compute in Hs. discriminate Hs.
Qed.

Lemma price_is_stripped_text_witness :
  Extract.extract_price_range Headings.contact
    = Some "Homes starting at $875,000 in Goodyear" /\
  exists t,
    In (Soup.Str t) (Soup.descendants Headings.contact) /\
    Regex.found Regex.re_price t = true /\
    "Homes starting at $875,000 in Goodyear" = PyStr.strip t /\
    Regex.found Regex.re_price "Homes starting at $875,000 in Goodyear"
      = true /\
    "Homes starting at $875,000 in Goodyear" <> "".
Proof.
  split; [vm_compute; reflexivity|].
  apply (price_is_stripped_text Headings.contact).
  vm_compute. reflexivity.
Defined.

(** * The extractors and the community record *)

(** ** Pages without a marker *)

Section Markers.

Import Soup Extract.

Lemma nil_of_no_element {A : Type} (l : list A) :
  (forall x, ~ In x l) -> l = [].
Proof.
  destruct l as [|x l]; [reflexivity|]. intros H. exfalso.
  apply (H x). left. reflexivity.
Qed.

Lemma find_all_text_nil (r : Regex.re) (n : node) :
  (forall t, In (Str t) (descendants n) -> Regex.found r t = false) ->
  find_all_text r n = [].
Proof.
  intros H. apply nil_of_no_element. intros t Ht.
  unfold find_all_text in Ht. apply list_elem_of_In, list_elem_of_omap in Ht.
  destruct Ht as (d & Hd & E). destruct d as [s|]; [|discriminate E].
  destruct (Regex.found r s) eqn:F; [|discriminate E].
  apply list_elem_of_In in Hd. rewrite (H s Hd) in F. discriminate F.
Qed.

Lemma find_text_None (r : Regex.re) (n : node) :
  (forall t, In (Str t) (descendants n) -> Regex.found r t = false) ->
  find_text r n = None.
Proof.
  intros H. unfold find_text. rewrite find_all_text_nil by exact H.
  reflexivity.
Qed.

Lemma find_tag_None (nm : string) (n : node) :
  (forall d, In d (descendants n) -> name_is nm d = false) ->
  find_tag nm n = None.
Proof.
  intros H. destruct (find_tag nm n) as [d|] eqn:E; [|reflexivity].
  unfold find_tag, find_all_tag in E.
  apply head_Some_elem_of, list_elem_of_filter in E. destruct E as [Hn Hin].
  apply list_elem_of_In in Hin. rewrite (H d Hin) in Hn. discriminate Hn.
Qed.

Lemma find_id_None (i : string) (n : node) :
  (forall d, In d (descendants n) -> attr "id" d <> Some i) ->
  find_id i n = None.
Proof.
  intros H. destruct (find_id i n) as [d|] eqn:E; [|reflexivity].
  unfold find_id in E.
  apply head_Some_elem_of, list_elem_of_filter in E. destruct E as [Hp Hin].
  apply list_elem_of_In in Hin. specialize (H d Hin).
  destruct (attr "id" d) as [i'|]; [|discriminate Hp].
  apply String.eqb_eq in Hp. subst i'. congruence.
Qed.

Lemma beds_baths_without_text (soup : node) :
  (forall design t, In design (home_designs soup) ->
                    In (Str t) (descendants design) ->
                    Regex.found Regex.re_bd_ba t = false) ->
  extract_beds_baths_range soup = (None, None).
Proof.
  intros H. unfold extract_beds_baths_range.
  assert (E : forall designs acc,
    (forall design, In design designs ->
                    find_all_text Regex.re_bd_ba design = []) ->
    fold_left
      (fun acc design => add_specs acc (find_all_text Regex.re_bd_ba design))
      designs acc = acc).
  { induction designs as [|design rest IH]; intros acc Hd; [reflexivity|].
    cbn [fold_left]. rewrite (Hd design (or_introl eq_refl)).
    unfold add_specs at 2. cbn [fold_left]. apply IH.
    intros d Hin. apply Hd. right. exact Hin. }
  rewrite E; [reflexivity|].
  intros design Hd. apply find_all_text_nil. intros t. apply H. exact Hd.
Qed.

Lemma sqft_without_text (soup : node) :
  (forall design t, In design (home_designs soup) ->
                    In (Str t) (descendants design) ->
                    Regex.found Regex.re_sqft t = false) ->
  extract_sqft_range soup = None.
Proof.
  intros H. unfold extract_sqft_range.
  assert (E : forall designs acc,
    (forall design, In design designs ->
                    find_text Regex.re_sqft design = None) ->
    collect_sqft acc designs = Some acc).
  { induction designs as [|design rest IH]; intros acc Hd; [reflexivity|].
    cbn [collect_sqft]. unfold add_sqft.
    rewrite (Hd design (or_introl eq_refl)). apply IH.
    intros d Hin. apply Hd. right. exact Hin. }
  rewrite E; [reflexivity|].
  intros design Hd. apply find_text_None. intros t. apply H. exact Hd.
Qed.

Lemma homeplans_without_design (soup : node) :
  (forall design, In design (home_designs soup) ->
     (forall d, In d (descendants design) -> name_is "h3" d = false) \/
     (forall t, In (Str t) (descendants design) ->
                Regex.found Regex.re_bd_ba_sqft t = false)) ->
  extract_homeplans soup = [].
Proof.
  intros H. apply nil_of_no_element. intros v Hv.
  unfold extract_homeplans in Hv.
  apply list_elem_of_In, list_elem_of_omap in Hv.
  destruct Hv as (design & Hd & E). apply list_elem_of_In in Hd.
  unfold homeplan_of in E. destruct (H design Hd) as [Hn|Ht].
  - rewrite (find_tag_None "h3" design Hn) in E. discriminate E.
  - rewrite (find_all_text_nil _ design Ht) in E.
    destruct (find_tag "h3" design); discriminate E.
Qed.

End Markers.

(** ** The dict literal of [get_community_details] *)

Section Literal_fields.

Import Detail.

Variable W : world.

Lemma get_community_details_assembled (url : string) (s s1 : Fetch.session)
    (soup : Soup.node) (price : value) :
  first_page W url selectors s = (Some soup, s1) ->
  price_of (extract_jsonld_data W soup) = Some price ->
  exists s',
    get_community_details W url s
      = (Some (community_info W (now W (Fetch.clock s')) url soup
                 (extract_jsonld_data W soup) price
                 (fst (extract_homesites W soup s1))), s').
Proof.
  intros F P. unfold get_community_details. rewrite F. unfold assemble.
  rewrite P. destruct (extract_homesites W soup s1) as [homesites s2].
  exists s2. reflexivity.
Qed.

(** What the literal puts under each key. *)
Lemma community_info_fields (timestamp url : string) (soup : Soup.node)
    (jsonld : gmap string value) (price : value) (homesites : list value) :
  let r := community_info W timestamp url soup jsonld price homesites in
  Shape.complete r = true /\
  Py.item "timestamp" r = Some (VStr timestamp) /\
  Py.item "name" r = Some (Py.or (Py.get "name" (VStr "") jsonld) (VStr "")) /\
  Py.item "url" r = Some (VStr url) /\
  Py.item "status" r = Some VNone /\
  Py.item "price_from" r = Some price /\
  Py.item "address" r
    = Some (VStr (match jsonld !! "address" with
                  | Some (VDict addr) => format_address W addr
                  | _ => ""
                  end)) /\
  Py.item "phone" r = Some (Py.get "telephone" (VStr "") jsonld) /\
  Py.item "description" r = Some (description_of soup jsonld) /\
  Py.item "images" r = Some (VList (images_of soup jsonld)) /\
  Py.path ["location"; "latitude"] r = Some (geo_field "latitude" jsonld) /\
  Py.path ["location"; "longitude"] r = Some (geo_field "longitude" jsonld) /\
  Py.path ["location"; "address"; "city"] r
    = Some (address_field "addressLocality" jsonld) /\
  Py.path ["location"; "address"; "state"] r
    = Some (address_field "addressRegion" jsonld) /\
  Py.path ["location"; "address"; "market"] r = Some VNone /\
  Py.path ["details"; "price_range"] r = Some price /\
  Py.path ["details"; "sqft_range"] r
    = Some (Py.of_option (Extract.extract_sqft_range soup)) /\
  Py.path ["details"; "bed_range"] r
    = Some (Py.of_option (fst (Extract.extract_beds_baths_range soup))) /\
  Py.path ["details"; "bath_range"] r
    = Some (Py.of_option (snd (Extract.extract_beds_baths_range soup))) /\
  Py.path ["details"; "stories_range"] r = Some (VStr "") /\
  Py.path ["details"; "community_count"] r = Some (VInt 0) /\
  Py.item "amenities" r = Some (VList (Extract.extract_amenities soup)) /\
  Py.item "homeplans" r = Some (VList (Extract.extract_homeplans soup)) /\
  Py.item "homesites" r = Some (VList homesites) /\
  Py.item "nearbyplaces" r = Some (VList []).
Proof.
  cbv zeta. unfold community_info.
  destruct (Extract.extract_beds_baths_range soup) as [beds baths].
  repeat split.
Qed.

End Literal_fields.

Section Defaults.

Import Soup Detail.

Lemma find_tag_class_None (nm c : string) (n : node) :
  (forall d, In d (descendants n) -> name_is nm d = true ->
             class_matches (String.eqb c) d = false) ->
  find_tag_class nm c n = None.
Proof.
  intros H. destruct (find_tag_class nm c n) as [d|] eqn:E; [|reflexivity].
  unfold find_tag_class, find_all_tag_class in E.
  apply head_Some_elem_of, list_elem_of_filter in E. destruct E as [Hp Hin].
  apply list_elem_of_In in Hin. apply andb_prop in Hp. destruct Hp as [Hn Hc].
  rewrite (H d Hin Hn) in Hc. discriminate Hc.
Qed.

Lemma falsy_or_empty (k : string) (jsonld : gmap string value) :
  (forall v, jsonld !! k = Some v -> Py.truthy v = false) ->
  Py.or (Py.get k (VStr "") jsonld) (VStr "") = VStr "".
Proof.
  intros H. unfold Py.or, Py.get. destruct (jsonld !! k) as [v|] eqn:E.
  - rewrite (H v eq_refl). reflexivity.
  - reflexivity.
Qed.

Lemma price_of_nothing (jsonld : gmap string value) (price : value) :
  price_of jsonld = Some price ->
  (forall v, jsonld !! "priceRange" = Some v -> Py.truthy v = false) ->
  (jsonld !! "offers" = None \/
   exists offers, jsonld !! "offers" = Some (VDict offers) /\
                  offers !! "price" = None) ->
  price = VNone.
Proof.
  unfold price_of, Py.get. intros P Hr Ho.
  assert (T : Py.truthy match jsonld !! "priceRange" with
                        | Some v => v
                        | None => VNone
                        end = false).
  { destruct (jsonld !! "priceRange") as [v|]; [apply Hr|]; reflexivity. }
  rewrite T in P. destruct Ho as [Ho|(offers & Ho & Hp)]; rewrite Ho in P.
  - rewrite lookup_empty in P. injection P as <-. reflexivity.
  - rewrite Hp in P. injection P as <-. reflexivity.
Qed.

End Defaults.

(** ** C3: the shape of the community record *)

(** C3, as stated, fails at [details.community_count]: nothing on a page
    populates it, and it holds the integer 0, which is neither [None] nor
    an empty sequence. *)
Lemma community_count_is_zero :
  match fst (Detail.get_community_details Sparse.site Listings.community_url
                                          Fetch.fresh) with
  | Some r => Py.path ["details"; "community_count"] r
  | None => None
  end = Some (VInt 0) /\
  Shape.is_empty (VInt 0) = false.
Proof. split; [vm_compute; reflexivity|reflexivity]. Qed.

(** C3 (amended): every record that [get_community_details] returns has
    all the keys of the community record, nested ones included, whatever
    the page.  [url] and [timestamp] are always set, [status], [market],
    [stories_range] and [nearbyplaces] always hold [None], the empty
    string and the empty list, and [details.community_count] always holds
    the integer 0.  Every other field, taken by itself, holds [None], the
    empty string or the empty list on every page that does not give its
    source: the key of the structured data, the overview paragraph, the
    gallery, the texts of the home designs, the amenities section, the
    homesite cards. *)
Theorem community_record_complete (W : world) (url : string)
    (s s' : Fetch.session) (r : value) :
  Detail.get_community_details W url s = (Some r, s') ->
  Shape.complete r = true /\
  Py.path ["details"; "community_count"] r = Some (VInt 0) /\
  Py.item "url" r = Some (VStr url) /\
  Py.item "timestamp" r = Some (VStr (now W (Fetch.clock s'))) /\
  Py.item "status" r = Some VNone /\
  Py.path ["location"; "address"; "market"] r = Some VNone /\
  Py.path ["details"; "stories_range"] r = Some (VStr "") /\
  Py.item "nearbyplaces" r = Some (VList []) /\
  exists soup s1,
    Detail.first_page W url Detail.selectors s = (Some soup, s1) /\
    let jsonld := Detail.extract_jsonld_data W soup in
    ((forall v, jsonld !! "name" = Some v -> Py.truthy v = false) ->
     Py.item "name" r = Some (VStr "")) /\
    (jsonld !! "telephone" = None -> Py.item "phone" r = Some (VStr "")) /\
    ((forall addr, jsonld !! "address" <> Some (VDict addr)) ->
     Py.item "address" r = Some (VStr "") /\
     Py.path ["location"; "address"; "city"] r = Some VNone /\
     Py.path ["location"; "address"; "state"] r = Some VNone) /\
    ((forall v, jsonld !! "priceRange" = Some v -> Py.truthy v = false) ->
     (jsonld !! "offers" = None \/
      exists offers, jsonld !! "offers" = Some (VDict offers) /\
                     offers !! "price" = None) ->
     Py.item "price_from" r = Some VNone /\
     Py.path ["details"; "price_range"] r = Some VNone) /\
    ((forall geo, jsonld !! "geo" <> Some (VDict geo)) ->
     Py.path ["location"; "latitude"] r = Some VNone /\
     Py.path ["location"; "longitude"] r = Some VNone) /\
    ((forall p, In p (Soup.descendants soup) -> Soup.name_is "p" p = true ->
                Soup.class_matches (String.eqb Detail.overview_class) p
                  = false) ->
     (forall v, jsonld !! "description" = Some v -> Py.truthy v = false) ->
     Py.item "description" r = Some (VStr "")) /\
    ((jsonld !! "image" = None \/ jsonld !! "image" = Some (VList [])) ->
     (forall d, In d (Soup.descendants soup) ->
                Soup.attr "id" d <> Some "toScroll-gallery") ->
     Py.item "images" r = Some (VList [])) /\
    ((forall design t, In design (Extract.home_designs soup) ->
                       In (Soup.Str t) (Soup.descendants design) ->
                       Regex.found Regex.re_sqft t = false) ->
     Py.path ["details"; "sqft_range"] r = Some VNone) /\
    ((forall design t, In design (Extract.home_designs soup) ->
                       In (Soup.Str t) (Soup.descendants design) ->
                       Regex.found Regex.re_bd_ba t = false) ->
     Py.path ["details"; "bed_range"] r = Some VNone /\
     Py.path ["details"; "bath_range"] r = Some VNone) /\
    ((forall d text, In d (Soup.descendants soup) ->
                     Soup.name_is "section" d = true ->
                     Soup.string_of d = Some text ->
                     Regex.found Regex.re_amenities text = false) ->
     Py.item "amenities" r = Some (VList [])) /\
    ((forall design, In design (Extract.home_designs soup) ->
        (forall d, In d (Soup.descendants design) ->
                   Soup.name_is "h3" d = false) \/
        (forall t, In (Soup.Str t) (Soup.descendants design) ->
                   Regex.found Regex.re_bd_ba_sqft t = false)) ->
     Py.item "homeplans" r = Some (VList [])) /\
    (Detail.cards_of soup = [] -> Py.item "homesites" r = Some (VList [])).
Proof.
  intros H. apply get_community_details_Some in H.
  destruct H as (soup & s1 & price & F & P & Hs & ->).
  destruct (community_info_fields W (now W (Fetch.clock s')) url soup
              (Detail.extract_jsonld_data W soup) price
              (fst (Detail.extract_homesites W soup s1)))
    as (Kc & Kts & Kname & Kurl & Kstatus & Kprice & Kaddr & Kphone & Kdesc
        & Kimg & Klat & Klng & Kcity & Kstate & Kmarket & Krange & Ksqft
        & Kbed & Kbath & Kstories & Kcount & Kam & Kplans & Ksites & Knear).
  repeat match goal with |- _ /\ _ => split end; try assumption.
  exists soup, s1. split; [exact F|]. cbv zeta.
  repeat match goal with |- _ /\ _ => split end.
  - intros Hn. rewrite Kname, (falsy_or_empty "name" _ Hn). reflexivity.
  - intros Hn. rewrite Kphone. unfold Py.get. rewrite Hn. reflexivity.
  - intros Hn.
    assert (E : forall k, Detail.address_field k
                            (Detail.extract_jsonld_data W soup) = VNone).
    { intros k. unfold Detail.address_field, Py.get.
      destruct (Detail.extract_jsonld_data W soup !! "address") as [[]|];
        try reflexivity.
      exfalso. eapply Hn. reflexivity. }
    rewrite Kaddr, Kcity, Kstate, !E. split; [|split; reflexivity].
    destruct (Detail.extract_jsonld_data W soup !! "address") as [[]|];
      try reflexivity.
    exfalso. eapply Hn. reflexivity.
  - intros Hr Ho. rewrite Kprice, Krange.
    rewrite (price_of_nothing _ _ P Hr Ho). split; reflexivity.
  - intros Hn.
    assert (E : forall k, Detail.geo_field k
                            (Detail.extract_jsonld_data W soup) = VNone).
    { intros k. unfold Detail.geo_field.
      destruct (Detail.extract_jsonld_data W soup !! "geo") as [[]|];
        try reflexivity.
      exfalso. eapply Hn. reflexivity. }
    rewrite Klat, Klng, !E. split; reflexivity.
  - intros Hp Hd. rewrite Kdesc. unfold Detail.description_of.
    rewrite (find_tag_class_None "p" Detail.overview_class soup Hp).
    rewrite (falsy_or_empty "description" _ Hd). reflexivity.
  - intros Hi Hg. rewrite Kimg. unfold Detail.images_of, Detail.jsonld_images.
    unfold Extract.extract_images.
    rewrite (find_id_None "toScroll-gallery" soup Hg).
    destruct Hi as [->| ->]; reflexivity.
  - intros Hn. rewrite Ksqft, (sqft_without_text soup Hn). reflexivity.
  - intros Hn. rewrite Kbed, Kbath, (beds_baths_without_text soup Hn).
    split; reflexivity.
  - intros Hn. rewrite Kam. unfold Extract.extract_amenities.
    rewrite (find_tag_string_None "section" Regex.re_amenities soup Hn).
    reflexivity.
  - intros Hn. rewrite Kplans, (homeplans_without_design soup Hn).
    reflexivity.
  - intros Hn. rewrite Ksites. unfold Detail.extract_homesites. rewrite Hn.
    reflexivity.
Qed.

Lemma community_record_complete_witness :
  exists r : value,
    fst (Detail.get_community_details Avalon.site Listings.community_url
                                      Fetch.fresh) = Some r /\
    Shape.complete r = true /\
    Py.item "name" r = Some (VStr "Avalon Estates") /\
    Py.item "status" r = Some VNone /\
    Py.item "price_from" r = Some VNone /\
    Py.path ["location"; "latitude"] r = Some VNone /\
    Py.path ["details"; "sqft_range"] r = Some VNone /\
    Py.path ["details"; "community_count"] r = Some (VInt 0) /\
    Py.item "homesites" r = Some (VList []).
Proof.
  destruct (Detail.get_community_details Avalon.site Listings.community_url
                                         Fetch.fresh) as [[r|] s'] eqn:E.
  - destruct (community_record_complete _ _ _ _ _ E)
      as (C & N & _ & _ & St & _ & _ & _ & soup & s1 & F & H).
    vm_compute in F. injection F as <- _. cbv zeta in H.
    destruct H as (_ & _ & _ & Hp & Hg & _ & _ & Hq & _ & _ & _ & Hh).
    exists r. split; [reflexivity|]. split; [exact C|].
    split; [vm_compute in E; injection E as <- _; reflexivity|].
    split; [exact St|].
    split; [apply Hp; [intros v Hv; vm_compute in Hv; discriminate Hv
                      |left; vm_compute; reflexivity]|].
    split; [apply Hg; intros geo Hv; vm_compute in Hv; discriminate Hv|].
    split; [apply Hq; intros design t Hd; vm_compute in Hd; destruct Hd|].
    split; [exact N|].
    apply Hh. vm_compute. reflexivity.
  - vm_compute in E. discriminate E.
Defined.

(** ** C1: the field extractors on a page without their marker *)

(** C1, as stated, fails: on a page that shows no telephone in the form
    ddd-ddd-dddd, [extract_phone] returns the empty string, which is not
    [None]. *)
Lemma extract_phone_empty_string :
  Soup.find_all_text Regex.re_phone Sparse.page = [] /\
  Extract.extract_phone Sparse.page = "" /\
  VStr (Extract.extract_phone Sparse.page) <> VNone.
Proof.
  split; [vm_compute; reflexivity|]. split; [vm_compute; reflexivity|].
  discriminate.
Qed.

(** The nodes of a sample page, one by one. *)
Ltac each_node H :=
  vm_compute in H;
  repeat match type of H with
         | _ \/ _ => destruct H as [H|H]
         end;
  try contradiction.

(** C1 (amended): on a page that lacks the marker of a field, the
    extractor of that field raises nothing and returns its empty value:
    [None] for [extract_price_range] and [extract_sqft_range],
    [(None, None)] for [extract_beds_baths_range], the empty string for
    [extract_phone], [extract_address] and [extract_description], the
    empty list for [extract_amenities], [extract_images] and
    [extract_homeplans].  A failure inside an extractor stays inside it:
    [extract_sqft_range], the one whose body can raise, then returns
    [None], and [get_community_details] still returns its record, which
    holds under [sqft_range], [bed_range], [bath_range], [amenities] and
    [homeplans], and under [images] when the structured data names no
    image, what the extractor of that field returned.  The record does
    not hold what [extract_price_range], [extract_phone],
    [extract_address] and [extract_description] return: they are never
    called, and [price_from], [phone], [address] and [description] are
    read from the structured data and the overview paragraph. *)
Theorem extractors_without_marker (soup : Soup.node) :
  ((forall t, In (Soup.Str t) (Soup.descendants soup) ->
              Regex.found Regex.re_price t = false) ->
   Extract.extract_price_range soup = None) /\
  ((forall t, In (Soup.Str t) (Soup.descendants soup) ->
              Regex.found Regex.re_phone t = false) ->
   Extract.extract_phone soup = "") /\
  ((forall d text, In d (Soup.descendants soup) ->
                   Soup.name_is "div" d = true ->
                   Soup.string_of d = Some text ->
                   Regex.found Regex.re_address text = false) ->
   Extract.extract_address soup = "") /\
  ((forall d text, In d (Soup.descendants soup) ->
                   Soup.name_is "div" d = true ->
                   Soup.string_of d = Some text ->
                   Regex.found Regex.re_description text = false) ->
   Extract.extract_description soup = "") /\
  ((forall design t, In design (Extract.home_designs soup) ->
                     In (Soup.Str t) (Soup.descendants design) ->
                     Regex.found Regex.re_bd_ba t = false) ->
   Extract.extract_beds_baths_range soup = (None, None)) /\
  ((forall design t, In design (Extract.home_designs soup) ->
                     In (Soup.Str t) (Soup.descendants design) ->
                     Regex.found Regex.re_sqft t = false) ->
   Extract.extract_sqft_range soup = None) /\
  ((forall d text, In d (Soup.descendants soup) ->
                   Soup.name_is "section" d = true ->
                   Soup.string_of d = Some text ->
                   Regex.found Regex.re_amenities text = false) ->
   Extract.extract_amenities soup = []) /\
  ((forall d, In d (Soup.descendants soup) ->
              Soup.attr "id" d <> Some "toScroll-gallery") ->
   Extract.extract_images soup = []) /\
  ((forall design, In design (Extract.home_designs soup) ->
      (forall d, In d (Soup.descendants design) ->
                 Soup.name_is "h3" d = false) \/
      (forall t, In (Soup.Str t) (Soup.descendants design) ->
                 Regex.found Regex.re_bd_ba_sqft t = false)) ->
   Extract.extract_homeplans soup = []) /\
  (existsb overlong (Extract.home_designs soup) = true ->
   Extract.extract_sqft_range soup = None) /\
  (forall (W : world) (url : string) (s s1 : Fetch.session) (price : value),
      Detail.first_page W url Detail.selectors s = (Some soup, s1) ->
      let jsonld := Detail.extract_jsonld_data W soup in
      Detail.price_of jsonld = Some price ->
      exists r s',
        Detail.get_community_details W url s = (Some r, s') /\
        Py.path ["details"; "sqft_range"] r
          = Some (Py.of_option (Extract.extract_sqft_range soup)) /\
        Py.path ["details"; "bed_range"] r
          = Some (Py.of_option (fst (Extract.extract_beds_baths_range soup))) /\
        Py.path ["details"; "bath_range"] r
          = Some (Py.of_option (snd (Extract.extract_beds_baths_range soup))) /\
        Py.item "amenities" r = Some (VList (Extract.extract_amenities soup)) /\
        Py.item "homeplans" r = Some (VList (Extract.extract_homeplans soup)) /\
        (jsonld !! "image" = None ->
         Py.item "images" r
           = Some (VList (map VStr (Extract.extract_images soup)))) /\
        Py.item "price_from" r = Some price /\
        Py.item "phone" r = Some (Py.get "telephone" (VStr "") jsonld) /\
        (jsonld !! "address" = None -> Py.item "address" r = Some (VStr "")) /\
        (Soup.find_tag_class "p" Detail.overview_class soup = None ->
         jsonld !! "description" = None ->
         Py.item "description" r = Some (VStr ""))).
Proof.
  repeat match goal with |- _ /\ _ => split end.
  - intros H. unfold Extract.extract_price_range.
    rewrite (find_text_None _ soup H). reflexivity.
  - intros H. unfold Extract.extract_phone.
    rewrite (find_text_None _ soup H). reflexivity.
  - intros H. unfold Extract.extract_address.
    rewrite (find_tag_string_None "div" Regex.re_address soup H).
    reflexivity.
  - intros H. unfold Extract.extract_description.
    rewrite (find_tag_string_None "div" Regex.re_description soup H).
    reflexivity.
  - apply beds_baths_without_text.
  - apply sqft_without_text.
  - intros H. unfold Extract.extract_amenities.
    rewrite (find_tag_string_None "section" Regex.re_amenities soup H).
    reflexivity.
  - intros H. unfold Extract.extract_images.
    rewrite (find_id_None "toScroll-gallery" soup H). reflexivity.
  - apply homeplans_without_design.
  - intros H. unfold Extract.extract_sqft_range.
    rewrite (collect_sqft_raises (Extract.home_designs soup) [] H).
    reflexivity.
  - intros W url s s1 price F. cbv zeta. intros P.
    destruct (get_community_details_assembled W url s s1 soup price F P)
      as [s' E].
    destruct (community_info_fields W (now W (Fetch.clock s')) url soup
                (Detail.extract_jsonld_data W soup) price
                (fst (Detail.extract_homesites W soup s1)))
      as (_ & _ & _ & _ & _ & Kprice & Kaddr & Kphone & Kdesc
          & Kimg & _ & _ & _ & _ & _ & _ & Ksqft
          & Kbed & Kbath & _ & _ & Kam & Kplans & _ & _).
    eexists. exists s'. split; [exact E|].
    repeat match goal with |- _ /\ _ => split end; try assumption.
    + intros Hi. rewrite Kimg. unfold Detail.images_of, Detail.jsonld_images.
      rewrite Hi. reflexivity.
    + intros Ha. rewrite Kaddr, Ha. reflexivity.
    + intros Hp Hd. rewrite Kdesc. unfold Detail.description_of, Py.or, Py.get.
      rewrite Hp, Hd. reflexivity.
Qed.

Lemma extractors_without_marker_witness :
  (Extract.extract_price_range Sparse.page = None /\
   Extract.extract_phone Sparse.page = "" /\
   Extract.extract_address Sparse.page = "" /\
   Extract.extract_description Sparse.page = "" /\
   Extract.extract_beds_baths_range Sparse.page = (None, None) /\
   Extract.extract_sqft_range Sparse.page = None /\
   Extract.extract_amenities Sparse.page = [] /\
   Extract.extract_images Sparse.page = [] /\
   Extract.extract_homeplans Sparse.page = []) /\
  Extract.extract_sqft_range Sparse.crowded = None /\
  Extract.extract_phone Sparse.crowded = "480-555-0100" /\
  exists r : value,
    fst (Detail.get_community_details Sparse.crowded_site
           Listings.community_url Fetch.fresh) = Some r /\
    Py.path ["details"; "sqft_range"] r = Some VNone /\
    Py.path ["details"; "bed_range"] r = Some (VStr "3 bd - 4 bd") /\
    Py.item "phone" r = Some (VStr "").
Proof.
  split.
  - destruct (extractors_without_marker Sparse.page)
      as (H1 & H2 & H3 & H4 & H5 & H6 & H7 & H8 & H9 & _).
    repeat match goal with |- _ /\ _ => split end.
    + apply H1. intros t Hin. each_node Hin; try discriminate Hin;
        injection Hin as <-; vm_compute; reflexivity.
    + apply H2. intros t Hin. each_node Hin; try discriminate Hin;
        injection Hin as <-; vm_compute; reflexivity.
    + apply H3. intros d text Hin Hn Hs.
      each_node Hin; subst d; vm_compute in Hn; try discriminate Hn;
        vm_compute in Hs; try discriminate Hs;
        injection Hs as <-; vm_compute; reflexivity.
    + apply H4. intros d text Hin Hn Hs.
      each_node Hin; subst d; vm_compute in Hn; try discriminate Hn;
        vm_compute in Hs; try discriminate Hs;
        injection Hs as <-; vm_compute; reflexivity.
    + apply H5. intros design t Hd Hin. vm_compute in Hd.
      destruct Hd as [<-|[]].
      each_node Hin; try discriminate Hin;
        injection Hin as <-; vm_compute; reflexivity.
    + apply H6. intros design t Hd Hin. vm_compute in Hd.
      destruct Hd as [<-|[]].
      each_node Hin; try discriminate Hin;
        injection Hin as <-; vm_compute; reflexivity.
    + apply H7. intros d text Hin Hn Hs.
      each_node Hin; subst d; vm_compute in Hn; try discriminate Hn;
        vm_compute in Hs; try discriminate Hs;
        injection Hs as <-; vm_compute; reflexivity.
    + apply H8. intros d Hin.
      each_node Hin; subst d; vm_compute; discriminate.
    + apply H9. intros design Hd. vm_compute in Hd. destruct Hd as [<-|[]].
      left. intros d Hin. each_node Hin; subst d; vm_compute; reflexivity.
  - destruct (extractors_without_marker Sparse.crowded)
      as (_ & _ & _ & _ & _ & _ & _ & _ & _ & HB & HC).
    assert (B : Extract.extract_sqft_range Sparse.crowded = None)
      by (apply HB; vm_compute; reflexivity).
    split; [exact B|]. split; [vm_compute; reflexivity|].
    assert (F : Detail.first_page Sparse.crowded_site Listings.community_url
                  Detail.selectors Fetch.fresh
                = (Some Sparse.crowded,
                   snd (Detail.first_page Sparse.crowded_site
                          Listings.community_url Detail.selectors
                          Fetch.fresh)))
      by (vm_compute; reflexivity).
    destruct (HC Sparse.crowded_site Listings.community_url Fetch.fresh _
                 VNone F) as (r & s' & E & Ks & Kb & _ & _ & _ & _ & _ & Kp & _).
    + vm_compute. reflexivity.
    + exists r. rewrite E. split; [reflexivity|].
      split; [rewrite Ks, B; reflexivity|].
      split; [rewrite Kb; vm_compute; reflexivity|].
      rewrite Kp. vm_compute. reflexivity.
Defined.
